(** * A shallow embedding of the 65go2 MOS 6502 core

    The development follows the Go sources:
    - [clock.go]          : the [Clocker] interface and the [Divider] adapter;
    - the CPU file of package [m65go2] : [Registers], [M6502], the addressing
      modes, the flag helpers and the instruction bodies;
    - the CPU file of the earlier package [_65go2] (type [Cpu]) : module [V1];
    - [instructions.go]   : [InstructionTable] and [InitInstructions] of the
      earlier package; the opcode table of package [m65go2] is not among the
      sources and is modelled from the specification ([opcodeTable]).

    Fixed-width integers are [Z] with the wrap-around written out
    ([u8], [u16], [u64]); the bus and the clock are interfaces, so they are
    type classes, and a method with a pointer receiver is a state-passing
    function. *)

From Stdlib Require Import ZArith Bool List Lia.
From stdpp Require Import base option gmap.
Import ListNotations.

Local Open Scope Z_scope.

(** ** Machine integers *)

Definition u8 (z : Z) : Z := z mod 256.
Definition u16 (z : Z) : Z := z mod 65536.
Definition u64 (z : Z) : Z := z mod 18446744073709551616.

(** Go's unary [^] on [uint8] and on [uint16]. *)
Definition not8 (z : Z) : Z := Z.lxor z 0xff.
Definition not16 (z : Z) : Z := Z.lxor z 0xffff.

(** ** Flags used by the P (status) register

    [const ( C Status = 1 << iota; Z; I; D; B; _; V; N )] *)
Module Status.
Definition C : BinNums.Z := BinInt.Z.shiftl 1 0. (* carry flag *)
Definition I : BinNums.Z := BinInt.Z.shiftl 1 2. (* interrupt disable *)
Definition D : BinNums.Z := BinInt.Z.shiftl 1 3. (* decimal mode *)
Definition B : BinNums.Z := BinInt.Z.shiftl 1 4. (* break command *)
Definition V : BinNums.Z := BinInt.Z.shiftl 1 6. (* overflow flag *)
Definition N : BinNums.Z := BinInt.Z.shiftl 1 7. (* negative flag *)
Definition Z : BinNums.Z := BinInt.Z.shiftl 1 1. (* zero flag *)
End Status.

(** ** The register file *)
Module Registers.
Record t : Type := mk
  { A : Z    (* accumulator *)
  ; X : Z    (* index register X *)
  ; Y : Z    (* index register Y *)
  ; P : Z    (* processor status *)
  ; SP : Z   (* stack pointer *)
  ; PC : Z   (* program counter *) }.

Definition set_A (v : Z) (r : t) : t := mk v (X r) (Y r) (P r) (SP r) (PC r).
Definition set_X (v : Z) (r : t) : t := mk (A r) v (Y r) (P r) (SP r) (PC r).
Definition set_Y (v : Z) (r : t) : t := mk (A r) (X r) v (P r) (SP r) (PC r).
Definition set_P (v : Z) (r : t) : t := mk (A r) (X r) (Y r) v (SP r) (PC r).
Definition set_SP (v : Z) (r : t) : t := mk (A r) (X r) (Y r) (P r) v (PC r).
Definition set_PC (v : Z) (r : t) : t := mk (A r) (X r) (Y r) (P r) (SP r) v.

(** [func (reg *Registers) Reset()] *)
Definition Reset (reg : t) : t :=
  let reg := set_A 0 reg in
  let reg := set_X 0 reg in
  let reg := set_Y 0 reg in
  let reg := set_P Status.I reg in
  let reg := set_SP 0xfd reg in
  set_PC 0xfffc reg.
End Registers.

(** [func NewRegisters() Registers { return Registers{} }] *)
Definition NewRegisters : Registers.t := Registers.mk 0 0 0 0 0 0.

(** [type Index uint8; const ( X Index = iota; Y )] *)
Module Index.
Inductive t : Type := X | Y.
End Index.

(** ** The collaborators: memory bus and clock *)

Module Memory.
(** Modelled from the spec: the [Memory] interface is declared outside the
    files at hand.  [fetch(addr: u16) -> u8] and [store(addr: u16, value: u8)]
    are total and may have side effects on the bus, [reset()] returns the bus
    to a defined initial state.  [Fetch_uint8] is the result type of
    [Fetch]. *)
Class t (M : Type) : Type := mk
  { Reset : M -> M
  ; Fetch : M -> Z -> Z * M
  ; Store : M -> Z -> Z -> M
  ; Fetch_uint8 : forall m address, 0 <= fst (Fetch m address) < 256 }.
End Memory.

Module Clocker.
(** [type Clocker interface { Ticks() uint64; Start() (ticks uint64);
    Stop(); Await(tick uint64) (ticks uint64) }].  The tick counter moves
    on its own, so even [Ticks] returns the clock it leaves behind. *)
Class t (C : Type) : Type := mk
  { Ticks : C -> Z * C
  ; Start : C -> Z * C
  ; Stop : C -> C
  ; Await : C -> Z -> Z * C }.
End Clocker.

(** ** The clock divider (clock.go) *)
Module Divider.
Section WithMaster.
Context {C : Type} `{!Clocker.t C}.

(** [type Divider struct { master Clocker; divisor uint64 }] *)
Record t : Type := mk { master : C; divisor : Z }.

(** Integer division of [uint64] values; Go panics when the divisor is
    zero, which is [None] here. *)
Definition div64 (n d : Z) : option Z :=
  if d =? 0 then None else Some (n / d).

(** [return clock.master.Ticks() / clock.divisor] *)
Definition Ticks (clock : t) : option (Z * t) :=
  let '(n, m) := Clocker.Ticks (master clock) in
  q ← div64 n (divisor clock);
  Some (q, mk m (divisor clock)).

(** [return clock.master.Start() / clock.divisor] *)
Definition Start (clock : t) : option (Z * t) :=
  let '(n, m) := Clocker.Start (master clock) in
  q ← div64 n (divisor clock);
  Some (q, mk m (divisor clock)).

(** [clock.master.Stop()] *)
Definition Stop (clock : t) : t :=
  mk (Clocker.Stop (master clock)) (divisor clock).

(** [return clock.master.Await(tick*clock.divisor) / clock.divisor] *)
Definition Await (clock : t) (tick : Z) : option (Z * t) :=
  let '(n, m) := Clocker.Await (master clock) (u64 (tick * divisor clock)) in
  q ← div64 n (divisor clock);
  Some (q, mk m (divisor clock)).
End WithMaster.
Arguments t C : clear implicits.
End Divider.

(** [func NewDivider(master Clocker, divisor uint64) *Divider] *)
Definition NewDivider {C : Type} (master : C) (divisor : Z) : Divider.t C :=
  Divider.mk master divisor.

(** ** The CPU (package m65go2) *)

(** [type OpCode uint8] *)
Definition OpCode : Type := Z.

(** [type BadOpCodeError OpCode] *)
Inductive error : Type := BadOpCodeError (opcode : OpCode).

(** Modelled from the spec: [SamePage] is declared outside the files at hand;
    "page-cross comparison uses only the high byte of each address", that is
    [(a & 0xFF00) == (b & 0xFF00)]. *)
Definition SamePage (addr1 addr2 : Z) : bool :=
  Z.land addr1 0xff00 =? Z.land addr2 0xff00.

(** [type direction int; const ( left direction = iota; right )] *)
Module direction.
Inductive t : Type := left | right.
End direction.

(** Modelled from the spec: the opcode table of package m65go2 is declared
    outside the files at hand.  "Each entry binds an 8-bit opcode to a
    (mnemonic, addressing mode, base cycles) tuple"; the mnemonics are those
    of the documented 6502 instruction set. *)
Module Mnemonic.
Inductive t : Type :=
| ADC | AND | ASL | BCC | BCS | BEQ | BIT | BMI | BNE | BPL | BRK | BVC | BVS
| CLC | CLD | CLI | CLV | CMP | CPX | CPY | DEC | DEX | DEY | EOR | INC | INX
| INY | JMP | JSR | LDA | LDX | LDY | LSR | NOP | ORA | PHA | PHP | PLA | PLP
| ROL | ROR | RTI | RTS | SBC | SEC | SED | SEI | STA | STX | STY | TAX | TAY
| TSX | TXA | TXS | TYA.
End Mnemonic.

(** Modelled from the spec: the addressing modes of its table (Immediate,
    Zero page, Zero page,index, Relative, Absolute, Indirect, Absolute,index,
    (Indirect,X), (Indirect),Y), and the two forms without an operand
    address, implied and accumulator. *)
Module Mode.
Inductive t : Type :=
| Implied | Accumulator | Immediate | ZeroPage | ZeroPageX | ZeroPageY
| Relative | Absolute | AbsoluteX | AbsoluteY | Indirect | IndirectX
| IndirectY.
End Mode.

Section CPU.
Context {Mem Clk : Type} `{!Memory.t Mem} `{!Clocker.t Clk}.

(** The part of [type M6502 struct] that the instruction bodies work on.
    The fifth field, [Instructions], holds functions over the CPU itself;
    it is kept beside this record in [M6502] below.  The diagnostic
    [fmt.Printf] guarded by [decode] writes to standard output only. *)
Record Core : Type := mkCore
  { decode : bool
  ; clock : Clk
  ; Registers : Registers.t
  ; Memory : Mem }.

(** A method with receiver [cpu *M6502] and result [A]. *)
Definition Op (A : Type) : Type := Core -> A * Core.

Definition ret {A} (a : A) : Op A := fun cpu => (a, cpu).
Definition bind {A B} (m : Op A) (k : A -> Op B) : Op B :=
  fun cpu => let '(a, cpu') := m cpu in k a cpu'.

Declare Scope op_scope.
Delimit Scope op_scope with op.
Bind Scope op_scope with Op.
Notation "x <- m ;; k" := (bind m (fun x => k))
  (at level 100, m at next level, right associativity) : op_scope.
Notation "m ;; k" := (bind m (fun _ => k))
  (at level 100, right associativity) : op_scope.
Local Open Scope op_scope.

(** Reading and writing [cpu.Registers]. *)
Definition regs : Op Registers.t := fun cpu => (Registers cpu, cpu).
Definition update (f : Registers.t -> Registers.t) : Op unit :=
  fun cpu => (tt, mkCore (decode cpu) (clock cpu) (f (Registers cpu)) (Memory cpu)).

(** [cpu.Memory.Fetch(address)] and [cpu.Memory.Store(address, value)]. *)
Definition fetch (address : Z) : Op Z :=
  fun cpu =>
    let '(value, mem) := Memory.Fetch (Memory cpu) address in
    (value, mkCore (decode cpu) (clock cpu) (Registers cpu) mem).
Definition store (address value : Z) : Op unit :=
  fun cpu =>
    (tt, mkCore (decode cpu) (clock cpu) (Registers cpu)
                (Memory.Store (Memory cpu) address value)).

(** *** Flag helpers *)

Definition setZFlag (value : Z) : Op Z :=
  r <- regs ;;
  (if value =? 0
   then update (Registers.set_P (Z.lor (Registers.P r) Status.Z))
   else update (Registers.set_P (Z.land (Registers.P r) (not8 Status.Z)))) ;;
  ret value.

Definition setNFlag (value : Z) : Op Z :=
  r <- regs ;;
  update (Registers.set_P
            (Z.lor (Z.land (Registers.P r) (not8 Status.N))
                   (Z.land value Status.N))) ;;
  ret value.

Definition setZNFlags (value : Z) : Op Z :=
  setZFlag value ;;
  setNFlag value ;;
  ret value.

(** [P = (P & ^C) | Status(value>>8&uint16(C))] *)
Definition setCFlagAddition (value : Z) : Op Z :=
  r <- regs ;;
  update (Registers.set_P
            (Z.lor (Z.land (Registers.P r) (not8 Status.C))
                   (u8 (Z.land (Z.shiftr value 8) Status.C)))) ;;
  ret value.

(** [P = (P & ^V) | Status((^(term1^term2)&(term1^result)&uint16(N))>>1)] *)
Definition setVFlagAddition (term1 term2 result : Z) : Op Z :=
  r <- regs ;;
  update (Registers.set_P
            (Z.lor (Z.land (Registers.P r) (not8 Status.V))
                   (u8 (Z.shiftr
                          (Z.land (Z.land (not16 (Z.lxor term1 term2))
                                          (Z.lxor term1 result))
                                  Status.N) 1)))) ;;
  ret result.

(** *** Addressing modes *)

Definition immediateAddress : Op Z :=
  r <- regs ;;
  let result := Registers.PC r in
  update (Registers.set_PC (u16 (Registers.PC r + 1))) ;;
  ret result.

Definition zeroPageAddress : Op Z :=
  r <- regs ;;
  result <- fetch (Registers.PC r) ;;
  update (Registers.set_PC (u16 (Registers.PC r + 1))) ;;
  ret result.

Definition IndexToRegister (which : Index.t) : Op Z :=
  r <- regs ;;
  ret (match which with
       | Index.X => Registers.X r
       | Index.Y => Registers.Y r
       end).

(** The sum is a [uint8] sum, widened afterwards. *)
Definition zeroPageIndexedAddress (index : Index.t) : Op Z :=
  r <- regs ;;
  value <- fetch (Registers.PC r) ;;
  reg <- IndexToRegister index ;;
  update (Registers.set_PC (u16 (Registers.PC r + 1))) ;;
  ret (u8 (value + reg)).

Definition relativeAddress : Op Z :=
  r <- regs ;;
  value <- fetch (Registers.PC r) ;;
  let pc := u16 (Registers.PC r + 1) in
  update (Registers.set_PC pc) ;;
  ret (if 0x7f <? value
       then u16 (pc - u16 (0x0100 - value))
       else u16 (pc + value)).

Definition absoluteAddress : Op Z :=
  r <- regs ;;
  low <- fetch (Registers.PC r) ;;
  high <- fetch (u16 (Registers.PC r + 1)) ;;
  update (Registers.set_PC (u16 (Registers.PC r + 2))) ;;
  ret (Z.lor (u16 (Z.shiftl high 8)) low).

(** The pointer's low byte is incremented as a [uint8]: the 6502 only
    increments the low byte when it reads the second byte of the target. *)
Definition indirectAddress : Op Z :=
  r <- regs ;;
  low <- fetch (Registers.PC r) ;;
  high <- fetch (u16 (Registers.PC r + 1)) ;;
  update (Registers.set_PC (u16 (Registers.PC r + 2))) ;;
  let aHigh := Z.lor (u16 (Z.shiftl high 8)) (u8 (low + 1)) in
  let aLow := Z.lor (u16 (Z.shiftl high 8)) low in
  low <- fetch aLow ;;
  high <- fetch aHigh ;;
  ret (Z.lor (u16 (Z.shiftl high 8)) low).

(** [cycles *uint16] may be nil: [None] is the nil pointer, [Some c] a
    pointer to a counter holding [c]; the counter is returned with the
    address. *)
Definition pageCrossed (cycles : option Z) (address result : Z) : option Z :=
  match cycles with
  | Some c => if negb (SamePage address result) then Some (u16 (c + 1)) else Some c
  | None => None
  end.

Definition absoluteIndexedAddress (index : Index.t) (cycles : option Z)
  : Op (Z * option Z) :=
  r <- regs ;;
  low <- fetch (Registers.PC r) ;;
  high <- fetch (u16 (Registers.PC r + 1)) ;;
  update (Registers.set_PC (u16 (Registers.PC r + 2))) ;;
  let address := Z.lor (u16 (Z.shiftl high 8)) low in
  reg <- IndexToRegister index ;;
  let result := u16 (address + reg) in
  ret (result, pageCrossed cycles address result).

Definition indexedIndirectAddress : Op Z :=
  r <- regs ;;
  value <- fetch (Registers.PC r) ;;
  let address := u8 (value + Registers.X r) in
  update (Registers.set_PC (u16 (Registers.PC r + 1))) ;;
  low <- fetch address ;;
  high <- fetch (u16 (address + 1)) ;;
  ret (Z.lor (u16 (Z.shiftl high 8)) low).

Definition indirectIndexedAddress (cycles : option Z) : Op (Z * option Z) :=
  r <- regs ;;
  address <- fetch (Registers.PC r) ;;
  update (Registers.set_PC (u16 (Registers.PC r + 1))) ;;
  low <- fetch address ;;
  high <- fetch (u16 (address + 1)) ;;
  let address := Z.lor (u16 (Z.shiftl high 8)) low in
  r <- regs ;;
  let result := u16 (address + Registers.Y r) in
  ret (result, pageCrossed cycles address result).

(** *** Loads, stores, transfers, stack *)

(** [*register = cpu.setZNFlags(cpu.Memory.Fetch(address))]; the pointer
    [register *uint8] is the setter of the register it points to. *)
Definition load (address : Z) (register : Z -> Registers.t -> Registers.t)
  : Op unit :=
  value <- fetch address ;;
  value <- setZNFlags value ;;
  update (register value).

Definition Lda (address : Z) : Op unit := load address Registers.set_A.
Definition Ldx (address : Z) : Op unit := load address Registers.set_X.
Definition Ldy (address : Z) : Op unit := load address Registers.set_Y.

Definition Sta (address : Z) : Op unit :=
  r <- regs ;; store address (Registers.A r).
Definition Stx (address : Z) : Op unit :=
  r <- regs ;; store address (Registers.X r).
Definition Sty (address : Z) : Op unit :=
  r <- regs ;; store address (Registers.Y r).

(** [*to = cpu.setZNFlags(from)] *)
Definition transfer (from : Z) (to : Z -> Registers.t -> Registers.t)
  : Op unit :=
  value <- setZNFlags from ;;
  update (to value).

Definition Tax : Op unit := r <- regs ;; transfer (Registers.A r) Registers.set_X.
Definition Tay : Op unit := r <- regs ;; transfer (Registers.A r) Registers.set_Y.
Definition Txa : Op unit := r <- regs ;; transfer (Registers.X r) Registers.set_A.
Definition Tya : Op unit := r <- regs ;; transfer (Registers.Y r) Registers.set_A.
Definition Tsx : Op unit := r <- regs ;; transfer (Registers.SP r) Registers.set_X.
Definition Txs : Op unit := r <- regs ;; transfer (Registers.X r) Registers.set_SP.

Definition push (value : Z) : Op unit :=
  r <- regs ;;
  store (Z.lor 0x0100 (Registers.SP r)) value ;;
  update (Registers.set_SP (u8 (Registers.SP r - 1))).

Definition push16 (value : Z) : Op unit :=
  push (u8 (Z.shiftr value 8)) ;;
  push (u8 value).

Definition pull : Op Z :=
  r <- regs ;;
  let sp := u8 (Registers.SP r + 1) in
  update (Registers.set_SP sp) ;;
  fetch (Z.lor 0x0100 sp).

Definition pull16 : Op Z :=
  low <- pull ;;
  high <- pull ;;
  ret (Z.lor (u16 (Z.shiftl high 8)) low).

Definition Pha : Op unit := r <- regs ;; push (Registers.A r).
Definition Php : Op unit := r <- regs ;; push (Z.lor (Registers.P r) Status.B).
Definition Pla : Op unit :=
  value <- pull ;;
  value <- setZNFlags value ;;
  update (Registers.set_A value).
Definition Plp : Op unit :=
  value <- pull ;;
  update (Registers.set_P value).

(** *** Logic *)

Definition And (address : Z) : Op unit :=
  r <- regs ;;
  value <- fetch address ;;
  value <- setZNFlags (Z.land (Registers.A r) value) ;;
  update (Registers.set_A value).

Definition Eor (address : Z) : Op unit :=
  r <- regs ;;
  value <- fetch address ;;
  value <- setZNFlags (Z.lxor (Registers.A r) value) ;;
  update (Registers.set_A value).

Definition Ora (address : Z) : Op unit :=
  r <- regs ;;
  value <- fetch address ;;
  value <- setZNFlags (Z.lor (Registers.A r) value) ;;
  update (Registers.set_A value).

(** [value := Fetch(address); cpu.setZFlag(value & A);
    P = Status(uint8(P) | (value & 0xc0))] *)
Definition Bit (address : Z) : Op unit :=
  value <- fetch address ;;
  r <- regs ;;
  setZFlag (Z.land value (Registers.A r)) ;;
  r <- regs ;;
  update (Registers.set_P (Z.lor (Registers.P r) (Z.land value 0xc0))).

(** *** Arithmetic *)

(** [func (cpu *M6502) addition(value uint16)]; both branches end in the
    same two statements, which set C from bit 8 of [result], then V, Z, N
    and the accumulator. *)
Definition addition (value : Z) : Op unit :=
  r <- regs ;;
  let orig := Registers.A r in
  if Z.land (Registers.P r) Status.D =? 0 then
    result <- setCFlagAddition
                (u16 (u16 (orig + value) + Z.land (Registers.P r) Status.C)) ;;
    result <- setVFlagAddition orig value result ;;
    a <- setZNFlags (u8 result) ;;
    update (Registers.set_A a)
  else
    let low := u16 (u16 (Z.land orig 0x000f + Z.land value 0x000f)
                    + Z.land (Registers.P r) Status.C) in
    let high := u16 (Z.land orig 0x00f0 + Z.land value 0x00f0) in
    let '(low, high) :=
      if 0x000a <=? low then (u16 (low - 0x000a), u16 (high + 0x0010))
      else (low, high) in
    let high := if 0x00a0 <=? high then u16 (high - 0x00a0) else high in
    result <- setCFlagAddition (Z.lor high (Z.land low 0x000f)) ;;
    result <- setVFlagAddition orig value result ;;
    a <- setZNFlags (u8 result) ;;
    update (Registers.set_A a).

Definition Adc (address : Z) : Op unit :=
  value <- fetch address ;;
  addition value.

Definition Sbc (address : Z) : Op unit :=
  value <- fetch address ;;
  r <- regs ;;
  let value :=
    if Z.land (Registers.P r) Status.D =? 0 then Z.lxor value 0xff
    else u16 (0x99 - value) in
  addition value.

(** *** Branches *)

(** [func (cpu *M6502) branch(address uint16, condition func() bool,
    cycles *uint16)].  The condition closes over the CPU, so it is a
    predicate on the register file; [cycles] points to the caller's
    counter, whose value goes in and comes back. *)
Definition branch (address : Z) (condition : Registers.t -> bool) (cycles : Z)
  : Op Z :=
  r <- regs ;;
  if condition r then
    let cycles := u16 (cycles + 1) in
    let cycles :=
      if negb (SamePage (Registers.PC r) address) then u16 (cycles + 1)
      else cycles in
    update (Registers.set_PC address) ;;
    ret cycles
  else ret cycles.

Definition Bcc (address cycles : Z) : Op Z :=
  branch address (fun r => Z.land (Registers.P r) Status.C =? 0) cycles.
Definition Bcs (address cycles : Z) : Op Z :=
  branch address (fun r => negb (Z.land (Registers.P r) Status.C =? 0)) cycles.
Definition Beq (address cycles : Z) : Op Z :=
  branch address (fun r => negb (Z.land (Registers.P r) Status.Z =? 0)) cycles.
Definition Bmi (address cycles : Z) : Op Z :=
  branch address (fun r => negb (Z.land (Registers.P r) Status.N =? 0)) cycles.
Definition Bne (address cycles : Z) : Op Z :=
  branch address (fun r => Z.land (Registers.P r) Status.Z =? 0) cycles.
Definition Bpl (address cycles : Z) : Op Z :=
  branch address (fun r => Z.land (Registers.P r) Status.N =? 0) cycles.
Definition Bvc (address cycles : Z) : Op Z :=
  branch address (fun r => Z.land (Registers.P r) Status.V =? 0) cycles.
Definition Bvs (address cycles : Z) : Op Z :=
  branch address (fun r => negb (Z.land (Registers.P r) Status.V =? 0)) cycles.

(** *** Compares, increments and decrements *)

(** [value := uint16(cpu.Memory.Fetch(address)) ^ 0xff + 1;
    cpu.setZNFlags(uint8(cpu.setCFlagAddition(uint16(register) + value)))];
    in Go [^] and [+] have the same precedence and associate to the left. *)
Definition compare (address register : Z) : Op unit :=
m <- fetch address ;;
let value := u16 (Z.lxor m 0xff + 1) in
result <- setCFlagAddition (u16 (register + value)) ;;
setZNFlags (u8 result) ;;
ret tt.

Definition Cmp (address : Z) : Op unit :=
r <- regs ;; compare address (Registers.A r).
Definition Cpx (address : Z) : Op unit :=
r <- regs ;; compare address (Registers.X r).
Definition Cpy (address : Z) : Op unit :=
r <- regs ;; compare address (Registers.Y r).

(** [cpu.Memory.Store(address, cpu.setZNFlags(cpu.Memory.Fetch(address)+1))] *)
Definition Inc (address : Z) : Op unit :=
m <- fetch address ;;
value <- setZNFlags (u8 (m + 1)) ;;
store address value.

(** [*register = cpu.setZNFlags(old + 1)], [old] being what [register]
    points to before; the pointer is the pair of the getter and the setter
    of the register it points to. *)
Definition increment (get : Registers.t -> Z)
  (set : Z -> Registers.t -> Registers.t) : Op unit :=
r <- regs ;;
value <- setZNFlags (u8 (get r + 1)) ;;
update (set value).

Definition Inx : Op unit := increment Registers.X Registers.set_X.
Definition Iny : Op unit := increment Registers.Y Registers.set_Y.

(** [cpu.Memory.Store(address, cpu.setZNFlags(cpu.Memory.Fetch(address)-1))] *)
Definition Dec (address : Z) : Op unit :=
m <- fetch address ;;
value <- setZNFlags (u8 (m - 1)) ;;
store address value.

(** [*register = cpu.setZNFlags(old - 1)] *)
Definition decrement (get : Registers.t -> Z)
  (set : Z -> Registers.t -> Registers.t) : Op unit :=
r <- regs ;;
value <- setZNFlags (u8 (get r - 1)) ;;
update (set value).

Definition Dex : Op unit := decrement Registers.X Registers.set_X.
Definition Dey : Op unit := decrement Registers.Y Registers.set_Y.

(** *** Shifts and rotates *)

(** [func (cpu *M6502) shift(direction direction, value uint8,
    store func(uint8))]: the bit shifted out goes to C, the shifted value
    sets Z and N and is handed to [store]. *)
Definition shift (d : direction.t) (value : Z) (store : Z -> Op unit) : Op unit :=
let c := match d with
         | direction.left => Z.shiftr (Z.land value Status.N) 7
         | direction.right => Z.land value Status.C
         end in
let value := match d with
             | direction.left => u8 (Z.shiftl value 1)
             | direction.right => Z.shiftr value 1
             end in
r <- regs ;;
update (Registers.set_P (Z.land (Registers.P r) (not8 Status.C))) ;;
r <- regs ;;
update (Registers.set_P (Z.lor (Registers.P r) c)) ;;
value <- setZNFlags value ;;
store value.

Definition AslA : Op unit :=
r <- regs ;; shift direction.left (Registers.A r) (fun value => update (Registers.set_A value)).
Definition Asl (address : Z) : Op unit :=
m <- fetch address ;; shift direction.left m (fun value => store address value).
Definition LsrA : Op unit :=
r <- regs ;; shift direction.right (Registers.A r) (fun value => update (Registers.set_A value)).
Definition Lsr (address : Z) : Op unit :=
m <- fetch address ;; shift direction.right m (fun value => store address value).

(** [func (cpu *M6502) rotate(direction direction, value uint8,
    store func(uint8))]: as [shift], with the old C entering at the other
    end. *)
Definition rotate (d : direction.t) (value : Z) (store : Z -> Op unit) : Op unit :=
r <- regs ;;
let c := match d with
         | direction.left => Z.shiftr (Z.land value Status.N) 7
         | direction.right => Z.land value Status.C
         end in
let value :=
  match d with
  | direction.left => Z.lor (Z.land (u8 (Z.shiftl value 1)) (not8 Status.C))
                  (Z.land (Registers.P r) Status.C)
  | direction.right => Z.lor (Z.land (Z.shiftr value 1) (not8 Status.N))
                   (u8 (Z.shiftl (Z.land (Registers.P r) Status.C) 7))
  end in
update (Registers.set_P (Z.land (Registers.P r) (not8 Status.C))) ;;
r <- regs ;;
update (Registers.set_P (Z.lor (Registers.P r) c)) ;;
value <- setZNFlags value ;;
store value.

Definition RolA : Op unit :=
r <- regs ;; rotate direction.left (Registers.A r) (fun value => update (Registers.set_A value)).
Definition Rol (address : Z) : Op unit :=
m <- fetch address ;; rotate direction.left m (fun value => store address value).
Definition RorA : Op unit :=
r <- regs ;; rotate direction.right (Registers.A r) (fun value => update (Registers.set_A value)).
Definition Ror (address : Z) : Op unit :=
m <- fetch address ;; rotate direction.right m (fun value => store address value).

(** *** Jumps and calls *)

Definition Jmp (address : Z) : Op unit :=
update (Registers.set_PC address).

(** [value := cpu.Registers.PC - 1; cpu.push16(value);
    cpu.Registers.PC = address] *)
Definition Jsr (address : Z) : Op unit :=
r <- regs ;;
push16 (u16 (Registers.PC r - 1)) ;;
update (Registers.set_PC address).

(** [cpu.Registers.PC = cpu.pull16() + 1] *)
Definition Rts : Op unit :=
value <- pull16 ;;
update (Registers.set_PC (u16 (value + 1))).

(** *** Status flag changes *)

(** [cpu.Registers.P &^= flag] and [cpu.Registers.P |= flag]. *)
Definition clearFlag (flag : Z) : Op unit :=
r <- regs ;; update (Registers.set_P (Z.ldiff (Registers.P r) flag)).
Definition setFlag (flag : Z) : Op unit :=
r <- regs ;; update (Registers.set_P (Z.lor (Registers.P r) flag)).

Definition Clc : Op unit := clearFlag Status.C.
Definition Cld : Op unit := clearFlag Status.D.
Definition Cli : Op unit := clearFlag Status.I.
Definition Clv : Op unit := clearFlag Status.V.
Definition Sec : Op unit := setFlag Status.C.
Definition Sed : Op unit := setFlag Status.D.
Definition Sei : Op unit := setFlag Status.I.

(** *** Interrupts *)

(** [cpu.Registers.PC++; cpu.push16(cpu.Registers.PC);
    cpu.push(uint8(cpu.Registers.P | B)); cpu.Registers.P |= I;
    low := Fetch(0xfffe); high := Fetch(0xffff); PC = high<<8 | low] *)
Definition Brk : Op unit :=
r <- regs ;;
let pc := u16 (Registers.PC r + 1) in
update (Registers.set_PC pc) ;;
push16 pc ;;
r <- regs ;;
push (Z.lor (Registers.P r) Status.B) ;;
r <- regs ;;
update (Registers.set_P (Z.lor (Registers.P r) Status.I)) ;;
low <- fetch 0xfffe ;;
high <- fetch 0xffff ;;
update (Registers.set_PC (Z.lor (u16 (Z.shiftl high 8)) low)).

(** [cpu.Registers.P = Status(cpu.pull()); cpu.Registers.PC = cpu.pull16()] *)
Definition Rti : Op unit :=
value <- pull ;;
update (Registers.set_P value) ;;
value <- pull16 ;;
update (Registers.set_PC value).

(** *** The instruction table (instructions.go) *)

(** [type Instruction struct { opcode OpCode; exec func(cpu *Cpu) (cycles uint16) }];
    [Execute] calls the executor as [inst.Exec(cpu)].  The executor is
    modelled on the part of the CPU that the methods of the CPU act on
    (registers, memory, clock): every executor at hand is a sequence of calls
    to those methods.  The Go closure is handed the CPU together with its
    table, which this type keeps out of its reach, so nothing below is
    stated about what an executor does to the table. *)
Record Instruction : Type := mkInstruction
  { opcode : OpCode
  ; Exec : Op Z }.

(** [type InstructionTable map[OpCode]Instruction] *)
Definition InstructionTable : Type := gmap Z Instruction.

(** [instructions[inst.opcode] = inst] *)
Definition AddInstruction (inst : Instruction) (instructions : InstructionTable)
  : InstructionTable :=
  <[opcode inst := inst]> instructions.

(** [delete(instructions, opcode)] *)
Definition RemoveInstruction (opcode : OpCode) (instructions : InstructionTable)
  : InstructionTable :=
  delete opcode instructions.

(** The executors of [InitInstructions], in the order of the calls to
    [AddInstruction].  Each closure sets [cycles] to the base cost, runs
    the instruction body on the address its addressing mode yields, and
    returns [cycles]; an addressing mode that is handed [&cycles] may have
    incremented it, one that is handed [nil] may not.  instructions.go is
    written against the [Cpu] of package _65go2, whose indexed modes take
    the index register by value ([cpu.registers.X]); on [M6502] the same
    modes take the [Index] that names it.  The calls are bound here to the
    methods of [M6502] that carry the same names; where the body of a
    method differs between the two CPUs ([Php] pushes [P | B] on [M6502]
    and [P] on [Cpu]) the entry has the behaviour of [M6502], and only
    the opcodes, the order and the cycle counts are those of the file. *)
Definition instructionList : list Instruction :=
  [
    (* LDA Immediate *)
    mkInstruction 0xa9 (address <- immediateAddress ;; Lda address ;; ret 2);
    (* LDA Zero Page *)
    mkInstruction 0xa5 (address <- zeroPageAddress ;; Lda address ;; ret 3);
    (* LDA Zero Page,X *)
    mkInstruction 0xb5 (address <- zeroPageIndexedAddress Index.X ;; Lda address ;; ret 4);
    (* LDA Absolute *)
    mkInstruction 0xad (address <- absoluteAddress ;; Lda address ;; ret 4);
    (* LDA Absolute,X *)
    mkInstruction 0xbd (r <- absoluteIndexedAddress Index.X (Some 4) ;; Lda r.1 ;; ret (default 4 r.2));
    (* LDA Absolute,Y *)
    mkInstruction 0xb9 (r <- absoluteIndexedAddress Index.Y (Some 4) ;; Lda r.1 ;; ret (default 4 r.2));
    (* LDA (Indirect,X) *)
    mkInstruction 0xa1 (address <- indexedIndirectAddress ;; Lda address ;; ret 6);
    (* LDA (Indirect),Y *)
    mkInstruction 0xb1 (r <- indirectIndexedAddress (Some 5) ;; Lda r.1 ;; ret (default 5 r.2));
    (* LDX Immediate *)
    mkInstruction 0xa2 (address <- immediateAddress ;; Ldx address ;; ret 2);
    (* LDX Zero Page *)
    mkInstruction 0xa6 (address <- zeroPageAddress ;; Ldx address ;; ret 3);
    (* LDX Zero Page,Y *)
    mkInstruction 0xb6 (address <- zeroPageIndexedAddress Index.Y ;; Ldx address ;; ret 4);
    (* LDX Absolute *)
    mkInstruction 0xae (address <- absoluteAddress ;; Ldx address ;; ret 4);
    (* LDX Absolute,Y *)
    mkInstruction 0xbe (r <- absoluteIndexedAddress Index.Y (Some 4) ;; Ldx r.1 ;; ret (default 4 r.2));
    (* LDY Immediate *)
    mkInstruction 0xa0 (address <- immediateAddress ;; Ldy address ;; ret 2);
    (* LDY Zero Page *)
    mkInstruction 0xa4 (address <- zeroPageAddress ;; Ldy address ;; ret 3);
    (* LDY Zero Page,X *)
    mkInstruction 0xb4 (address <- zeroPageIndexedAddress Index.X ;; Ldy address ;; ret 4);
    (* LDY Absolute *)
    mkInstruction 0xac (address <- absoluteAddress ;; Ldy address ;; ret 4);
    (* LDY Absolute,X *)
    mkInstruction 0xbc (r <- absoluteIndexedAddress Index.X (Some 4) ;; Ldy r.1 ;; ret (default 4 r.2));
    (* STA Zero Page *)
    mkInstruction 0x85 (address <- zeroPageAddress ;; Sta address ;; ret 3);
    (* STA Zero Page,X *)
    mkInstruction 0x95 (address <- zeroPageIndexedAddress Index.X ;; Sta address ;; ret 4);
    (* STA Absolute *)
    mkInstruction 0x8d (address <- absoluteAddress ;; Sta address ;; ret 4);
    (* STA Absolute,X *)
    mkInstruction 0x9d (r <- absoluteIndexedAddress Index.X None ;; Sta r.1 ;; ret 5);
    (* STA Absolute,Y *)
    mkInstruction 0x99 (r <- absoluteIndexedAddress Index.Y None ;; Sta r.1 ;; ret 5);
    (* STA (Indirect,X) *)
    mkInstruction 0x81 (address <- indexedIndirectAddress ;; Sta address ;; ret 6);
    (* STA (Indirect),Y *)
    mkInstruction 0x91 (r <- indirectIndexedAddress None ;; Sta r.1 ;; ret 6);
    (* STX Zero Page *)
    mkInstruction 0x86 (address <- zeroPageAddress ;; Stx address ;; ret 3);
    (* STX Zero Page,Y *)
    mkInstruction 0x96 (address <- zeroPageIndexedAddress Index.Y ;; Stx address ;; ret 4);
    (* STX Absolute *)
    mkInstruction 0x8e (address <- absoluteAddress ;; Stx address ;; ret 4);
    (* STY Zero Page *)
    mkInstruction 0x84 (address <- zeroPageAddress ;; Sty address ;; ret 3);
    (* STY Zero Page,X *)
    mkInstruction 0x94 (address <- zeroPageIndexedAddress Index.X ;; Sty address ;; ret 4);
    (* STY Absolute *)
    mkInstruction 0x8c (address <- absoluteAddress ;; Sty address ;; ret 4);
    (* TAX Implied *)
    mkInstruction 0xaa (Tax ;; ret 2);
    (* TAY Implied *)
    mkInstruction 0xa8 (Tay ;; ret 2);
    (* TXA Implied *)
    mkInstruction 0x8a (Txa ;; ret 2);
    (* TYA Implied *)
    mkInstruction 0x98 (Tya ;; ret 2);
    (* TSX Implied *)
    mkInstruction 0xba (Tsx ;; ret 2);
    (* TXS Implied *)
    mkInstruction 0x9a (Txs ;; ret 2);
    (* PHA Implied *)
    mkInstruction 0x48 (Pha ;; ret 3);
    (* PHP Implied *)
    mkInstruction 0x08 (Php ;; ret 3);
    (* PLA Implied *)
    mkInstruction 0x68 (Pla ;; ret 4);
    (* PLP Implied *)
    mkInstruction 0x28 (Plp ;; ret 4);
    (* AND Immediate *)
    mkInstruction 0x29 (address <- immediateAddress ;; And address ;; ret 2);
    (* AND Zero Page *)
    mkInstruction 0x25 (address <- zeroPageAddress ;; And address ;; ret 3);
    (* AND Zero Page,X *)
    mkInstruction 0x35 (address <- zeroPageIndexedAddress Index.X ;; And address ;; ret 4);
    (* AND Absolute *)
    mkInstruction 0x2d (address <- absoluteAddress ;; And address ;; ret 4);
    (* AND Absolute,X *)
    mkInstruction 0x3d (r <- absoluteIndexedAddress Index.X (Some 4) ;; And r.1 ;; ret (default 4 r.2));
    (* AND Absolute,Y *)
    mkInstruction 0x39 (r <- absoluteIndexedAddress Index.Y (Some 4) ;; And r.1 ;; ret (default 4 r.2));
    (* AND (Indirect,X) *)
    mkInstruction 0x21 (address <- indexedIndirectAddress ;; And address ;; ret 6);
    (* AND (Indirect),Y *)
    mkInstruction 0x31 (r <- indirectIndexedAddress (Some 5) ;; And r.1 ;; ret (default 5 r.2));
    (* EOR Immediate *)
    mkInstruction 0x49 (address <- immediateAddress ;; Eor address ;; ret 2);
    (* EOR Zero Page *)
    mkInstruction 0x45 (address <- zeroPageAddress ;; Eor address ;; ret 3);
    (* EOR Zero Page,X *)
    mkInstruction 0x55 (address <- zeroPageIndexedAddress Index.X ;; Eor address ;; ret 4);
    (* EOR Absolute *)
    mkInstruction 0x4d (address <- absoluteAddress ;; Eor address ;; ret 4);
    (* EOR Absolute,X *)
    mkInstruction 0x5d (r <- absoluteIndexedAddress Index.X (Some 4) ;; Eor r.1 ;; ret (default 4 r.2));
    (* EOR Absolute,Y *)
    mkInstruction 0x59 (r <- absoluteIndexedAddress Index.Y (Some 4) ;; Eor r.1 ;; ret (default 4 r.2));
    (* EOR (Indirect,X) *)
    mkInstruction 0x41 (address <- indexedIndirectAddress ;; Eor address ;; ret 6);
    (* EOR (Indirect),Y *)
    mkInstruction 0x51 (r <- indirectIndexedAddress (Some 5) ;; Eor r.1 ;; ret (default 5 r.2))
  ].

(** [func (instructions InstructionTable) InitInstructions()] *)
Definition InitInstructions (instructions : InstructionTable) : InstructionTable :=
  fold_left (fun table inst => AddInstruction inst table)
            instructionList instructions.

(** [instructions := make(map[OpCode]Instruction);
    InstructionTable(instructions).InitInstructions()] *)
Definition NewInstructionTable : InstructionTable :=
  InitInstructions ∅.

(** *** The opcode table of the CPU *)

(** Modelled from the spec: the instruction table that [NewM6502] installs
    (the [NewInstructionTable] and [InitInstructions] of package m65go2) is
    declared outside the files at hand; instructions.go above is the table
    of the earlier package.  "The 151-entry mapping ... binds an 8-bit
    opcode to a (mnemonic, addressing mode, base cycles) tuple.  The full
    table is defined by the documented 6502 instruction set." *)
Definition opcodeTable : list (OpCode * Mnemonic.t * Mode.t * Z) :=
  [
    (0x69, Mnemonic.ADC, Mode.Immediate, 2); (0x65, Mnemonic.ADC, Mode.ZeroPage, 3);
    (0x75, Mnemonic.ADC, Mode.ZeroPageX, 4); (0x6d, Mnemonic.ADC, Mode.Absolute, 4);
    (0x7d, Mnemonic.ADC, Mode.AbsoluteX, 4); (0x79, Mnemonic.ADC, Mode.AbsoluteY, 4);
    (0x61, Mnemonic.ADC, Mode.IndirectX, 6); (0x71, Mnemonic.ADC, Mode.IndirectY, 5);
    (0x29, Mnemonic.AND, Mode.Immediate, 2); (0x25, Mnemonic.AND, Mode.ZeroPage, 3);
    (0x35, Mnemonic.AND, Mode.ZeroPageX, 4); (0x2d, Mnemonic.AND, Mode.Absolute, 4);
    (0x3d, Mnemonic.AND, Mode.AbsoluteX, 4); (0x39, Mnemonic.AND, Mode.AbsoluteY, 4);
    (0x21, Mnemonic.AND, Mode.IndirectX, 6); (0x31, Mnemonic.AND, Mode.IndirectY, 5);
    (0x0a, Mnemonic.ASL, Mode.Accumulator, 2); (0x06, Mnemonic.ASL, Mode.ZeroPage, 5);
    (0x16, Mnemonic.ASL, Mode.ZeroPageX, 6); (0x0e, Mnemonic.ASL, Mode.Absolute, 6);
    (0x1e, Mnemonic.ASL, Mode.AbsoluteX, 7);
    (0x90, Mnemonic.BCC, Mode.Relative, 2);
    (0xb0, Mnemonic.BCS, Mode.Relative, 2);
    (0xf0, Mnemonic.BEQ, Mode.Relative, 2);
    (0x24, Mnemonic.BIT, Mode.ZeroPage, 3); (0x2c, Mnemonic.BIT, Mode.Absolute, 4);
    (0x30, Mnemonic.BMI, Mode.Relative, 2);
    (0xd0, Mnemonic.BNE, Mode.Relative, 2);
    (0x10, Mnemonic.BPL, Mode.Relative, 2);
    (0x00, Mnemonic.BRK, Mode.Implied, 7);
    (0x50, Mnemonic.BVC, Mode.Relative, 2);
    (0x70, Mnemonic.BVS, Mode.Relative, 2);
    (0x18, Mnemonic.CLC, Mode.Implied, 2);
    (0xd8, Mnemonic.CLD, Mode.Implied, 2);
    (0x58, Mnemonic.CLI, Mode.Implied, 2);
    (0xb8, Mnemonic.CLV, Mode.Implied, 2);
    (0xc9, Mnemonic.CMP, Mode.Immediate, 2); (0xc5, Mnemonic.CMP, Mode.ZeroPage, 3);
    (0xd5, Mnemonic.CMP, Mode.ZeroPageX, 4); (0xcd, Mnemonic.CMP, Mode.Absolute, 4);
    (0xdd, Mnemonic.CMP, Mode.AbsoluteX, 4); (0xd9, Mnemonic.CMP, Mode.AbsoluteY, 4);
    (0xc1, Mnemonic.CMP, Mode.IndirectX, 6); (0xd1, Mnemonic.CMP, Mode.IndirectY, 5);
    (0xe0, Mnemonic.CPX, Mode.Immediate, 2); (0xe4, Mnemonic.CPX, Mode.ZeroPage, 3);
    (0xec, Mnemonic.CPX, Mode.Absolute, 4);
    (0xc0, Mnemonic.CPY, Mode.Immediate, 2); (0xc4, Mnemonic.CPY, Mode.ZeroPage, 3);
    (0xcc, Mnemonic.CPY, Mode.Absolute, 4);
    (0xc6, Mnemonic.DEC, Mode.ZeroPage, 5); (0xd6, Mnemonic.DEC, Mode.ZeroPageX, 6);
    (0xce, Mnemonic.DEC, Mode.Absolute, 6); (0xde, Mnemonic.DEC, Mode.AbsoluteX, 7);
    (0xca, Mnemonic.DEX, Mode.Implied, 2);
    (0x88, Mnemonic.DEY, Mode.Implied, 2);
    (0x49, Mnemonic.EOR, Mode.Immediate, 2); (0x45, Mnemonic.EOR, Mode.ZeroPage, 3);
    (0x55, Mnemonic.EOR, Mode.ZeroPageX, 4); (0x4d, Mnemonic.EOR, Mode.Absolute, 4);
    (0x5d, Mnemonic.EOR, Mode.AbsoluteX, 4); (0x59, Mnemonic.EOR, Mode.AbsoluteY, 4);
    (0x41, Mnemonic.EOR, Mode.IndirectX, 6); (0x51, Mnemonic.EOR, Mode.IndirectY, 5);
    (0xe6, Mnemonic.INC, Mode.ZeroPage, 5); (0xf6, Mnemonic.INC, Mode.ZeroPageX, 6);
    (0xee, Mnemonic.INC, Mode.Absolute, 6); (0xfe, Mnemonic.INC, Mode.AbsoluteX, 7);
    (0xe8, Mnemonic.INX, Mode.Implied, 2);
    (0xc8, Mnemonic.INY, Mode.Implied, 2);
    (0x4c, Mnemonic.JMP, Mode.Absolute, 3); (0x6c, Mnemonic.JMP, Mode.Indirect, 5);
    (0x20, Mnemonic.JSR, Mode.Absolute, 6);
    (0xa9, Mnemonic.LDA, Mode.Immediate, 2); (0xa5, Mnemonic.LDA, Mode.ZeroPage, 3);
    (0xb5, Mnemonic.LDA, Mode.ZeroPageX, 4); (0xad, Mnemonic.LDA, Mode.Absolute, 4);
    (0xbd, Mnemonic.LDA, Mode.AbsoluteX, 4); (0xb9, Mnemonic.LDA, Mode.AbsoluteY, 4);
    (0xa1, Mnemonic.LDA, Mode.IndirectX, 6); (0xb1, Mnemonic.LDA, Mode.IndirectY, 5);
    (0xa2, Mnemonic.LDX, Mode.Immediate, 2); (0xa6, Mnemonic.LDX, Mode.ZeroPage, 3);
    (0xb6, Mnemonic.LDX, Mode.ZeroPageY, 4); (0xae, Mnemonic.LDX, Mode.Absolute, 4);
    (0xbe, Mnemonic.LDX, Mode.AbsoluteY, 4);
    (0xa0, Mnemonic.LDY, Mode.Immediate, 2); (0xa4, Mnemonic.LDY, Mode.ZeroPage, 3);
    (0xb4, Mnemonic.LDY, Mode.ZeroPageX, 4); (0xac, Mnemonic.LDY, Mode.Absolute, 4);
    (0xbc, Mnemonic.LDY, Mode.AbsoluteX, 4);
    (0x4a, Mnemonic.LSR, Mode.Accumulator, 2); (0x46, Mnemonic.LSR, Mode.ZeroPage, 5);
    (0x56, Mnemonic.LSR, Mode.ZeroPageX, 6); (0x4e, Mnemonic.LSR, Mode.Absolute, 6);
    (0x5e, Mnemonic.LSR, Mode.AbsoluteX, 7);
    (0xea, Mnemonic.NOP, Mode.Implied, 2);
    (0x09, Mnemonic.ORA, Mode.Immediate, 2); (0x05, Mnemonic.ORA, Mode.ZeroPage, 3);
    (0x15, Mnemonic.ORA, Mode.ZeroPageX, 4); (0x0d, Mnemonic.ORA, Mode.Absolute, 4);
    (0x1d, Mnemonic.ORA, Mode.AbsoluteX, 4); (0x19, Mnemonic.ORA, Mode.AbsoluteY, 4);
    (0x01, Mnemonic.ORA, Mode.IndirectX, 6); (0x11, Mnemonic.ORA, Mode.IndirectY, 5);
    (0x48, Mnemonic.PHA, Mode.Implied, 3);
    (0x08, Mnemonic.PHP, Mode.Implied, 3);
    (0x68, Mnemonic.PLA, Mode.Implied, 4);
    (0x28, Mnemonic.PLP, Mode.Implied, 4);
    (0x2a, Mnemonic.ROL, Mode.Accumulator, 2); (0x26, Mnemonic.ROL, Mode.ZeroPage, 5);
    (0x36, Mnemonic.ROL, Mode.ZeroPageX, 6); (0x2e, Mnemonic.ROL, Mode.Absolute, 6);
    (0x3e, Mnemonic.ROL, Mode.AbsoluteX, 7);
    (0x6a, Mnemonic.ROR, Mode.Accumulator, 2); (0x66, Mnemonic.ROR, Mode.ZeroPage, 5);
    (0x76, Mnemonic.ROR, Mode.ZeroPageX, 6); (0x6e, Mnemonic.ROR, Mode.Absolute, 6);
    (0x7e, Mnemonic.ROR, Mode.AbsoluteX, 7);
    (0x40, Mnemonic.RTI, Mode.Implied, 6);
    (0x60, Mnemonic.RTS, Mode.Implied, 6);
    (0xe9, Mnemonic.SBC, Mode.Immediate, 2); (0xe5, Mnemonic.SBC, Mode.ZeroPage, 3);
    (0xf5, Mnemonic.SBC, Mode.ZeroPageX, 4); (0xed, Mnemonic.SBC, Mode.Absolute, 4);
    (0xfd, Mnemonic.SBC, Mode.AbsoluteX, 4); (0xf9, Mnemonic.SBC, Mode.AbsoluteY, 4);
    (0xe1, Mnemonic.SBC, Mode.IndirectX, 6); (0xf1, Mnemonic.SBC, Mode.IndirectY, 5);
    (0x38, Mnemonic.SEC, Mode.Implied, 2);
    (0xf8, Mnemonic.SED, Mode.Implied, 2);
    (0x78, Mnemonic.SEI, Mode.Implied, 2);
    (0x85, Mnemonic.STA, Mode.ZeroPage, 3); (0x95, Mnemonic.STA, Mode.ZeroPageX, 4);
    (0x8d, Mnemonic.STA, Mode.Absolute, 4); (0x9d, Mnemonic.STA, Mode.AbsoluteX, 5);
    (0x99, Mnemonic.STA, Mode.AbsoluteY, 5); (0x81, Mnemonic.STA, Mode.IndirectX, 6);
    (0x91, Mnemonic.STA, Mode.IndirectY, 6);
    (0x86, Mnemonic.STX, Mode.ZeroPage, 3); (0x96, Mnemonic.STX, Mode.ZeroPageY, 4);
    (0x8e, Mnemonic.STX, Mode.Absolute, 4);
    (0x84, Mnemonic.STY, Mode.ZeroPage, 3); (0x94, Mnemonic.STY, Mode.ZeroPageX, 4);
    (0x8c, Mnemonic.STY, Mode.Absolute, 4);
    (0xaa, Mnemonic.TAX, Mode.Implied, 2);
    (0xa8, Mnemonic.TAY, Mode.Implied, 2);
    (0xba, Mnemonic.TSX, Mode.Implied, 2);
    (0x8a, Mnemonic.TXA, Mode.Implied, 2);
    (0x9a, Mnemonic.TXS, Mode.Implied, 2);
    (0x98, Mnemonic.TYA, Mode.Implied, 2)
  ].

(** Modelled from the spec: "for all absolute-indexed reads and (indirect),Y
    reads: cycle cost is base+1" on a page cross; stores and the
    instructions that write their operand back have a fixed cost. *)
Definition reads (m : Mnemonic.t) : bool :=
  match m with
  | Mnemonic.ADC | Mnemonic.AND | Mnemonic.CMP | Mnemonic.EOR | Mnemonic.LDA
  | Mnemonic.LDX | Mnemonic.LDY | Mnemonic.ORA | Mnemonic.SBC => true
  | _ => false
  end.

(** Modelled from the spec: "each addressing mode computes an effective
    16-bit address and advances PC past its operand bytes; modes that may
    cross pages accept an optional cycle-penalty output".  The modes are
    the addressing methods of the CPU; the result is the address and the
    cycle count so far. *)
Definition operand (mode : Mode.t) (penalty : bool) (cycles : Z) : Op (Z * Z) :=
  let counter := if penalty then Some cycles else None in
  match mode with
  | Mode.Implied | Mode.Accumulator => ret (0, cycles)
  | Mode.Immediate => address <- immediateAddress ;; ret (address, cycles)
  | Mode.ZeroPage => address <- zeroPageAddress ;; ret (address, cycles)
  | Mode.ZeroPageX =>
      address <- zeroPageIndexedAddress Index.X ;; ret (address, cycles)
  | Mode.ZeroPageY =>
      address <- zeroPageIndexedAddress Index.Y ;; ret (address, cycles)
  | Mode.Relative => address <- relativeAddress ;; ret (address, cycles)
  | Mode.Absolute => address <- absoluteAddress ;; ret (address, cycles)
  | Mode.AbsoluteX =>
      r <- absoluteIndexedAddress Index.X counter ;; ret (r.1, default cycles r.2)
  | Mode.AbsoluteY =>
      r <- absoluteIndexedAddress Index.Y counter ;; ret (r.1, default cycles r.2)
  | Mode.Indirect => address <- indirectAddress ;; ret (address, cycles)
  | Mode.IndirectX => address <- indexedIndirectAddress ;; ret (address, cycles)
  | Mode.IndirectY =>
      r <- indirectIndexedAddress counter ;; ret (r.1, default cycles r.2)
  end.

(** Modelled from the spec: the instruction catalog.  Each mnemonic runs the
    method of the CPU that carries its name, the shifts and rotates in
    their accumulator or memory form; a branch adds its own cycles; NOP has
    no body. *)
Definition body (m : Mnemonic.t) (mode : Mode.t) (address cycles : Z) : Op Z :=
  let accumulator :=
    match mode with Mode.Accumulator => true | _ => false end in
  match m with
  | Mnemonic.ADC => Adc address ;; ret cycles
  | Mnemonic.AND => And address ;; ret cycles
  | Mnemonic.ASL => (if accumulator then AslA else Asl address) ;; ret cycles
  | Mnemonic.BCC => Bcc address cycles
  | Mnemonic.BCS => Bcs address cycles
  | Mnemonic.BEQ => Beq address cycles
  | Mnemonic.BIT => Bit address ;; ret cycles
  | Mnemonic.BMI => Bmi address cycles
  | Mnemonic.BNE => Bne address cycles
  | Mnemonic.BPL => Bpl address cycles
  | Mnemonic.BRK => Brk ;; ret cycles
  | Mnemonic.BVC => Bvc address cycles
  | Mnemonic.BVS => Bvs address cycles
  | Mnemonic.CLC => Clc ;; ret cycles
  | Mnemonic.CLD => Cld ;; ret cycles
  | Mnemonic.CLI => Cli ;; ret cycles
  | Mnemonic.CLV => Clv ;; ret cycles
  | Mnemonic.CMP => Cmp address ;; ret cycles
  | Mnemonic.CPX => Cpx address ;; ret cycles
  | Mnemonic.CPY => Cpy address ;; ret cycles
  | Mnemonic.DEC => Dec address ;; ret cycles
  | Mnemonic.DEX => Dex ;; ret cycles
  | Mnemonic.DEY => Dey ;; ret cycles
  | Mnemonic.EOR => Eor address ;; ret cycles
  | Mnemonic.INC => Inc address ;; ret cycles
  | Mnemonic.INX => Inx ;; ret cycles
  | Mnemonic.INY => Iny ;; ret cycles
  | Mnemonic.JMP => Jmp address ;; ret cycles
  | Mnemonic.JSR => Jsr address ;; ret cycles
  | Mnemonic.LDA => Lda address ;; ret cycles
  | Mnemonic.LDX => Ldx address ;; ret cycles
  | Mnemonic.LDY => Ldy address ;; ret cycles
  | Mnemonic.LSR => (if accumulator then LsrA else Lsr address) ;; ret cycles
  | Mnemonic.NOP => ret cycles
  | Mnemonic.ORA => Ora address ;; ret cycles
  | Mnemonic.PHA => Pha ;; ret cycles
  | Mnemonic.PHP => Php ;; ret cycles
  | Mnemonic.PLA => Pla ;; ret cycles
  | Mnemonic.PLP => Plp ;; ret cycles
  | Mnemonic.ROL => (if accumulator then RolA else Rol address) ;; ret cycles
  | Mnemonic.ROR => (if accumulator then RorA else Ror address) ;; ret cycles
  | Mnemonic.RTI => Rti ;; ret cycles
  | Mnemonic.RTS => Rts ;; ret cycles
  | Mnemonic.SBC => Sbc address ;; ret cycles
  | Mnemonic.SEC => Sec ;; ret cycles
  | Mnemonic.SED => Sed ;; ret cycles
  | Mnemonic.SEI => Sei ;; ret cycles
  | Mnemonic.STA => Sta address ;; ret cycles
  | Mnemonic.STX => Stx address ;; ret cycles
  | Mnemonic.STY => Sty address ;; ret cycles
  | Mnemonic.TAX => Tax ;; ret cycles
  | Mnemonic.TAY => Tay ;; ret cycles
  | Mnemonic.TSX => Tsx ;; ret cycles
  | Mnemonic.TXA => Txa ;; ret cycles
  | Mnemonic.TXS => Txs ;; ret cycles
  | Mnemonic.TYA => Tya ;; ret cycles
  end.

(** Modelled from the spec: "each executor knows its base cycle cost and
    may add cycle penalties observed during execution". *)
Definition executor (entry : OpCode * Mnemonic.t * Mode.t * Z) : Instruction :=
  let '(op, m, mode, cycles) := entry in
  mkInstruction op (r <- operand mode (reads m) cycles ;; body m mode r.1 r.2).

(** Modelled from the spec: the [InitInstructions] of package m65go2
    registers the executor of every entry of the opcode table, as the
    [InitInstructions] of instructions.go does for its own entries. *)
Definition opcodeInstructions : list Instruction := map executor opcodeTable.

Definition InitOpcodeTable (instructions : InstructionTable) : InstructionTable :=
  fold_left (fun table inst => AddInstruction inst table)
            opcodeInstructions instructions.

(** Modelled from the spec: the [NewInstructionTable] of package m65go2,
    "the full instruction table populated". *)
Definition NewOpcodeTable : InstructionTable :=
  InitOpcodeTable ∅.

(** *** The CPU and its fetch-execute cycle *)

(** [type M6502 struct { decode; clock; Registers; Memory; Instructions }] *)
Record M6502 : Type := mkM6502
  { core : Core
  ; Instructions : InstructionTable }.

(** [instructions := NewInstructionTable(); instructions.InitInstructions();
    return &M6502{decode: false, clock: clock, Registers: NewRegisters(),
    Memory: mem, Instructions: instructions}], where the two table
    functions are those of package m65go2 ([NewOpcodeTable] and
    [InitOpcodeTable] above). *)
Definition NewM6502 (mem : Mem) (clock : Clk) : M6502 :=
  let instructions := NewOpcodeTable in
  let instructions := InitOpcodeTable instructions in
  mkM6502 (mkCore false clock NewRegisters mem) instructions.

(** [cpu.Registers.Reset(); cpu.Memory.Reset()] *)
Definition Reset (cpu : M6502) : M6502 :=
  let c := core cpu in
  let registers := Registers.Reset (Registers c) in
  let memory := Memory.Reset (Memory c) in
  mkM6502 (mkCore (decode c) (clock c) registers memory) (Instructions cpu).

(** [cpu.clock.Ticks()] and [cpu.clock.Await(tick)]. *)
Definition ticks : Op Z :=
  fun cpu =>
    let '(n, clk) := Clocker.Ticks (clock cpu) in
    (n, mkCore (decode cpu) clk (Registers cpu) (Memory cpu)).
Definition await (tick : Z) : Op Z :=
  fun cpu =>
    let '(n, clk) := Clocker.Await (clock cpu) tick in
    (n, mkCore (decode cpu) clk (Registers cpu) (Memory cpu)).

(** [func (cpu *M6502) Execute() (cycles uint16, error error)] on the
    part of the CPU it changes, given the table it reads. *)
Definition execute (instructions : InstructionTable) : Op (Z * option error) :=
  t <- ticks ;;
  (* fetch *)
  r <- regs ;;
  opcode <- fetch (Registers.PC r) ;;
  match instructions !! opcode with
  | None => ret (0, Some (BadOpCodeError opcode))
  | Some inst =>
      (* execute *)
      update (Registers.set_PC (u16 (Registers.PC r + 1))) ;;
      cycles <- Exec inst ;;
      (* count cycles *)
      await (u64 (t + cycles)) ;;
      ret (cycles, None)
  end.

Definition Execute (cpu : M6502) : (Z * option error) * M6502 :=
  let '(result, c) := execute (Instructions cpu) (core cpu) in
  (result, mkM6502 c (Instructions cpu)).

(** [for { if _, error := cpu.Execute(); error != nil { return error } }]:
    the loop has no other exit, so [Run] is given the number of
    instructions it may execute and says whether it returned. *)
Inductive RunResult : Type :=
| Returned (e : error) (cpu : M6502)
| Running (cpu : M6502).

Fixpoint Run (fuel : nat) (cpu : M6502) : RunResult :=
  match fuel with
  | O => Running cpu
  | S fuel =>
      match Execute cpu with
      | ((_, Some e), cpu') => Returned e cpu'
      | ((_, None), cpu') => Run fuel cpu'
      end
  end.

(** [executes n cpu last]: the loop of [Run] has gone round [n] times from
    [cpu], every [Execute] returning a nil error, and has reached [last]. *)
Inductive executes : nat -> M6502 -> M6502 -> Prop :=
| executes_O (cpu : M6502) : executes 0 cpu cpu
| executes_S (n : nat) (cpu next last : M6502) (cycles : Z) :
    Execute cpu = ((cycles, None), next) ->
    executes n next last ->
    executes (S n) cpu last.

End CPU.

Arguments Core : clear implicits.
Arguments M6502 : clear implicits.
Arguments InstructionTable Mem Clk : clear implicits.
Arguments Instruction Mem Clk : clear implicits.

(** ** The earlier CPU (package _65go2) *)
Module V1.
Section Cpu.
Context {Mem Clk : Type} `{!Memory.t Mem}.

(** [type Cpu struct { clock Clock; registers Registers; memory Memory;
    instructions InstructionTable }], without the table, which [Bit]
    does not touch. *)
Record Cpu : Type := mkCpu
  { clock : Clk
  ; registers : Registers.t
  ; memory : Mem }.

Definition setZFlag (value : Z) (cpu : Cpu) : Z * Cpu :=
  let r := registers cpu in
  let p := if value =? 0 then Z.lor (Registers.P r) Status.Z
           else Z.land (Registers.P r) (not8 Status.Z) in
  (value, mkCpu (clock cpu) (Registers.set_P p r) (memory cpu)).

(** [value := cpu.memory.fetch(address); cpu.setZFlag(value & A);
    P = Status(uint8(P) | (value & 0xc0))] *)
Definition Bit (address : Z) (cpu : Cpu) : Cpu :=
  let '(value, mem) := Memory.Fetch (memory cpu) address in
  let cpu := mkCpu (clock cpu) (registers cpu) mem in
  let '(_, cpu) := setZFlag (Z.land value (Registers.A (registers cpu))) cpu in
  let r := registers cpu in
  mkCpu (clock cpu)
        (Registers.set_P (Z.lor (Registers.P r) (Z.land value 0xc0)) r)
        (memory cpu).
End Cpu.
Arguments Cpu Mem Clk : clear implicits.
End V1.

(** ** Collaborators used in the examples *)

(** A flat memory of bytes: [Fetch] reads the cell, [Store] overwrites it,
    [Reset] clears every cell. *)
Definition RAM : Type := Z -> Z.

#[export] Instance RAM_Memory : Memory.t RAM :=
  {| Memory.Reset := fun _ _ => 0;
     Memory.Fetch := fun m address => (u8 (m address), m);
     Memory.Store := fun m address value =>
                       fun a => if a =? address then value else m a;
     Memory.Fetch_uint8 := fun m address =>
                             Z.mod_pos_bound (m address) 256 eq_refl |}.

(** [bytes ! a] is the memory that holds the listed bytes and zero elsewhere. *)
Fixpoint poke (cells : list (Z * Z)) (m : RAM) : RAM :=
  match cells with
  | [] => m
  | (address, value) :: cells => poke cells (Memory.Store m address value)
  end.

Definition zeroed : RAM := fun _ => 0.

(** What a bus sees, in order. *)
Inductive BusEvent : Type :=
| BusReset
| BusFetch (address : Z)
| BusStore (address value : Z).

(** A memory that also records every access made to it. *)
Record Probe (M : Type) : Type := mkProbe
  { probed : M
  ; bus : list BusEvent }.
Arguments mkProbe {M} _ _.
Arguments probed {M} _.
Arguments bus {M} _.

#[export] Instance Probe_Memory {M : Type} `{!Memory.t M} : Memory.t (Probe M) :=
  {| Memory.Reset := fun m =>
       mkProbe (Memory.Reset (probed m)) (bus m ++ [BusReset]);
     Memory.Fetch := fun m address =>
       (fst (Memory.Fetch (probed m) address),
        mkProbe (snd (Memory.Fetch (probed m) address))
                (bus m ++ [BusFetch address]));
     Memory.Store := fun m address value =>
       mkProbe (Memory.Store (probed m) address value)
               (bus m ++ [BusStore address value]);
     Memory.Fetch_uint8 := fun m address =>
       Memory.Fetch_uint8 (probed m) address |}.

(** What a clock sees, in order. *)
Inductive ClockEvent : Type :=
| ClockTicks
| ClockStart
| ClockStop
| ClockAwait (tick : Z).

(** A clock that also records every call made to it. *)
Record Watch (C : Type) : Type := mkWatch
  { watched : C
  ; calls : list ClockEvent }.
Arguments mkWatch {C} _ _.
Arguments watched {C} _.
Arguments calls {C} _.

#[export] Instance Watch_Clocker {C : Type} `{!Clocker.t C} : Clocker.t (Watch C) :=
  {| Clocker.Ticks := fun c =>
       (fst (Clocker.Ticks (watched c)),
        mkWatch (snd (Clocker.Ticks (watched c))) (calls c ++ [ClockTicks]));
     Clocker.Start := fun c =>
       (fst (Clocker.Start (watched c)),
        mkWatch (snd (Clocker.Start (watched c))) (calls c ++ [ClockStart]));
     Clocker.Stop := fun c =>
       mkWatch (Clocker.Stop (watched c)) (calls c ++ [ClockStop]);
     Clocker.Await := fun c tick =>
       (fst (Clocker.Await (watched c) tick),
        mkWatch (snd (Clocker.Await (watched c) tick))
                (calls c ++ [ClockAwait tick])) |}.

(** A clock without a producer of its own: the counter stands still until
    a waiter asks for a later tick, and then jumps to that tick.  It stands
    in for [Clock], whose counter is advanced by a goroutine on a ticker. *)
Definition StepClock : Type := Z.

#[export] Instance StepClock_Clocker : Clocker.t StepClock :=
  {| Clocker.Ticks := fun c => (c, c);
     Clocker.Start := fun c => (c, c);
     Clocker.Stop := fun c => c;
     Clocker.Await := fun c tick => if c <? tick then (tick, tick) else (c, c) |}.

(** The 16-bit little-endian word held at [address] and [address + 1]. *)
Definition word_at {M : Type} `{!Memory.t M} (m : M) (address : Z) : Z :=
  let '(low, m) := Memory.Fetch m address in
  let '(high, _) := Memory.Fetch m (u16 (address + 1)) in
  Z.lor (u16 (Z.shiftl high 8)) low.

(** A CPU as [NewM6502] builds it, on a recording bus and a recording
    clock, with the given bytes in memory and the given register file. *)
Definition machine (cells : list (Z * Z)) (r : Registers.t)
  : M6502 (Probe RAM) (Watch StepClock) :=
  let cpu := NewM6502 (mkProbe (poke cells zeroed) []) (mkWatch 0 []) in
  mkM6502 (mkCore (decode (core cpu)) (clock (core cpu)) r (Memory (core cpu)))
          (Instructions cpu).

(** ** Reference readings used in the statements *)

(** The opcodes that [InitInstructions] registers: LDA, LDX, LDY, STA, STX,
    STY, TAX, TAY, TXA, TYA, TSX, TXS, PHA, PHP, PLA, PLP, AND and EOR in
    the addressing modes the file lists. *)
Definition mapped : list OpCode :=
  [ 0xa9; 0xa5; 0xb5; 0xad; 0xbd; 0xb9; 0xa1; 0xb1   (* LDA *)
  ; 0xa2; 0xa6; 0xb6; 0xae; 0xbe                     (* LDX *)
  ; 0xa0; 0xa4; 0xb4; 0xac; 0xbc                     (* LDY *)
  ; 0x85; 0x95; 0x8d; 0x9d; 0x99; 0x81; 0x91         (* STA *)
  ; 0x86; 0x96; 0x8e                                 (* STX *)
  ; 0x84; 0x94; 0x8c                                 (* STY *)
  ; 0xaa; 0xa8; 0x8a; 0x98; 0xba; 0x9a               (* TAX TAY TXA TYA TSX TXS *)
  ; 0x48; 0x08; 0x68; 0x28                           (* PHA PHP PLA PLP *)
  ; 0x29; 0x25; 0x35; 0x2d; 0x3d; 0x39; 0x21; 0x31   (* AND *)
  ; 0x49; 0x45; 0x55; 0x4d; 0x5d; 0x59; 0x41; 0x51   (* EOR *) ].


(** Indirect JMP as the 6502 reference words it: the operand is a pointer;
    the target's low byte is read at the pointer, its high byte at the
    pointer plus one, except that a pointer ending in [0xFF] has it read at
    the start of the pointer's own page. *)
Definition indirectAddress_reference {Mem Clk : Type} `{!Memory.t Mem}
    (cpu : Core Mem Clk) : Z * Core Mem Clk :=
  let pc := Registers.PC (Registers cpu) in
  let '(low, m) := Memory.Fetch (Memory cpu) pc in
  let '(high, m) := Memory.Fetch m (u16 (pc + 1)) in
  let pointer := high * 256 + low in
  let '(targetLow, m) := Memory.Fetch m pointer in
  let '(targetHigh, m) :=
    Memory.Fetch m (if pointer mod 256 =? 0xff
                    then Z.land pointer 0xff00
                    else pointer + 1) in
  (targetHigh * 256 + targetLow,
   mkCore (decode cpu) (clock cpu)
          (Registers.set_PC (u16 (pc + 2)) (Registers cpu)) m).

(** The eight branch instructions, the method of each and the flag test the
    instruction set gives it, read off the bit of [P]. *)
Inductive Branch : Type := BCC | BCS | BEQ | BMI | BNE | BPL | BVC | BVS.

Definition branchOp {Mem Clk : Type} (b : Branch)
  : Z -> Z -> Op (Mem:=Mem) (Clk:=Clk) Z :=
  match b with
  | BCC => Bcc | BCS => Bcs | BEQ => Beq | BMI => Bmi
  | BNE => Bne | BPL => Bpl | BVC => Bvc | BVS => Bvs
  end.

Definition taken (b : Branch) (p : Z) : bool :=
  match b with
  | BCC => negb (Z.testbit p 0)
  | BCS => Z.testbit p 0
  | BEQ => Z.testbit p 1
  | BNE => negb (Z.testbit p 1)
  | BMI => Z.testbit p 7
  | BPL => negb (Z.testbit p 7)
  | BVC => negb (Z.testbit p 6)
  | BVS => Z.testbit p 6
  end.

(** Packed BCD: both nibbles are decimal digits. *)
Definition bcd : list Z :=
  flat_map (fun high => map (fun low => 16 * high + low) [0;1;2;3;4;5;6;7;8;9])
           [0;1;2;3;4;5;6;7;8;9].

(** The carry flag after [addition] of [value] to the accumulator [a] in
    decimal mode with carry-in [c]. *)
Definition decimalCarry (a value c : Z) : Z :=
  let cpu := machine [] (Registers.mk a 0 0 (Z.lor Status.D c) 0xfd 0) in
  Z.land (Registers.P (Registers (snd (addition value (core cpu))))) Status.C.

(** The test the code makes of a status flag, [P&flag != 0]. *)
Definition flag (p f : Z) : bool := negb (Z.land p f =? 0).

(** The five flags that Z and N updates leave alone. *)
Definition flagsButZN : list Z :=
  [Status.C; Status.I; Status.D; Status.B; Status.V].

(** A byte read as a two's complement number. *)
Definition signed8 (v : Z) : Z := if v <? 128 then v else v - 256.

(** A flag as a number. *)
Definition bit (b : bool) : Z := if b then 1 else 0.

(** Packed BCD of a number below 100, and back. *)
Definition toBCD (n : Z) : Z := 16 * (n / 10) + n mod 10.
Definition fromBCD (v : Z) : Z := 10 * (v / 16) + v mod 16.

(** The numbers below [n], in order. *)
Definition below (n : nat) : list Z := map Z.of_nat (seq 0 n).

(** The seven status flags. *)
Definition statusFlags : list Z :=
  [Status.C; Status.Z; Status.I; Status.D; Status.B; Status.V; Status.N].

(** A plain CPU core on a flat memory, for the examples. *)
Definition plain (cells : list (Z * Z)) (r : Registers.t) : Core RAM StepClock :=
  mkCore false 0 r (poke cells zeroed).

(** * Properties *)

(** ** Bytes *)

Definition bytes : list Z := map Z.of_nat (seq 0 256).

Lemma In_bytes (z : Z) : 0 <= z < 256 -> In z bytes.
Proof.
  intros Hz. unfold bytes.
  replace z with (Z.of_nat (Z.to_nat z)) by lia.
  apply in_map, in_seq. lia.
Qed.

(** A decidable property of two bytes holds of all of them once it has been
    evaluated on the 65536 pairs. *)
Lemma byte_pairs (f : Z -> Z -> bool) :
  forallb (fun high => forallb (f high) bytes) bytes = true ->
  forall high low, 0 <= high < 256 -> 0 <= low < 256 -> f high low = true.
Proof.
  intros Hall high low Hh Hl.
  rewrite forallb_forall in Hall.
  specialize (Hall high (In_bytes high Hh)).
  rewrite forallb_forall in Hall.
  exact (Hall low (In_bytes low Hl)).
Qed.

Lemma land_pow2 (p k : Z) :
  0 <= k -> Z.land p (2 ^ k) = if Z.testbit p k then 2 ^ k else 0.
Proof.
  intros Hk. apply Z.bits_inj'. intros n Hn.
  rewrite Z.land_spec, Z.pow2_bits_eqb by lia.
  destruct (Z.eqb_spec k n) as [->|Hne].
  - destruct (Z.testbit p n) eqn:Hb; simpl.
    + rewrite Z.pow2_bits_eqb by lia. now rewrite Z.eqb_refl.
    + now rewrite Z.bits_0.
  - rewrite andb_false_r.
    destruct (Z.testbit p k).
    + rewrite Z.pow2_bits_eqb by lia. symmetry. now apply Z.eqb_neq.
    + now rewrite Z.bits_0.
Qed.

Lemma flag_clear (p k : Z) :
  0 <= k -> (Z.land p (2 ^ k) =? 0) = negb (Z.testbit p k).
Proof.
  intros Hk. rewrite land_pow2 by lia.
  destruct (Z.testbit p k); simpl; [|reflexivity].
  apply Z.eqb_neq. pose proof (Z.pow_pos_nonneg 2 k). lia.
Qed.

(** ** Reset *)

(** C1 (as amended).  After [Reset] the registers are [A = X = Y = 0],
    [P] is exactly the I flag, [SP = 0xFD] and [PC = 0xFFFC], the address of
    the reset vector.  The bus is asked to reset and is not read: whatever
    the vector holds does not reach [PC]. *)
Theorem Reset_state {M C : Type} `{!Memory.t M} `{!Clocker.t C}
    (cpu : M6502 (Probe M) C) :
  let cpu' := Reset cpu in
  let r := Registers (core cpu') in
  Registers.A r = 0 /\ Registers.X r = 0 /\ Registers.Y r = 0 /\
  Registers.P r = Status.I /\
  Forall (fun flag => Z.land (Registers.P r) flag = 0)
         [Status.C; Status.Z; Status.D; Status.B; Status.V; Status.N] /\
  Registers.SP r = 0xfd /\
  Registers.PC r = 0xfffc /\
  bus (Memory (core cpu')) = bus (Memory (core cpu)) ++ [BusReset] /\
  probed (Memory (core cpu')) = Memory.Reset (probed (Memory (core cpu))).
Proof.
  cbn. repeat split.
  repeat constructor.
Qed.

(** C1, as stated, fails: with the reset vector holding [0x8000], [PC] after
    [Reset] is [0xFFFC], which is neither the word the vector held before the
    reset nor the word it holds after it. *)
Lemma Reset_PC_is_not_the_vector_word :
  let cpu := machine [(0xfffc, 0x00); (0xfffd, 0x80)] NewRegisters in
  let cpu' := Reset cpu in
  word_at (probed (Memory (core cpu))) 0xfffc = 0x8000 /\
  Registers.PC (Registers (core cpu')) <> word_at (probed (Memory (core cpu))) 0xfffc /\
  Registers.PC (Registers (core cpu')) <> word_at (probed (Memory (core cpu'))) 0xfffc.
Proof.
  vm_compute. repeat split; discriminate.
Qed.

(** ** Execute on an unmapped opcode *)

Section BadOpCode.
Context {M C : Type} `{!Memory.t M} `{!Clocker.t C}.

(** [execute] on a byte without a table entry: one [Ticks], one [Fetch],
    and the early return. *)
Lemma execute_unmapped (table : InstructionTable M C) (c : Core M C) :
  let pc := Registers.PC (Registers c) in
  let opcode := fst (Memory.Fetch (Memory c) pc) in
  table !! opcode = None ->
  execute table c =
    ((0, Some (BadOpCodeError opcode)),
     mkCore (decode c) (snd (Clocker.Ticks (clock c))) (Registers c)
            (snd (Memory.Fetch (Memory c) pc))).
Proof.
  cbn zeta. intros Hnone.
  unfold execute, bind, ticks, regs, fetch, ret. cbn.
  destruct (Clocker.Ticks (clock c)) as [t clk]. cbn.
  destruct (Memory.Fetch (Memory c) (Registers.PC (Registers c)))
    as [opcode mem] eqn:Hfetch.
  cbn in Hnone |- *. now rewrite Hnone.
Qed.

(** [execute] on a byte with a table entry. *)
Lemma execute_mapped (table : InstructionTable M C) (inst : Instruction M C)
    (c : Core M C) :
  let pc := Registers.PC (Registers c) in
  let opcode := fst (Memory.Fetch (Memory c) pc) in
  table !! opcode = Some inst ->
  let fetched := mkCore (decode c) (snd (Clocker.Ticks (clock c)))
                        (Registers.set_PC (u16 (pc + 1)) (Registers c))
                        (snd (Memory.Fetch (Memory c) pc)) in
  let ran := Exec inst fetched in
  execute table c =
    ((fst ran, None),
     snd (await (u64 (fst (Clocker.Ticks (clock c)) + fst ran)) (snd ran))).
Proof.
  cbn zeta. intros Hsome.
  unfold execute, bind, ticks, regs, fetch, update, ret. cbn.
  destruct (Clocker.Ticks (clock c)) as [t clk]. cbn.
  destruct (Memory.Fetch (Memory c) (Registers.PC (Registers c)))
    as [opcode mem] eqn:Hfetch.
  cbn in Hsome |- *. rewrite Hsome.
  destruct (Exec inst _) as [cycles c1]. cbn.
  destruct (await _ c1). reflexivity.
Qed.
End BadOpCode.

(** C2 (as amended).  When the byte fetched at [PC] has no entry in the
    instruction table, [Execute] returns [BadOpCodeError] of that byte with
    a cycle count of zero, and [PC] is left where it was, on the opcode
    byte; [Run] returns that same error from its first iteration. *)
Theorem Execute_BadOpCode {M C : Type} `{!Memory.t M} `{!Clocker.t C}
    (cpu : M6502 M C) :
  let pc := Registers.PC (Registers (core cpu)) in
  let opcode := fst (Memory.Fetch (Memory (core cpu)) pc) in
  Instructions cpu !! opcode = None ->
  fst (Execute cpu) = (0, Some (BadOpCodeError opcode)) /\
  Registers.PC (Registers (core (snd (Execute cpu)))) = pc /\
  forall fuel,
    Run (S fuel) cpu = Returned (BadOpCodeError opcode) (snd (Execute cpu)).
Proof.
  cbn zeta. intros Hnone.
  assert (HE : fst (Execute cpu) =
               (0, Some (BadOpCodeError
                           (fst (Memory.Fetch (Memory (core cpu))
                                   (Registers.PC (Registers (core cpu)))))))
               /\ Registers.PC (Registers (core (snd (Execute cpu))))
                  = Registers.PC (Registers (core cpu))).
  { unfold Execute. rewrite (execute_unmapped _ _ Hnone). cbn. split; reflexivity. }
  destruct HE as [Hres Hpc]. repeat split; try assumption.
  intros fuel. cbn [Run].
  destruct (Execute cpu) as [[cycles err] cpu'] eqn:HEx.
  cbn in Hres. injection Hres as -> ->. reflexivity.
Qed.

(** The theorem at [PC = 0x8000] holding the byte [0x02]. *)
Lemma Execute_BadOpCode_witness :
  let cpu := machine [(0x8000, 0x02)] (Registers.mk 0 0 0 0 0xfd 0x8000) in
  Instructions cpu !! 0x02 = None /\
  fst (Execute cpu) = (0, Some (BadOpCodeError 0x02)) /\
  Registers.PC (Registers (core (snd (Execute cpu)))) = 0x8000 /\
  forall fuel,
    Run (S fuel) cpu = Returned (BadOpCodeError 0x02) (snd (Execute cpu)).
Proof.
  cbn zeta. split.
  - vm_compute. reflexivity.
  - destruct (Execute_BadOpCode
                (machine [(0x8000, 0x02)] (Registers.mk 0 0 0 0 0xfd 0x8000)))
      as (H1 & H2 & H3).
    + vm_compute. reflexivity.
    + split; [|split].
      * rewrite H1. vm_compute. reflexivity.
      * rewrite H2. reflexivity.
      * intros fuel. rewrite H3. f_equal.
Defined.

(** C2, as stated, fails: at the return with [BadOpCodeError] the [PC] has
    not been advanced past the opcode byte. *)
Lemma Execute_BadOpCode_PC_not_advanced :
  let cpu := machine [(0x8000, 0x02)] (Registers.mk 0 0 0 0 0xfd 0x8000) in
  fst (Execute cpu) = (0, Some (BadOpCodeError 0x02)) /\
  Registers.PC (Registers (core (snd (Execute cpu))))
    <> u16 (Registers.PC (Registers (core cpu)) + 1).
Proof.
  vm_compute. split; [reflexivity | discriminate].
Qed.

(** C10.  When [Execute] returns [BadOpCodeError], the register file, the
    [decode] switch and the table are those of before the call; the bus has
    seen the opcode fetch and nothing else, in particular no store; the
    clock has been asked for its ticks and has not been awaited. *)
Theorem Execute_BadOpCode_leaves_state {M C : Type} `{!Memory.t M} `{!Clocker.t C}
    (cpu : M6502 (Probe M) (Watch C)) :
  let c := core cpu in
  let pc := Registers.PC (Registers c) in
  let opcode := fst (Memory.Fetch (Memory c) pc) in
  Instructions cpu !! opcode = None ->
  let cpu' := snd (Execute cpu) in
  fst (Execute cpu) = (0, Some (BadOpCodeError opcode)) /\
  Registers (core cpu') = Registers c /\
  decode (core cpu') = decode c /\
  Instructions cpu' = Instructions cpu /\
  bus (Memory (core cpu')) = bus (Memory c) ++ [BusFetch pc] /\
  probed (Memory (core cpu')) = snd (Memory.Fetch (probed (Memory c)) pc) /\
  calls (clock (core cpu')) = calls (clock c) ++ [ClockTicks] /\
  watched (clock (core cpu')) = snd (Clocker.Ticks (watched (clock c))).
Proof.
  cbn zeta. intros Hnone.
  unfold Execute. rewrite (execute_unmapped _ _ Hnone). cbn.
  repeat split.
Qed.

(** The theorem at [PC = 0x8000] holding the byte [0xFF], with registers
    and flags that are not those of a fresh CPU. *)
Lemma Execute_BadOpCode_leaves_state_witness :
  let r := Registers.mk 0x12 0x34 0x56 0xc3 0xf0 0x8000 in
  let cpu := machine [(0x8000, 0xff)] r in
  let cpu' := snd (Execute cpu) in
  Instructions cpu !! 0xff = None /\
  fst (Execute cpu) = (0, Some (BadOpCodeError 0xff)) /\
  Registers (core cpu') = r /\
  decode (core cpu') = false /\
  Instructions cpu' = Instructions cpu /\
  bus (Memory (core cpu')) = [BusFetch 0x8000] /\
  calls (clock (core cpu')) = [ClockTicks].
Proof.
  cbn zeta. split; [vm_compute; reflexivity|].
  destruct (Execute_BadOpCode_leaves_state
              (machine [(0x8000, 0xff)]
                       (Registers.mk 0x12 0x34 0x56 0xc3 0xf0 0x8000)))
    as (H1 & H2 & H3 & H4 & H5 & _ & H7 & _).
  - vm_compute. reflexivity.
  - split; [|split; [|split; [|split; [|split]]]].
    + rewrite H1. vm_compute. reflexivity.
    + rewrite H2. reflexivity.
    + rewrite H3. reflexivity.
    + exact H4.
    + rewrite H5. vm_compute. reflexivity.
    + rewrite H7. vm_compute. reflexivity.
Defined.

(** ** The instruction table *)

Section Table.
Context {M C : Type} `{!Memory.t M} `{!Clocker.t C}.

(** Adding a list of instructions maps exactly their opcodes, beside the
    ones that were mapped before. *)
Lemma lookup_fold_AddInstruction (l : list (Instruction M C))
    (table : InstructionTable M C) (op : OpCode) :
  is_Some (fold_left (fun t inst => AddInstruction inst t) l table !! op)
  <-> In op (map opcode l) \/ is_Some (table !! op).
Proof.
  revert table. induction l as [|inst l IH]; intros table; cbn [fold_left map In].
  - tauto.
  - rewrite IH. unfold AddInstruction, InstructionTable, OpCode in *.
    rewrite lookup_insert_is_Some. destruct (decide (opcode inst = op)); tauto.
Qed.

Lemma instructionList_opcodes :
  map opcode (instructionList (Mem:=M) (Clk:=C)) = mapped.
Proof. reflexivity. Qed.

Lemma InitInstructions_mapped (table : InstructionTable M C) (op : OpCode) :
  is_Some (InitInstructions table !! op) <-> In op mapped \/ is_Some (table !! op).
Proof.
  unfold InitInstructions. rewrite lookup_fold_AddInstruction.
  now rewrite instructionList_opcodes.
Qed.




(** Every entry that a list of instructions adds sits at its own opcode. *)
Lemma fold_AddInstruction_keyed (l : list (Instruction M C))
    (table : InstructionTable M C) :
  (forall op inst, table !! op = Some inst -> opcode inst = op) ->
  forall op inst,
    fold_left (fun t inst => AddInstruction inst t) l table !! op = Some inst ->
    opcode inst = op.
Proof.
  unfold InstructionTable, OpCode in *.
  revert table. induction l as [|i l IH]; intros table Hkeyed; cbn [fold_left].
  - exact Hkeyed.
  - apply IH. intros op inst. unfold AddInstruction, InstructionTable, OpCode in *.
    destruct (decide (opcode i = op)) as [<-|Hne].
    + rewrite lookup_insert_eq. intros [= <-]. reflexivity.
    + rewrite lookup_insert_ne by assumption. apply Hkeyed.
Qed.

(** The number of entries of a table is the number of its opcodes. *)
Lemma size_of_opcodes (table : InstructionTable M C) (l : list OpCode) :
  NoDup l -> (forall op, is_Some (table !! op) <-> In op l) ->
  size table = length l.
Proof.
  intros Hnodup Hdom. unfold InstructionTable, OpCode in *.
  rewrite <- size_dom.
  assert (Heq : dom table = list_to_set l :> gset Z).
  { apply set_eq. intros op. rewrite elem_of_dom, elem_of_list_to_set, Hdom.
    symmetry. apply list_elem_of_In. }
  rewrite Heq. apply size_list_to_set. exact Hnodup.
Qed.
End Table.

Lemma mapped_NoDup : NoDup mapped.
Proof.
  apply (bool_decide_unpack _). vm_compute. exact I.
Qed.



(** ** BIT *)

Section Bit.
Context {M C : Type} `{!Memory.t M} `{!Clocker.t C}.

(** [Bit] ORs bits 7 and 6 of the operand into [P]: the N and V bits
    afterwards are the old ones joined with the operand's, so a flag that
    was set stays set. *)
Lemma Bit_NV (address : Z) (cpu : Core M C) :
  let value := fst (Memory.Fetch (Memory cpu) address) in
  Z.land (Registers.P (Registers (snd (Bit address cpu)))) 0xc0
  = Z.lor (Z.land (Registers.P (Registers cpu)) 0xc0) (Z.land value 0xc0).
Proof.
  cbn zeta. unfold Bit, bind, fetch, regs, setZFlag, update, ret.
  destruct (Memory.Fetch (Memory cpu) address) as [value mem]. cbn.
  destruct (Z.land value (Registers.A (Registers cpu)) =? 0); cbn;
    rewrite Z.land_lor_distr_l, <- !Z.land_assoc, Z.land_diag.
  - f_equal. rewrite Z.land_lor_distr_l.
    change (Z.land Status.Z 192) with 0. apply Z.lor_0_r.
  - reflexivity.
Qed.
End Bit.

(** C4.  With N and V set beforehand, [A = 0xFF] and the operand [0x01],
    whose bits 7 and 6 are clear, [Bit] leaves N and V set; it clears Z and
    keeps [A].  The [Bit] of the earlier [Cpu] does the same. *)
Theorem Bit_does_not_clear_NV :
  let r := Registers.mk 0xff 0 0 (Z.lor Status.N Status.V) 0xfd 0x8000 in
  let cpu := machine [(0x0010, 0x01)] r in
  let after := Registers (snd (Bit 0x0010 (core cpu))) in
  let after1 :=
    V1.registers (V1.Bit 0x0010 (V1.mkCpu (0 : StepClock) r (Memory (core cpu)))) in
  Z.testbit 0x01 7 = false /\ Z.testbit 0x01 6 = false /\
  Registers.P after = Z.lor Status.N Status.V /\
  Z.testbit (Registers.P after) 7 = true /\
  Z.testbit (Registers.P after) 6 = true /\
  Z.testbit (Registers.P after) 1 = false /\
  Registers.A after = 0xff /\
  after1 = after.
Proof.
  vm_compute. repeat split.
Qed.

(** ** Pointers in the zero page *)

Section ZeroPagePointer.
Context {M C : Type} `{!Memory.t M} `{!Clocker.t C}.

(** Both indirect modes read the pointer's second byte at the 16-bit
    successor of the address of its first byte. *)
Lemma indirectIndexedAddress_bus (cycles : option Z) (cpu : Core (Probe M) C) :
  let pc := Registers.PC (Registers cpu) in
  let ptr := fst (Memory.Fetch (Memory cpu) pc) in
  bus (Memory (snd (indirectIndexedAddress cycles cpu)))
  = bus (Memory cpu) ++ [BusFetch pc; BusFetch ptr; BusFetch (u16 (ptr + 1))].
Proof.
  cbn. rewrite <- !app_assoc. reflexivity.
Qed.

Lemma indexedIndirectAddress_bus (cpu : Core (Probe M) C) :
  let pc := Registers.PC (Registers cpu) in
  let ptr := u8 (fst (Memory.Fetch (Memory cpu) pc) + Registers.X (Registers cpu)) in
  bus (Memory (snd (indexedIndirectAddress cpu)))
  = bus (Memory cpu) ++ [BusFetch pc; BusFetch ptr; BusFetch (u16 (ptr + 1))].
Proof.
  cbn. rewrite <- !app_assoc. reflexivity.
Qed.
End ZeroPagePointer.

(** C5.  With the pointer byte [0xFF], [0x34] at [0x00FF], [0x12] at
    [0x0000] and [0x56] at [0x0100], (Indirect),Y reads the high byte at
    [0x0100], not at [0x0000], and yields [0x5634], not [0x1234];
    (Indirect,X) with operand [0xF0] and [X = 0x0F] does the same. *)
Theorem indirect_pointer_leaves_zero_page :
  let cells := [(0x00ff, 0x34); (0x0000, 0x12); (0x0100, 0x56)] in
  let cpuY := core (machine ((0x8000, 0xff) :: cells)
                            (Registers.mk 0 0 0 0 0xfd 0x8000)) in
  let cpuX := core (machine ((0x8000, 0xf0) :: cells)
                            (Registers.mk 0 0x0f 0 0 0xfd 0x8000)) in
  fst (indirectIndexedAddress None cpuY) = (0x5634, None) /\
  bus (Memory (snd (indirectIndexedAddress None cpuY)))
    = [BusFetch 0x8000; BusFetch 0x00ff; BusFetch 0x0100] /\
  fst (indexedIndirectAddress cpuX) = 0x5634 /\
  bus (Memory (snd (indexedIndirectAddress cpuX)))
    = [BusFetch 0x8000; BusFetch 0x00ff; BusFetch 0x0100].
Proof.
  vm_compute. repeat split.
Qed.

(** ** Decimal addition *)

(** In decimal mode [addition] takes the carry from bit 8 of the sum it has
    already reduced by [0xA0]: on packed BCD operands the carry flag comes
    out clear whatever the operands and the carry-in. *)
Lemma decimal_addition_never_carries :
  forallb (fun a =>
    forallb (fun value =>
      forallb (fun c => decimalCarry a value c =? 0) [0; 1]) bcd) bcd = true.
Proof. vm_compute. reflexivity. Qed.

(** C6.  [0x99 + 0x01] in decimal mode with the carry clear: the low nibbles
    give 10, reduced to 0 with [0x10] carried; the high nibbles give [0xA0],
    reduced to 0; the accumulator is [0x00] and Z is set, but the decimal
    sum is 100 and C comes out clear.  So does [0x50 + 0x50]. *)
Theorem decimal_ADC_loses_carry :
  let p := Status.D in
  let cpu := machine [(0x0010, 0x01); (0x0011, 0x50)]
                     (Registers.mk 0x99 0 0 p 0xfd 0x8000) in
  let cpu50 := machine [(0x0010, 0x01); (0x0011, 0x50)]
                       (Registers.mk 0x50 0 0 p 0xfd 0x8000) in
  let after := Registers (snd (Adc 0x0010 (core cpu))) in
  let after50 := Registers (snd (Adc 0x0011 (core cpu50))) in
  Registers.A after = 0x00 /\
  Registers.P after = Z.lor Status.D Status.Z /\
  Z.land (Registers.P after) Status.C = 0 /\
  Registers.A after50 = 0x00 /\
  Z.land (Registers.P after50) Status.C = 0.
Proof.
  vm_compute. repeat split.
Qed.

(** ** Indirect JMP *)

(** Two bytes joined by shift and or are the word [high * 256 + low]. *)
Lemma word_of_bytes (high low : Z) :
  0 <= high < 256 -> 0 <= low < 256 ->
  Z.lor (u16 (Z.shiftl high 8)) low = high * 256 + low.
Proof.
  intros Hh Hl. apply Z.eqb_eq.
  apply (byte_pairs (fun h l => Z.lor (u16 (Z.shiftl h 8)) l =? h * 256 + l));
    [vm_compute; reflexivity | assumption | assumption].
Qed.

(** Incrementing only the low byte of a pointer: the successor of the
    pointer, unless the low byte is [0xFF], when it is the start of the
    pointer's page. *)
Lemma low_byte_successor (high low : Z) :
  0 <= high < 256 -> 0 <= low < 256 ->
  Z.lor (u16 (Z.shiftl high 8)) (u8 (low + 1))
  = if (high * 256 + low) mod 256 =? 0xff
    then Z.land (high * 256 + low) 0xff00
    else high * 256 + low + 1.
Proof.
  intros Hh Hl. apply Z.eqb_eq.
  apply (byte_pairs
           (fun h l => Z.lor (u16 (Z.shiftl h 8)) (u8 (l + 1))
                       =? (if (h * 256 + l) mod 256 =? 0xff
                           then Z.land (h * 256 + l) 0xff00
                           else h * 256 + l + 1)));
    [vm_compute; reflexivity | assumption | assumption].
Qed.

(** [indirectAddress] is indirect JMP as the reference words it: on every
    CPU and every bus it makes the same fetches in the same order and
    returns the same target and the same state. *)
Lemma indirectAddress_reference_eq {M C : Type} `{!Memory.t M} `{!Clocker.t C}
    (cpu : Core M C) :
  indirectAddress cpu = indirectAddress_reference cpu.
Proof.
  unfold indirectAddress, indirectAddress_reference, bind, regs, fetch, update, ret.
  cbn.
  pose proof (Memory.Fetch_uint8 (Memory cpu) (Registers.PC (Registers cpu))) as Hlow.
  destruct (Memory.Fetch (Memory cpu) (Registers.PC (Registers cpu))) as [low m1].
  cbn in Hlow |- *.
  pose proof (Memory.Fetch_uint8 m1 (u16 (Registers.PC (Registers cpu) + 1))) as Hhigh.
  destruct (Memory.Fetch m1 (u16 (Registers.PC (Registers cpu) + 1))) as [high m2].
  cbn in Hhigh |- *.
  rewrite (word_of_bytes high low Hhigh Hlow).
  rewrite (low_byte_successor high low Hhigh Hlow).
  pose proof (Memory.Fetch_uint8 m2 (high * 256 + low)) as Hlow'.
  destruct (Memory.Fetch m2 (high * 256 + low)) as [targetLow m3].
  cbn in Hlow' |- *.
  set (aHigh := if (high * 256 + low) mod 256 =? 255
                then Z.land (high * 256 + low) 65280
                else high * 256 + low + 1).
  pose proof (Memory.Fetch_uint8 m3 aHigh) as Hhigh'.
  destruct (Memory.Fetch m3 aHigh) as [targetHigh m4].
  cbn in Hhigh' |- *.
  rewrite (word_of_bytes targetHigh targetLow Hhigh' Hlow').
  reflexivity.
Qed.

Lemma page_start_is_not_successor (high low : Z) :
  0 <= high < 256 -> 0 <= low < 256 ->
  Z.land (high * 256 + low) 0xff00 <> high * 256 + low + 1.
Proof.
  intros Hh Hl. apply Z.eqb_neq, negb_true_iff.
  apply (byte_pairs
           (fun h l => negb (Z.land (h * 256 + l) 0xff00 =? h * 256 + l + 1)));
    [vm_compute; reflexivity | assumption | assumption].
Qed.

(** C7.  Indirect JMP on a recording bus: after the two operand fetches,
    which give the pointer, the target's low byte is fetched at the pointer
    and its high byte at [pointer & 0xFF00] when the pointer's low byte is
    [0xFF], at [pointer + 1] otherwise; [pointer & 0xFF00] is never
    [pointer + 1].  The target is the word made of the two bytes read. *)
Theorem indirectAddress_page_wrap {M C : Type} `{!Memory.t M} `{!Clocker.t C}
    (cpu : Core (Probe M) C) :
  let pc := Registers.PC (Registers cpu) in
  let operandLow := Memory.Fetch (probed (Memory cpu)) pc in
  let operandHigh := Memory.Fetch (snd operandLow) (u16 (pc + 1)) in
  let pointer := fst operandHigh * 256 + fst operandLow in
  let second := if pointer mod 256 =? 0xff
                then Z.land pointer 0xff00
                else pointer + 1 in
  let targetLow := Memory.Fetch (snd operandHigh) pointer in
  let targetHigh := Memory.Fetch (snd targetLow) second in
  bus (Memory (snd (indirectAddress cpu)))
    = bus (Memory cpu)
      ++ [BusFetch pc; BusFetch (u16 (pc + 1)); BusFetch pointer; BusFetch second] /\
  fst (indirectAddress cpu) = fst targetHigh * 256 + fst targetLow /\
  Z.land pointer 0xff00 <> pointer + 1.
Proof.
  cbn zeta. rewrite indirectAddress_reference_eq.
  unfold indirectAddress_reference. cbn.
  rewrite <- !app_assoc. cbn.
  split; [reflexivity | split; [reflexivity |]].
  apply page_start_is_not_successor; apply Memory.Fetch_uint8.
Qed.

(** ** Branches *)

Section Branches.
Context {M C : Type} `{!Memory.t M} `{!Clocker.t C}.

(** What [branch] does, by cases on its condition. *)
Lemma branch_cases (target : Z) (condition : Registers.t -> bool) (base : Z)
    (cpu : Core M C) :
  0 <= base < 0xfffe ->
  branch target condition base cpu =
    if condition (Registers cpu)
    then (if SamePage (Registers.PC (Registers cpu)) target
          then base + 1 else base + 2,
          mkCore (decode cpu) (clock cpu)
                 (Registers.set_PC target (Registers cpu)) (Memory cpu))
    else (base, cpu).
Proof.
  intros Hbase. unfold branch, bind, regs, update, ret. cbn.
  destruct (condition (Registers cpu)); [|reflexivity].
  destruct (SamePage (Registers.PC (Registers cpu)) target); cbn;
    unfold u16; rewrite (Z.mod_small (base + 1)) by lia;
    rewrite ?Z.mod_small by lia; try reflexivity.
  f_equal. lia.
Qed.

(** The closure each branch method passes to [branch] is the flag test of
    its instruction. *)
Lemma branchOp_branch (b : Branch) (target base : Z) (cpu : Core M C) :
  branchOp b target base cpu
  = branch target (fun r => taken b (Registers.P r)) base cpu.
Proof.
  destruct b; cbn [branchOp taken];
    unfold Bcc, Bcs, Beq, Bmi, Bne, Bpl, Bvc, Bvs, branch, bind, regs; cbn.
  all: try change Status.C with (2 ^ 0); try change Status.Z with (2 ^ 1);
    try change Status.V with (2 ^ 6); try change Status.N with (2 ^ 7).
  all: rewrite flag_clear by lia; try rewrite negb_involutive; reflexivity.
Qed.
End Branches.

(** C8.  For each of the eight branch instructions, with [cycles] holding
    the base cost on entry: when the flag test fails, the cycle count is the
    base cost and the CPU is unchanged; when it holds, [PC] becomes the
    target and the cycle count is the base cost plus one if the target is on
    the page of the [PC] the method finds (the one after the operand), plus
    two if it is on another page. *)
Theorem branch_cycles {M C : Type} `{!Memory.t M} `{!Clocker.t C}
    (b : Branch) (target base : Z) (cpu : Core M C) :
  0 <= base < 0xfffe ->
  let pc := Registers.PC (Registers cpu) in
  branchOp b target base cpu =
    if taken b (Registers.P (Registers cpu))
    then (if Z.land pc 0xff00 =? Z.land target 0xff00 then base + 1 else base + 2,
          mkCore (decode cpu) (clock cpu)
                 (Registers.set_PC target (Registers cpu)) (Memory cpu))
    else (base, cpu).
Proof.
  intros Hbase. cbn zeta.
  rewrite branchOp_branch, branch_cases by assumption. reflexivity.
Qed.

(** The theorem on BEQ with Z set, from [PC = 0x80FF] to [0x8103]: the page
    changes and the two cycles of the base cost become four. *)
Lemma branch_cycles_witness :
  let cpu := core (machine [] (Registers.mk 0 0 0 Status.Z 0xfd 0x80ff)) in
  0 <= 2 < 0xfffe /\
  fst (branchOp BEQ 0x8103 2 cpu) = 4 /\
  Registers.PC (Registers (snd (branchOp BEQ 0x8103 2 cpu))) = 0x8103.
Proof.
  cbn zeta. split; [lia|].
  rewrite (branch_cycles BEQ 0x8103 2
             (core (machine [] (Registers.mk 0 0 0 Status.Z 0xfd 0x80ff))))
    by lia.
  split; reflexivity.
Defined.

(** ** The divider *)

(** C9.  For a divisor [d > 0], a master clock [m] and a target [t]:
    [Ticks] of the divider is the master's tick count divided by [d], the
    quotient [q] with [q * d <= n < (q + 1) * d]; [Await t] awaits the
    master at the uint64 product of [t] and [d], which is [t * d] whenever
    that fits 64 bits, and returns the tick count the master gives back
    divided by [d].  Neither call fails and both keep the divisor. *)
Theorem Divider_ticks_await {C : Type} `{!Clocker.t C} (m : C) (d t : Z) :
  0 < d ->
  let n := Clocker.Ticks m in
  let a := Clocker.Await m (u64 (t * d)) in
  Divider.Ticks (NewDivider m d) = Some (fst n / d, NewDivider (snd n) d) /\
  fst n / d * d <= fst n < (fst n / d + 1) * d /\
  Divider.Await (NewDivider m d) t = Some (fst a / d, NewDivider (snd a) d) /\
  fst a / d * d <= fst a < (fst a / d + 1) * d /\
  (0 <= t * d < 2 ^ 64 -> u64 (t * d) = t * d).
Proof.
  intros Hd. cbn zeta.
  unfold Divider.Ticks, Divider.Await, NewDivider, Divider.div64. cbn.
  destruct (Clocker.Ticks m) as [n m1].
  destruct (Clocker.Await m (u64 (t * d))) as [a m2]. cbn.
  destruct (Z.eqb_spec d 0) as [->|_]; [lia|]. cbn.
  pose proof (Z.mul_div_le n d Hd).
  pose proof (Z.mul_succ_div_gt n d Hd).
  pose proof (Z.mul_div_le a d Hd).
  pose proof (Z.mul_succ_div_gt a d Hd).
  repeat split; try lia.
  intros Hfit. unfold u64. apply Z.mod_small. lia.
Qed.

(** The theorem on the CPU clock of the defaults: divisor 12, the master at
    tick 100, the CPU awaiting its tick 9. *)
Lemma Divider_ticks_await_witness :
  0 < 12 /\
  Divider.Ticks (NewDivider (100 : StepClock) 12) = Some (8, NewDivider 100 12) /\
  Divider.Await (NewDivider (100 : StepClock) 12) 9 = Some (9, NewDivider 108 12).
Proof.
  split; [lia|].
  destruct (Divider_ticks_await (100 : StepClock) 12 9) as (H1 & _ & H3 & _);
    [lia|].
  split; [rewrite H1 | rewrite H3]; reflexivity.
Defined.

(** ** The model on the scenarios of the specification *)

(** LDA immediate of zero: [A = 0], Z set, N clear, [PC] past the operand,
    two cycles, and the clock awaited two ticks after the start. *)
Example LDA_immediate_zero :
  let cpu := machine [(0x8000, 0xa9); (0x8001, 0x00)]
                     (Registers.mk 0x55 0 0 0 0xfd 0x8000) in
  let r := Registers (core (snd (Execute cpu))) in
  fst (Execute cpu) = (2, None) /\
  Registers.A r = 0 /\ Registers.P r = Status.Z /\ Registers.PC r = 0x8002 /\
  calls (clock (core (snd (Execute cpu)))) = [ClockTicks; ClockAwait 2].
Proof. vm_compute. repeat split. Qed.

(** LDA absolute,X across a page boundary costs the extra cycle. *)
Example LDA_absolute_X_page_cross :
  let cpu := machine [(0x8000, 0xbd); (0x8001, 0xff); (0x8002, 0x20); (0x2100, 0x80)]
                     (Registers.mk 0 0x01 0 0 0xfd 0x8000) in
  let r := Registers (core (snd (Execute cpu))) in
  fst (Execute cpu) = (5, None) /\
  Registers.A r = 0x80 /\ Registers.P r = Status.N /\ Registers.PC r = 0x8003.
Proof. vm_compute. repeat split. Qed.

(** ADC in binary mode, [0x50 + 0x50]: [A = 0xA0] with N and V set. *)
Example ADC_binary_overflow :
  let cpu := machine [(0x8001, 0x50)] (Registers.mk 0x50 0 0 0 0xfd 0x8001) in
  let r := Registers (snd (Adc 0x8001 (core cpu))) in
  Registers.A r = 0xa0 /\ Registers.P r = Z.lor Status.N Status.V.
Proof. vm_compute. repeat split. Qed.

(** ADC in decimal mode, [0x15 + 0x27]: [A = 0x42] with C clear. *)
Example ADC_decimal :
  let cpu := machine [(0x8001, 0x27)] (Registers.mk 0x15 0 0 Status.D 0xfd 0x8001) in
  let r := Registers (snd (Adc 0x8001 (core cpu))) in
  Registers.A r = 0x42 /\ Z.land (Registers.P r) Status.C = 0.
Proof. vm_compute. repeat split. Qed.

(** Indirect JMP through [0x02FF]: the target is [0x1234], not [0x5634]. *)
Example JMP_indirect_page_bug :
  let cpu := machine [(0x3001, 0xff); (0x3002, 0x02); (0x02ff, 0x34);
                      (0x0200, 0x12); (0x0300, 0x56)]
                     (Registers.mk 0 0 0 0 0xfd 0x3001) in
  fst (indirectAddress (core cpu)) = 0x1234 /\
  Registers.PC (Registers (snd (indirectAddress (core cpu)))) = 0x3003 /\
  bus (Memory (snd (indirectAddress (core cpu))))
    = [BusFetch 0x3001; BusFetch 0x3002; BusFetch 0x02ff; BusFetch 0x0200].
Proof. vm_compute. repeat split. Qed.

(** BEQ taken from [0x80FD]: the operand [+4] read at [0x80FE] leads from
    [0x80FF] to [0x8103], on the next page, in four cycles. *)
Example BEQ_taken_page_cross :
  let cpu := core (machine [(0x80fe, 0x04)] (Registers.mk 0 0 0 Status.Z 0xfd 0x80fe)) in
  let target := relativeAddress cpu in
  fst target = 0x8103 /\
  fst (Beq (fst target) 2 (snd target)) = 4 /\
  Registers.PC (Registers (snd (Beq (fst target) 2 (snd target)))) = 0x8103.
Proof. vm_compute. repeat split. Qed.

(** The same scenarios through [Execute] and the opcode table: ADC
    immediate in two cycles, in binary and in decimal mode. *)
Example Execute_ADC_immediate :
  let binary := machine [(0x8000, 0x69); (0x8001, 0x50)]
                        (Registers.mk 0x50 0 0 0 0xfd 0x8000) in
  let decimal := machine [(0x8000, 0x69); (0x8001, 0x27)]
                         (Registers.mk 0x15 0 0 Status.D 0xfd 0x8000) in
  let b := Registers (core (snd (Execute binary))) in
  let d := Registers (core (snd (Execute decimal))) in
  fst (Execute binary) = (2, None) /\
  Registers.A b = 0xa0 /\ Registers.P b = Z.lor Status.N Status.V /\
  Registers.PC b = 0x8002 /\
  fst (Execute decimal) = (2, None) /\
  Registers.A d = 0x42 /\ Z.land (Registers.P d) Status.C = 0.
Proof. vm_compute. repeat split. Qed.

(** BEQ at [0x80FD], taken across a page: four cycles. *)
Example Execute_BEQ_page_cross :
  let cpu := machine [(0x80fd, 0xf0); (0x80fe, 0x04)]
                     (Registers.mk 0 0 0 Status.Z 0xfd 0x80fd) in
  fst (Execute cpu) = (4, None) /\
  Registers.PC (Registers (core (snd (Execute cpu)))) = 0x8103.
Proof. vm_compute. repeat split. Qed.

(** JMP indirect at [0x3000] through [0x02FF]: five cycles, to [0x1234]. *)
Example Execute_JMP_indirect :
  let cpu := machine [(0x3000, 0x6c); (0x3001, 0xff); (0x3002, 0x02);
                      (0x02ff, 0x34); (0x0200, 0x12); (0x0300, 0x56)]
                     (Registers.mk 0 0 0 0 0xfd 0x3000) in
  fst (Execute cpu) = (5, None) /\
  Registers.PC (Registers (core (snd (Execute cpu)))) = 0x1234.
Proof. vm_compute. repeat split. Qed.

(** JSR to [0x5000] from [0x1000], then RTS: [PC = 0x1003] and [SP] as
    before the call. *)
Example Execute_JSR_RTS :
  let cpu := machine [(0x1000, 0x20); (0x1001, 0x00); (0x1002, 0x50);
                      (0x5000, 0x60)]
                     (Registers.mk 0 0 0 0 0xfd 0x1000) in
  let called := snd (Execute cpu) in
  let back := Registers (core (snd (Execute called))) in
  fst (Execute cpu) = (6, None) /\
  Registers.PC (Registers (core called)) = 0x5000 /\
  fst (Execute called) = (6, None) /\
  Registers.PC back = 0x1003 /\ Registers.SP back = 0xfd.
Proof. vm_compute. repeat split. Qed.


(** * Further properties of the CPU *)

(** ** Reading flags *)

Lemma In_below (n : nat) (z : Z) : 0 <= z < Z.of_nat n -> In z (below n).
Proof.
  intros Hz. unfold below.
  replace z with (Z.of_nat (Z.to_nat z)) by lia.
  apply in_map, in_seq. lia.
Qed.

(** A decidable property holds below the bounds once it has been evaluated
    on every pair below them. *)
Lemma pairs_below (n m : nat) (f : Z -> Z -> bool) :
  forallb (fun x => forallb (f x) (below m)) (below n) = true ->
  forall x y, 0 <= x < Z.of_nat n -> 0 <= y < Z.of_nat m -> f x y = true.
Proof.
  intros Hall x y Hx Hy.
  rewrite forallb_forall in Hall.
  specialize (Hall x (In_below n x Hx)).
  rewrite forallb_forall in Hall.
  exact (Hall y (In_below m y Hy)).
Qed.

Lemma all_bytes (f : Z -> bool) :
  forallb f bytes = true -> forall x, 0 <= x < 256 -> f x = true.
Proof.
  intros Hall x Hx. rewrite forallb_forall in Hall.
  exact (Hall x (In_bytes x Hx)).
Qed.

Lemma flag_testbit (p k : Z) : 0 <= k -> flag p (2 ^ k) = Z.testbit p k.
Proof.
  intros Hk. unfold flag. rewrite flag_clear by assumption.
  apply negb_involutive.
Qed.

Lemma flag_C (p : Z) : flag p Status.C = Z.testbit p 0.
Proof. exact (flag_testbit p 0 ltac:(lia)). Qed.
Lemma flag_Z (p : Z) : flag p Status.Z = Z.testbit p 1.
Proof. exact (flag_testbit p 1 ltac:(lia)). Qed.
Lemma flag_I (p : Z) : flag p Status.I = Z.testbit p 2.
Proof. exact (flag_testbit p 2 ltac:(lia)). Qed.
Lemma flag_D (p : Z) : flag p Status.D = Z.testbit p 3.
Proof. exact (flag_testbit p 3 ltac:(lia)). Qed.
Lemma flag_B (p : Z) : flag p Status.B = Z.testbit p 4.
Proof. exact (flag_testbit p 4 ltac:(lia)). Qed.
Lemma flag_V (p : Z) : flag p Status.V = Z.testbit p 6.
Proof. exact (flag_testbit p 6 ltac:(lia)). Qed.
Lemma flag_N (p : Z) : flag p Status.N = Z.testbit p 7.
Proof. exact (flag_testbit p 7 ltac:(lia)). Qed.

(** Bit 7 of a byte is its sign. *)
Lemma byte_bit7 (v : Z) : 0 <= v < 256 -> Z.testbit v 7 = (128 <=? v).
Proof.
  intros Hv. apply eqb_prop.
  apply (all_bytes (fun x => eqb (Z.testbit x 7) (128 <=? x)));
    [vm_compute; reflexivity | assumption].
Qed.

(** Reading a flag of a [P] that the code has just combined: the flag
    constants and their complements become numerals, the reads become bit
    tests, the bit tests distribute, and those of numerals are evaluated. *)
Ltac status_numerals :=
  change (not8 Status.C) with 254 in *; change (not8 Status.Z) with 253 in *;
  change (not8 Status.V) with 191 in *; change (not8 Status.N) with 127 in *;
  change Status.C with 1 in *; change Status.Z with 2 in *;
  change Status.I with 4 in *; change Status.D with 8 in *;
  change Status.B with 16 in *; change Status.V with 64 in *;
  change Status.N with 128 in *.

Ltac numeral_bits :=
  repeat match goal with
    | |- context [Z.testbit (Zpos ?p) (Zpos ?k)] =>
        let b := eval vm_compute in (Z.testbit (Zpos p) (Zpos k)) in
        change (Z.testbit (Zpos p) (Zpos k)) with b
    | |- context [Z.testbit (Zpos ?p) 0] =>
        let b := eval vm_compute in (Z.testbit (Zpos p) 0) in
        change (Z.testbit (Zpos p) 0) with b
    | |- context [Z.testbit 0 ?k] => rewrite (Z.testbit_0_l k)
    end.

Ltac flag_bits :=
  rewrite ?flag_C, ?flag_Z, ?flag_I, ?flag_D, ?flag_B, ?flag_V, ?flag_N;
  status_numerals;
  repeat first [ rewrite Z.lor_spec | rewrite Z.land_spec
               | rewrite Z.ldiff_spec | rewrite Z.lxor_spec ];
  numeral_bits;
  rewrite ?andb_true_r, ?andb_false_r, ?orb_false_r, ?orb_true_r,
    ?orb_false_l, ?andb_true_l.

Section Flags.
Context {M C : Type} `{!Memory.t M} `{!Clocker.t C}.

(** [setZNFlags] changes [P] and nothing else, and hands its argument back. *)
Lemma setZNFlags_frame (value : Z) (cpu : Core M C) :
  setZNFlags value cpu =
    (value,
     mkCore (decode cpu) (clock cpu)
       (Registers.set_P
          (Z.lor (Z.land (if value =? 0
                          then Z.lor (Registers.P (Registers cpu)) Status.Z
                          else Z.land (Registers.P (Registers cpu)) (not8 Status.Z))
                         (not8 Status.N))
                 (Z.land value Status.N))
          (Registers cpu))
       (Memory cpu)).
Proof.
  unfold setZNFlags, setZFlag, setNFlag, bind, regs, update, ret.
  destruct (value =? 0); reflexivity.
Qed.
End Flags.

(** X1.  [setZNFlags] of a byte sets Z exactly when the byte is zero and N
    exactly when it is 128 or more; it returns the byte, leaves the flags C,
    I, D, B and V as they were and touches no other register, nor the bus,
    nor the clock. *)
Theorem setZNFlags_flags {M C : Type} `{!Memory.t M} `{!Clocker.t C}
    (value : Z) (cpu : Core M C) :
  0 <= value < 256 ->
  let cpu' := snd (setZNFlags value cpu) in
  let p := Registers.P (Registers cpu) in
  let p' := Registers.P (Registers cpu') in
  fst (setZNFlags value cpu) = value /\
  flag p' Status.Z = (value =? 0) /\
  flag p' Status.N = (128 <=? value) /\
  Forall (fun f => flag p' f = flag p f) flagsButZN /\
  cpu' = mkCore (decode cpu) (clock cpu)
                (Registers.set_P p' (Registers cpu)) (Memory cpu).
Proof.
  intros Hv. cbn zeta. rewrite setZNFlags_frame. cbn [fst snd Registers Registers.P Registers.set_P].
  split; [reflexivity|].
  split; [|split; [|split; [|reflexivity]]].
  - destruct (value =? 0); flag_bits; reflexivity.
  - rewrite <- (byte_bit7 value Hv).
    destruct (value =? 0); flag_bits; reflexivity.
  - unfold flagsButZN.
    repeat constructor; destruct (value =? 0); flag_bits; reflexivity.
Qed.

(** The theorem on the byte [0x80] with every flag set beforehand. *)
Lemma setZNFlags_flags_witness :
  let cpu := plain [] (Registers.mk 0 0 0 0xff 0xfd 0) in
  0 <= 0x80 < 256 /\
  Registers.P (Registers (snd (setZNFlags 0x80 cpu))) = 0xfd.
Proof.
  cbn zeta. split; [lia|].
  destruct (setZNFlags_flags 0x80 (plain [] (Registers.mk 0 0 0 0xff 0xfd 0)))
    as (_ & _ & _ & _ & H); [lia|].
  rewrite H. reflexivity.
Defined.

(** ** Addressing modes *)

(** X2.  On a recording bus, every addressing mode only reads: it appends
    fetches to the bus log and no store (none for immediate, one for the
    zero-page and relative modes, two for the absolute ones, three for the
    two zero-page indirect ones, four for indirect), it moves [PC] on by
    the length of its operand (one byte, or two for the absolute and
    indirect modes) and it leaves every other register and the clock as
    they were. *)
Theorem addressing_modes_only_read {M C : Type} `{!Memory.t M} `{!Clocker.t C}
    (index : Index.t) (cycles : option Z) (cpu : Core (Probe M) C) :
  let reads (operand : Z) (fetches : nat) (after : Core (Probe M) C) :=
    Registers after
      = Registers.set_PC (u16 (Registers.PC (Registers cpu) + operand))
                         (Registers cpu) /\
    (exists l, length l = fetches /\
               bus (Memory after) = bus (Memory cpu) ++ map BusFetch l) /\
    clock after = clock cpu /\ decode after = decode cpu in
  reads 1 0%nat (snd (immediateAddress cpu)) /\
  reads 1 1%nat (snd (zeroPageAddress cpu)) /\
  reads 1 1%nat (snd (zeroPageIndexedAddress index cpu)) /\
  reads 1 1%nat (snd (relativeAddress cpu)) /\
  reads 2 2%nat (snd (absoluteAddress cpu)) /\
  reads 2 4%nat (snd (indirectAddress cpu)) /\
  reads 2 2%nat (snd (absoluteIndexedAddress index cycles cpu)) /\
  reads 1 3%nat (snd (indexedIndirectAddress cpu)) /\
  reads 1 3%nat (snd (indirectIndexedAddress cycles cpu)).
Proof.
  cbn zeta.
  repeat match goal with |- _ /\ _ => split end; try reflexivity.
  all: cbn; rewrite <- ?app_assoc; cbn [app].
  - exists []. split; [reflexivity | now rewrite app_nil_r].
  - eexists [_]. split; reflexivity.
  - eexists [_]. split; reflexivity.
  - eexists [_]. split; reflexivity.
  - eexists [_; _]. split; reflexivity.
  - eexists [_; _; _; _]. split; reflexivity.
  - eexists [_; _]. split; reflexivity.
  - eexists [_; _; _]. split; reflexivity.
  - eexists [_; _; _]. split; reflexivity.
Qed.

(** X3.  Relative addressing sign-extends its operand: the target is the
    [PC] after the operand plus the operand read as a two's complement
    byte, modulo 65536. *)
Theorem relativeAddress_signed {M C : Type} `{!Memory.t M} `{!Clocker.t C}
    (cpu : Core M C) :
  let pc := Registers.PC (Registers cpu) in
  let operand := fst (Memory.Fetch (Memory cpu) pc) in
  fst (relativeAddress cpu) = u16 (pc + 1 + signed8 operand).
Proof.
  cbn zeta. unfold relativeAddress, bind, regs, fetch, update, ret. cbn.
  pose proof (Memory.Fetch_uint8 (Memory cpu) (Registers.PC (Registers cpu))) as Hv.
  destruct (Memory.Fetch (Memory cpu) (Registers.PC (Registers cpu))) as [v m].
  cbn in Hv |- *. unfold signed8, u16.
  destruct (Z.ltb_spec 127 v) as [Hneg|Hpos];
    destruct (Z.ltb_spec v 128) as [Hlt|Hge]; try lia.
  - rewrite (Z.mod_small (256 - v)) by lia.
    rewrite Zminus_mod_idemp_l. f_equal. lia.
  - rewrite Zplus_mod_idemp_l. reflexivity.
Qed.

(** The page of a word is the page of its high byte. *)
Lemma page_of_word (high low : Z) :
  0 <= high < 256 -> 0 <= low < 256 ->
  Z.land (high * 256 + low) 0xff00 = high * 256.
Proof.
  intros Hh Hl. apply Z.eqb_eq.
  apply (byte_pairs (fun h l => Z.land (h * 256 + l) 0xff00 =? h * 256));
    [vm_compute; reflexivity | assumption | assumption].
Qed.

(** Adding a low part below 511 to the start of a page stays in the page
    exactly when the low part is a byte. *)
Lemma page_after_offset (high s : Z) :
  0 <= high < 256 -> 0 <= s < 511 ->
  (high * 256 =? Z.land (u16 (high * 256 + s)) 0xff00) = (s <? 256).
Proof.
  intros Hh Hs. apply eqb_prop.
  apply (pairs_below 256 511
           (fun h x => eqb (h * 256 =? Z.land (u16 (h * 256 + x)) 0xff00)
                           (x <? 256)));
    [vm_compute; reflexivity | lia | lia].
Qed.

(** Indexing a word by a byte leaves its page exactly when the low byte and
    the index carry. *)
Lemma SamePage_indexed (high low index : Z) :
  0 <= high < 256 -> 0 <= low < 256 -> 0 <= index < 256 ->
  SamePage (high * 256 + low) (u16 (high * 256 + low + index))
  = (low + index <? 256).
Proof.
  intros Hh Hl Hi. unfold SamePage.
  rewrite page_of_word by assumption.
  rewrite <- Z.add_assoc. apply page_after_offset; lia.
Qed.

(** X4.  Absolute,X and absolute,Y: with [low] and [high] the operand bytes
    and a byte in the index register, the address is
    [high * 256 + low + index] modulo 65536, and the cycle counter handed in
    is incremented exactly when [low + index] carries out of the low byte;
    with a nil counter nothing is counted. *)
Theorem absoluteIndexedAddress_penalty {M C : Type} `{!Memory.t M} `{!Clocker.t C}
    (index : Index.t) (cycles : Z) (cpu : Core M C) :
  let pc := Registers.PC (Registers cpu) in
  let low := Memory.Fetch (Memory cpu) pc in
  let high := Memory.Fetch (snd low) (u16 (pc + 1)) in
  let reg := fst (IndexToRegister index cpu) in
  0 <= reg < 256 ->
  fst (absoluteIndexedAddress index (Some cycles) cpu)
    = (u16 (fst high * 256 + fst low + reg),
       Some (if fst low + reg <? 256 then cycles else u16 (cycles + 1))) /\
  fst (absoluteIndexedAddress index None cpu)
    = (u16 (fst high * 256 + fst low + reg), None).
Proof.
  cbn zeta. intros Hreg.
  unfold absoluteIndexedAddress, IndexToRegister, bind, regs, fetch, update, ret in *.
  cbn in *.
  pose proof (Memory.Fetch_uint8 (Memory cpu) (Registers.PC (Registers cpu))) as Hlow.
  destruct (Memory.Fetch (Memory cpu) (Registers.PC (Registers cpu))) as [low m1].
  cbn in Hlow |- *.
  pose proof (Memory.Fetch_uint8 m1 (u16 (Registers.PC (Registers cpu) + 1))) as Hhigh.
  destruct (Memory.Fetch m1 (u16 (Registers.PC (Registers cpu) + 1))) as [high m2].
  cbn in Hhigh |- *.
  rewrite (word_of_bytes high low Hhigh Hlow).
  unfold pageCrossed. rewrite SamePage_indexed by assumption.
  destruct (low + _ <? 256); split; reflexivity.
Qed.

(** The theorem on [LDA $20FF,X] with [X = 1]. *)
Lemma absoluteIndexedAddress_penalty_witness :
  let cpu := plain [(0x8001, 0xff); (0x8002, 0x20)]
                   (Registers.mk 0 0x01 0 0 0xfd 0x8001) in
  0 <= fst (IndexToRegister Index.X cpu) < 256 /\
  fst (absoluteIndexedAddress Index.X (Some 4) cpu) = (0x2100, Some 5).
Proof.
  cbn zeta. split; [cbn; lia|].
  destruct (absoluteIndexedAddress_penalty Index.X 4
              (plain [(0x8001, 0xff); (0x8002, 0x20)]
                     (Registers.mk 0 0x01 0 0 0xfd 0x8001))) as [H _];
    [cbn; lia|].
  rewrite H. reflexivity.
Defined.

(** X5.  (Indirect),Y: with [low] and [high] the two bytes read through the
    zero-page pointer and a byte in [Y], the address is
    [high * 256 + low + Y] modulo 65536, and the cycle counter handed in is
    incremented exactly when [low + Y] carries out of the low byte; with a
    nil counter nothing is counted. *)
Theorem indirectIndexedAddress_penalty {M C : Type} `{!Memory.t M} `{!Clocker.t C}
    (cycles : Z) (cpu : Core M C) :
  let pc := Registers.PC (Registers cpu) in
  let pointer := Memory.Fetch (Memory cpu) pc in
  let low := Memory.Fetch (snd pointer) (fst pointer) in
  let high := Memory.Fetch (snd low) (u16 (fst pointer + 1)) in
  let y := Registers.Y (Registers cpu) in
  0 <= y < 256 ->
  fst (indirectIndexedAddress (Some cycles) cpu)
    = (u16 (fst high * 256 + fst low + y),
       Some (if fst low + y <? 256 then cycles else u16 (cycles + 1))) /\
  fst (indirectIndexedAddress None cpu)
    = (u16 (fst high * 256 + fst low + y), None).
Proof.
  cbn zeta. intros Hy.
  unfold indirectIndexedAddress, bind, regs, fetch, update, ret. cbn.
  destruct (Memory.Fetch (Memory cpu) (Registers.PC (Registers cpu))) as [ptr m0].
  cbn.
  pose proof (Memory.Fetch_uint8 m0 ptr) as Hlow.
  destruct (Memory.Fetch m0 ptr) as [low m1].
  cbn in Hlow |- *.
  pose proof (Memory.Fetch_uint8 m1 (u16 (ptr + 1))) as Hhigh.
  destruct (Memory.Fetch m1 (u16 (ptr + 1))) as [high m2].
  cbn in Hhigh |- *.
  rewrite (word_of_bytes high low Hhigh Hlow).
  unfold pageCrossed. rewrite SamePage_indexed by assumption.
  destruct (low + _ <? 256); split; reflexivity.
Qed.

(** The theorem on [LDA ($40),Y] with the pointer [0x20F0] and [Y = 0x10]. *)
Lemma indirectIndexedAddress_penalty_witness :
  let cpu := plain [(0x8001, 0x40); (0x0040, 0xf0); (0x0041, 0x20)]
                   (Registers.mk 0 0 0x10 0 0xfd 0x8001) in
  0 <= Registers.Y (Registers cpu) < 256 /\
  fst (indirectIndexedAddress (Some 5) cpu) = (0x2100, Some 6).
Proof.
  cbn zeta. split; [cbn; lia|].
  destruct (indirectIndexedAddress_penalty 5
              (plain [(0x8001, 0x40); (0x0040, 0xf0); (0x0041, 0x20)]
                     (Registers.mk 0 0 0x10 0 0xfd 0x8001))) as [H _];
    [cbn; lia|].
  rewrite H. reflexivity.
Defined.

(** ** The stack *)

Lemma lor_stack (s : Z) : 0 <= s < 256 -> Z.lor 0x0100 s = 0x0100 + s.
Proof.
  intros Hs. apply Z.eqb_eq.
  apply (all_bytes (fun x => Z.lor 0x0100 x =? 0x0100 + x));
    [vm_compute; reflexivity | assumption].
Qed.

Lemma u8_range (z : Z) : 0 <= u8 z < 256.
Proof. unfold u8. apply Z.mod_pos_bound. lia. Qed.

Lemma u8_byte (z : Z) : 0 <= z < 256 -> u8 z = z.
Proof. intros Hz. unfold u8. apply Z.mod_small. assumption. Qed.

(** Goals about stack pointers and bytes taken modulo 256. *)
Ltac mod_arith :=
  unfold u8, u16 in *; Z.to_euclidean_division_equations; lia.

(** X6.  [push] stores its byte at [0x0100 + SP], inside the stack page,
    and then decrements [SP] modulo 256, so that [SP = 0] becomes [0xFF];
    [pull] first increments [SP] modulo 256 and then fetches at
    [0x0100 + SP], again inside the page.  Each makes that one bus access
    and changes no other register. *)
Theorem stack_stays_in_page {M C : Type} `{!Memory.t M} `{!Clocker.t C}
    (value : Z) (cpu : Core (Probe M) C) :
  let sp := Registers.SP (Registers cpu) in
  0 <= sp < 256 ->
  let pushed := snd (push value cpu) in
  let pulled := snd (pull cpu) in
  let up := (sp + 1) mod 256 in
  bus (Memory pushed) = bus (Memory cpu) ++ [BusStore (0x0100 + sp) value] /\
  Registers pushed = Registers.set_SP ((sp - 1) mod 256) (Registers cpu) /\
  bus (Memory pulled) = bus (Memory cpu) ++ [BusFetch (0x0100 + up)] /\
  Registers pulled = Registers.set_SP up (Registers cpu) /\
  0x0100 <= 0x0100 + sp <= 0x01ff /\ 0x0100 <= 0x0100 + up <= 0x01ff.
Proof.
  cbn zeta. intros Hsp.
  unfold push, pull, bind, regs, store, fetch, update, ret. cbn.
  rewrite (lor_stack _ Hsp), (lor_stack _ (u8_range _)).
  pose proof (u8_range (Registers.SP (Registers cpu) + 1)) as Hup.
  unfold u8 in *.
  repeat split; lia.
Qed.

(** The theorem at [SP = 0], where the push wraps to [0xFF]. *)
Lemma stack_stays_in_page_witness :
  let cpu := core (machine [] (Registers.mk 0 0 0 0 0x00 0)) in
  0 <= Registers.SP (Registers cpu) < 256 /\
  bus (Memory (snd (push 0x7e cpu))) = [BusStore 0x0100 0x7e] /\
  Registers.SP (Registers (snd (push 0x7e cpu))) = 0xff.
Proof.
  cbn zeta. split; [cbn; lia|].
  destruct (stack_stays_in_page 0x7e (core (machine [] (Registers.mk 0 0 0 0 0x00 0))))
    as (H1 & H2 & _); [cbn; lia|].
  rewrite H1, H2. split; reflexivity.
Defined.

(** X7.  On a flat memory, pulling after pushing a byte gives the byte back
    and restores every register, the stack pointer included, wherever the
    stack pointer stands. *)
Theorem pull_push {C : Type} `{!Clocker.t C} (value : Z) (cpu : Core RAM C) :
  0 <= Registers.SP (Registers cpu) < 256 ->
  0 <= value < 256 ->
  let after := pull (snd (push value cpu)) in
  fst after = value /\ Registers (snd after) = Registers cpu.
Proof.
  destruct cpu as [d clk [a x y p sp pc] m]. cbn. intros Hsp Hv.
  unfold push, pull, bind, regs, store, fetch, update, ret. cbn.
  unfold Registers.set_SP. cbn.
  replace (u8 (u8 (sp - 1) + 1)) with sp by mod_arith.
  rewrite Z.eqb_refl. split; [apply u8_byte; assumption | reflexivity].
Qed.

(** The theorem at [SP = 0]. *)
Lemma pull_push_witness :
  let cpu := plain [] (Registers.mk 1 2 3 4 0x00 0x8000) in
  0 <= Registers.SP (Registers cpu) < 256 /\ 0 <= 0xa5 < 256 /\
  fst (pull (snd (push 0xa5 cpu))) = 0xa5 /\
  Registers (snd (pull (snd (push 0xa5 cpu)))) = Registers cpu.
Proof.
  cbn zeta. split; [cbn; lia|]. split; [lia|].
  apply (pull_push 0xa5 (plain [] (Registers.mk 1 2 3 4 0x00 0x8000)));
    [cbn; lia | lia].
Defined.

Lemma u8_u8 (z : Z) : u8 (u8 z) = u8 z.
Proof. unfold u8. apply Z.mod_mod. lia. Qed.

Lemma u8_add_l (a b : Z) : u8 (u8 a + b) = u8 (a + b).
Proof. unfold u8. apply Zplus_mod_idemp_l. Qed.

Lemma u8_sub_l (a b : Z) : u8 (u8 a - b) = u8 (a - b).
Proof. unfold u8. apply Zminus_mod_idemp_l. Qed.

(** The two bytes [push16] pushes make up the word again. *)
Lemma word_split (v : Z) :
  0 <= v < 65536 ->
  Z.lor (u16 (Z.shiftl (u8 (Z.shiftr v 8)) 8)) (u8 v) = v.
Proof.
  intros Hv. rewrite word_of_bytes by apply u8_range.
  rewrite Z.shiftr_div_pow2 by lia. change (2 ^ 8) with 256. mod_arith.
Qed.

Lemma lor_B_byte (p : Z) :
  0 <= p < 256 -> u8 (Z.lor p Status.B) = Z.lor p Status.B.
Proof.
  intros Hp. apply Z.eqb_eq.
  apply (all_bytes (fun x => u8 (Z.lor x Status.B) =? Z.lor x Status.B));
    [vm_compute; reflexivity | assumption].
Qed.

(** Stack pointers that went down and up again. *)
Ltac sp_norm :=
  repeat first
    [ rewrite u8_u8 | rewrite u8_add_l | rewrite u8_sub_l
    | match goal with
      | |- context [u8 ?e] => progress ring_simplify e
      end ].

(** Which cell of a flat memory a fetch hits after some stores: a test of
    an address against itself holds, the other tests fail. *)
Ltac ram_cases :=
  rewrite ?Z.eqb_refl;
  repeat match goal with
    | |- context [?a =? ?b] =>
        replace (a =? b) with false
          by (symmetry; apply Z.eqb_neq; mod_arith)
    end.

Ltac ram_stack :=
  cbv beta iota zeta delta
    [Rts Jsr Brk Rti Php Plp Pha Pla pull16 push16 push pull
     setZNFlags setZFlag setNFlag bind regs store fetch update ret
     Memory.Store Memory.Fetch RAM_Memory fst snd
     Registers Memory clock decode
     Registers.A Registers.X Registers.Y Registers.P Registers.SP Registers.PC
     Registers.set_SP Registers.set_PC Registers.set_P Registers.set_A];
  rewrite ?lor_stack by (first [assumption | apply u8_range]);
  sp_norm.

(** X8.  On a flat memory, [pull16] after [push16] of a 16-bit word gives
    the word back (high byte pushed first, low byte pulled first) and
    restores every register, also when the stack pointer wraps in between. *)
Theorem pull16_push16 {C : Type} `{!Clocker.t C} (value : Z) (cpu : Core RAM C) :
  0 <= Registers.SP (Registers cpu) < 256 ->
  0 <= value < 65536 ->
  let after := pull16 (snd (push16 value cpu)) in
  fst after = value /\ Registers (snd after) = Registers cpu.
Proof.
  destruct cpu as [d clk [a x y p sp pc] m]. cbn. intros Hsp Hv.
  ram_stack. rewrite ?(u8_byte sp Hsp).
  ram_cases. rewrite !u8_u8.
  split; [apply word_split; assumption | reflexivity].
Qed.

(** The theorem at [SP = 0], where the second byte goes to [0x01FF]. *)
Lemma pull16_push16_witness :
  let cpu := plain [] (Registers.mk 1 2 3 4 0x00 0x8000) in
  0 <= Registers.SP (Registers cpu) < 256 /\ 0 <= 0xbeef < 65536 /\
  fst (pull16 (snd (push16 0xbeef cpu))) = 0xbeef /\
  Registers (snd (pull16 (snd (push16 0xbeef cpu)))) = Registers cpu.
Proof.
  cbn zeta. split; [cbn; lia|]. split; [lia|].
  apply (pull16_push16 0xbeef (plain [] (Registers.mk 1 2 3 4 0x00 0x8000)));
    [cbn; lia | lia].
Defined.

(** ** Subroutines and interrupts *)

(** X9.  On a flat memory, [Jsr] leaves [PC] at the target with the stack
    pointer two lower (modulo 256) and the word [PC - 1] on the stack, and
    [Rts] after it restores the whole register file: [PC] is back where it
    was when [Jsr] was entered. *)
Theorem Rts_Jsr {C : Type} `{!Clocker.t C} (address : Z) (cpu : Core RAM C) :
  0 <= Registers.SP (Registers cpu) < 256 ->
  0 <= Registers.PC (Registers cpu) < 65536 ->
  let called := snd (Jsr address cpu) in
  Registers called
    = Registers.set_PC address
        (Registers.set_SP ((Registers.SP (Registers cpu) - 2) mod 256)
                          (Registers cpu)) /\
  fst (pull16 called) = (Registers.PC (Registers cpu) - 1) mod 65536 /\
  Registers (snd (Rts called)) = Registers cpu.
Proof.
  destruct cpu as [d clk [a x y p sp pc] m]. cbn. intros Hsp Hpc.
  ram_stack. rewrite ?(u8_byte sp Hsp).
  ram_cases. rewrite !u8_u8.
  rewrite word_split by (unfold u16; apply Z.mod_pos_bound; lia).
  repeat split.
  f_equal. mod_arith.
Qed.

(** The theorem on [JSR $5000] with [PC = 0x1003] after the operand. *)
Lemma Rts_Jsr_witness :
  let cpu := plain [] (Registers.mk 1 2 3 4 0xfd 0x1003) in
  0 <= Registers.SP (Registers cpu) < 256 /\
  0 <= Registers.PC (Registers cpu) < 65536 /\
  Registers (snd (Jsr 0x5000 cpu)) = Registers.mk 1 2 3 4 0xfb 0x5000 /\
  fst (pull16 (snd (Jsr 0x5000 cpu))) = 0x1002 /\
  Registers (snd (Rts (snd (Jsr 0x5000 cpu)))) = Registers cpu.
Proof.
  cbn zeta. split; [cbn; lia|]. split; [cbn; lia|].
  destruct (Rts_Jsr 0x5000 (plain [] (Registers.mk 1 2 3 4 0xfd 0x1003)))
    as (H1 & H2 & H3); [cbn; lia | cbn; lia |].
  rewrite H1, H2, H3. repeat split.
Defined.

(** X10.  On a flat memory, [Rti] after [Brk] resumes one byte after the
    [PC] that [Brk] found, with the stack pointer and A, X and Y restored
    and with the status that [Brk] pushed: the old [P] with the B flag set.
    The I flag that [Brk] sets is not in the pushed copy. *)
Theorem Rti_Brk {C : Type} `{!Clocker.t C} (cpu : Core RAM C) :
  0 <= Registers.SP (Registers cpu) < 256 ->
  0 <= Registers.P (Registers cpu) < 256 ->
  let r := Registers cpu in
  Registers (snd (Rti (snd (Brk cpu))))
  = Registers.set_PC (u16 (Registers.PC r + 1))
      (Registers.set_P (Z.lor (Registers.P r) Status.B) r).
Proof.
  destruct cpu as [d clk [a x y p sp pc] m]. cbn. intros Hsp Hp.
  ram_stack. rewrite ?(u8_byte sp Hsp).
  ram_cases. rewrite !u8_u8.
  rewrite word_split by (unfold u16; apply Z.mod_pos_bound; lia).
  rewrite lor_B_byte by assumption. reflexivity.
Qed.

(** The theorem with the IRQ vector at [0x9000] and [SP = 1]. *)
Lemma Rti_Brk_witness :
  let cpu := plain [(0xfffe, 0x00); (0xffff, 0x90)]
                   (Registers.mk 1 2 3 0x41 0x01 0x8001) in
  0 <= Registers.SP (Registers cpu) < 256 /\
  0 <= Registers.P (Registers cpu) < 256 /\
  Registers.PC (Registers (snd (Brk cpu))) = 0x9000 /\
  Registers (snd (Rti (snd (Brk cpu)))) = Registers.mk 1 2 3 0x51 0x01 0x8002.
Proof.
  cbn zeta. split; [cbn; lia|]. split; [cbn; lia|]. split; [reflexivity|].
  rewrite (Rti_Brk (plain [(0xfffe, 0x00); (0xffff, 0x90)]
                          (Registers.mk 1 2 3 0x41 0x01 0x8001)))
    by (cbn; lia).
  reflexivity.
Defined.

(** X11.  On a flat memory, [Plp] after [Php] leaves the stack pointer where
    it was and [P] with the B flag set and otherwise unchanged: [Php]
    pushes [P | B]. *)
Theorem Plp_Php {C : Type} `{!Clocker.t C} (cpu : Core RAM C) :
  0 <= Registers.SP (Registers cpu) < 256 ->
  0 <= Registers.P (Registers cpu) < 256 ->
  Registers (snd (Plp (snd (Php cpu))))
  = Registers.set_P (Z.lor (Registers.P (Registers cpu)) Status.B) (Registers cpu).
Proof.
  destruct cpu as [d clk [a x y p sp pc] m]. cbn. intros Hsp Hp.
  ram_stack. rewrite ?(u8_byte sp Hsp).
  ram_cases. rewrite lor_B_byte by assumption. reflexivity.
Qed.

Lemma Plp_Php_witness :
  let cpu := plain [] (Registers.mk 1 2 3 0x81 0xfd 0x8000) in
  0 <= Registers.SP (Registers cpu) < 256 /\
  0 <= Registers.P (Registers cpu) < 256 /\
  Registers (snd (Plp (snd (Php cpu)))) = Registers.mk 1 2 3 0x91 0xfd 0x8000.
Proof.
  cbn zeta. split; [cbn; lia|]. split; [cbn; lia|].
  rewrite (Plp_Php (plain [] (Registers.mk 1 2 3 0x81 0xfd 0x8000)))
    by (cbn; lia).
  reflexivity.
Defined.

(** X12.  On a flat memory, [Pla] after [Pha] leaves the accumulator and
    the stack pointer as they were and the flags as [setZNFlags] of the
    accumulator leaves them. *)
Theorem Pla_Pha {C : Type} `{!Clocker.t C} (cpu : Core RAM C) :
  0 <= Registers.SP (Registers cpu) < 256 ->
  0 <= Registers.A (Registers cpu) < 256 ->
  Registers (snd (Pla (snd (Pha cpu))))
  = Registers (snd (setZNFlags (Registers.A (Registers cpu)) cpu)).
Proof.
  destruct cpu as [d clk [a x y p sp pc] m]. cbn. intros Hsp Ha.
  ram_stack. rewrite ?(u8_byte sp Hsp).
  ram_cases. rewrite (u8_byte a Ha).
  destruct (a =? 0); reflexivity.
Qed.

Lemma Pla_Pha_witness :
  let cpu := plain [] (Registers.mk 0 2 3 0x80 0xfd 0x8000) in
  0 <= Registers.SP (Registers cpu) < 256 /\
  0 <= Registers.A (Registers cpu) < 256 /\
  Registers (snd (Pla (snd (Pha cpu)))) = Registers.mk 0 2 3 0x02 0xfd 0x8000.
Proof.
  cbn zeta. split; [cbn; lia|]. split; [cbn; lia|].
  rewrite (Pla_Pha (plain [] (Registers.mk 0 2 3 0x80 0xfd 0x8000)))
    by (cbn; lia).
  reflexivity.
Defined.

(** ** Arithmetic *)

Lemma land_C (p : Z) : Z.land p Status.C = bit (flag p Status.C).
Proof.
  rewrite flag_C. change Status.C with (2 ^ 0). rewrite land_pow2 by lia.
  destruct (Z.testbit p 0); reflexivity.
Qed.

Lemma D_clear (p : Z) : flag p Status.D = false -> (Z.land p Status.D =? 0) = true.
Proof. unfold flag. now destruct (Z.land p Status.D =? 0). Qed.

(** Carry, overflow and low byte of the sum that binary [addition] forms. *)
Lemma binary_sum_flags (c a m : Z) :
  c = 0 \/ c = 1 -> 0 <= a < 256 -> 0 <= m < 256 ->
  let sum := u16 (u16 (a + m) + c) in
  u8 (Z.land (Z.shiftr sum 8) Status.C) = bit (256 <=? a + m + c) /\
  u8 (Z.shiftr (Z.land (Z.land (not16 (Z.lxor a m)) (Z.lxor a sum)) Status.N) 1)
  = 64 * bit (negb ((-128 <=? signed8 a + signed8 m + c)
                    && (signed8 a + signed8 m + c <=? 127))) /\
  u8 sum = (a + m + c) mod 256.
Proof.
  intros Hc Ha Hm.
  pose (f := fun c a m =>
    let sum := u16 (u16 (a + m) + c) in
    (u8 (Z.land (Z.shiftr sum 8) Status.C) =? bit (256 <=? a + m + c))
    && (u8 (Z.shiftr (Z.land (Z.land (not16 (Z.lxor a m)) (Z.lxor a sum)) Status.N) 1)
        =? 64 * bit (negb ((-128 <=? signed8 a + signed8 m + c)
                    && (signed8 a + signed8 m + c <=? 127))))
    && (u8 sum =? (a + m + c) mod 256)).
  assert (Hf : f c a m = true).
  { destruct Hc as [-> | ->]; apply byte_pairs; try assumption;
      vm_compute; reflexivity. }
  unfold f in Hf. cbn zeta in Hf.
  apply andb_prop in Hf as [Hf H3]. apply andb_prop in Hf as [H1 H2].
  cbn zeta. repeat split; apply Z.eqb_eq; assumption.
Qed.


(** The status after the carry, the overflow and then Z and N of a byte
    have been written to it. *)
Lemma status_after_sum (p : Z) (cb vb : bool) (s : Z) :
  0 <= s < 256 ->
  let p1 := Z.lor (Z.land p (not8 Status.C)) (bit cb) in
  let p2 := Z.lor (Z.land p1 (not8 Status.V)) (64 * bit vb) in
  let p3 := Z.lor (Z.land (if s =? 0 then Z.lor p2 Status.Z
                           else Z.land p2 (not8 Status.Z))
                          (not8 Status.N))
                  (Z.land s Status.N) in
  flag p3 Status.C = cb /\ flag p3 Status.Z = (s =? 0) /\
  flag p3 Status.N = (128 <=? s) /\ flag p3 Status.V = vb /\
  Forall (fun f => flag p3 f = flag p f) [Status.I; Status.D; Status.B].
Proof.
  intros Hs. cbn zeta. rewrite <- (byte_bit7 s Hs).
  destruct cb, vb, (s =? 0); unfold bit;
    change (64 * 1) with 64; change (64 * 0) with 0;
    repeat split; repeat constructor; flag_bits; reflexivity.
Qed.

Lemma status_after_compare (p : Z) (cb : bool) (s : Z) :
  0 <= s < 256 ->
  let p1 := Z.lor (Z.land p (not8 Status.C)) (bit cb) in
  let p3 := Z.lor (Z.land (if s =? 0 then Z.lor p1 Status.Z
                           else Z.land p1 (not8 Status.Z))
                          (not8 Status.N))
                  (Z.land s Status.N) in
  flag p3 Status.C = cb /\ flag p3 Status.Z = (s =? 0) /\
  flag p3 Status.N = (128 <=? s) /\
  Forall (fun f => flag p3 f = flag p f) [Status.I; Status.D; Status.B; Status.V].
Proof.
  intros Hs. cbn zeta. rewrite <- (byte_bit7 s Hs).
  destruct cb, (s =? 0); unfold bit;
    repeat split; repeat constructor; flag_bits; reflexivity.
Qed.


Lemma D_set (p : Z) : flag p Status.D = true -> (Z.land p Status.D =? 0) = false.
Proof. unfold flag. now destruct (Z.land p Status.D =? 0). Qed.

Lemma lxor_ff (m : Z) : 0 <= m < 256 -> Z.lxor m 0xff = 255 - m.
Proof.
  intros Hm. apply Z.eqb_eq.
  apply (all_bytes (fun x => Z.lxor x 0xff =? 255 - x));
    [vm_compute; reflexivity | assumption].
Qed.

(** What [compare] feeds to the flag helpers. *)
Lemma compare_flags (reg m : Z) :
  0 <= reg < 256 -> 0 <= m < 256 ->
  let result := u16 (reg + u16 (Z.lxor m 0xff + 1)) in
  u8 (Z.land (Z.shiftr result 8) Status.C) = bit (m <=? reg) /\
  u8 result = (reg - m) mod 256.
Proof.
  intros Hr Hm.
  pose (f := fun reg m =>
    let result := u16 (reg + u16 (Z.lxor m 0xff + 1)) in
    (u8 (Z.land (Z.shiftr result 8) Status.C) =? bit (m <=? reg))
    && (u8 result =? (reg - m) mod 256)).
  assert (Hf : f reg m = true)
    by (apply byte_pairs; try assumption; vm_compute; reflexivity).
  unfold f in Hf. cbn zeta in Hf. apply andb_prop in Hf as [H1 H2].
  cbn zeta. split; apply Z.eqb_eq; assumption.
Qed.

(** The accumulator after the decimal branch of [addition], on packed BCD. *)
Lemma decimal_sum (c a m : Z) :
  c = 0 \/ c = 1 ->
  0 <= a <= 0x99 -> a mod 16 <= 9 -> 0 <= m <= 0x99 -> m mod 16 <= 9 ->
  let low := u16 (u16 (Z.land a 0x000f + Z.land m 0x000f) + c) in
  let high := u16 (Z.land a 0x00f0 + Z.land m 0x00f0) in
  let low' := if 0x000a <=? low then u16 (low - 0x000a) else low in
  let high' := if 0x000a <=? low then u16 (high + 0x0010) else high in
  let high'' := if 0x00a0 <=? high' then u16 (high' - 0x00a0) else high' in
  u8 (Z.lor high'' (Z.land low' 0x000f))
  = toBCD ((fromBCD a + fromBCD m + c) mod 100).
Proof.
  intros Hc Ha Ha' Hm Hm'.
  pose (f := fun c a m =>
    let low := u16 (u16 (Z.land a 0x000f + Z.land m 0x000f) + c) in
    let high := u16 (Z.land a 0x00f0 + Z.land m 0x00f0) in
    let low' := if 0x000a <=? low then u16 (low - 0x000a) else low in
    let high' := if 0x000a <=? low then u16 (high + 0x0010) else high in
    let high'' := if 0x00a0 <=? high' then u16 (high' - 0x00a0) else high' in
    negb ((a <=? 0x99) && (a mod 16 <=? 9) && (m <=? 0x99) && (m mod 16 <=? 9))
    || (u8 (Z.lor high'' (Z.land low' 0x000f))
        =? toBCD ((fromBCD a + fromBCD m + c) mod 100))).
  assert (Hf : f c a m = true).
  { destruct Hc as [-> | ->];
      [apply (pairs_below 154 154 (f 0)) | apply (pairs_below 154 154 (f 1))];
      try lia; vm_compute; reflexivity. }
  unfold f in Hf. cbn zeta in Hf.
  assert (Hin : (a <=? 0x99) && (a mod 16 <=? 9) && (m <=? 0x99) && (m mod 16 <=? 9) = true).
  { repeat (apply andb_true_intro; split); apply Z.leb_le; lia. }
  rewrite Hin in Hf. cbn [negb orb] in Hf. cbn zeta. apply Z.eqb_eq. exact Hf.
Qed.

(** Nines' complement of packed BCD, as decimal [Sbc] forms it. *)
Lemma nines_complement (m : Z) :
  0 <= m <= 0x99 -> m mod 16 <= 9 ->
  0 <= u16 (0x99 - m) <= 0x99 /\ u16 (0x99 - m) mod 16 <= 9 /\
  fromBCD (u16 (0x99 - m)) = 99 - fromBCD m.
Proof.
  intros Hm Hm'.
  pose (f := fun m =>
    negb ((m <=? 0x99) && (m mod 16 <=? 9))
    || ((0 <=? u16 (0x99 - m)) && (u16 (0x99 - m) <=? 0x99)
        && (u16 (0x99 - m) mod 16 <=? 9)
        && (fromBCD (u16 (0x99 - m)) =? 99 - fromBCD m))).
  assert (Hf : f m = true)
    by (apply (all_bytes f); [vm_compute; reflexivity | lia]).
  unfold f in Hf.
  assert (Hin : (m <=? 0x99) && (m mod 16 <=? 9) = true).
  { apply andb_true_intro; split; apply Z.leb_le; lia. }
  rewrite Hin in Hf. cbn [negb orb] in Hf.
  apply andb_prop in Hf as [Hf H4]. apply andb_prop in Hf as [Hf H3].
  apply andb_prop in Hf as [H1 H2].
  apply Z.leb_le in H1, H2, H3. apply Z.eqb_eq in H4. lia.
Qed.

Section Arithmetic.
Context {M C : Type} `{!Memory.t M} `{!Clocker.t C}.

(** [addition] in binary mode. *)
Lemma addition_binary (value : Z) (cpu : Core M C) :
  let r := Registers cpu in
  let a := Registers.A r in
  let c := bit (flag (Registers.P r) Status.C) in
  0 <= a < 256 -> 0 <= value < 256 ->
  flag (Registers.P r) Status.D = false ->
  let r' := Registers (snd (addition value cpu)) in
  let p' := Registers.P r' in
  let signed := signed8 a + signed8 value + c in
  Registers.A r' = (a + value + c) mod 256 /\
  flag p' Status.C = (256 <=? a + value + c) /\
  flag p' Status.Z = ((a + value + c) mod 256 =? 0) /\
  flag p' Status.N = (128 <=? (a + value + c) mod 256) /\
  flag p' Status.V = negb ((-128 <=? signed) && (signed <=? 127)) /\
  Forall (fun f => flag p' f = flag (Registers.P r) f)
         [Status.I; Status.D; Status.B] /\
  Registers.set_P (Registers.P r) (Registers.set_A a r') = r /\
  Memory (snd (addition value cpu)) = Memory cpu.
Proof.
  cbn zeta. intros Ha Hm HD.
  unfold addition, bind, regs. cbn.
  rewrite (D_clear _ HD). rewrite land_C.
  set (c := bit (flag (Registers.P (Registers cpu)) Status.C)).
  assert (Hc : c = 0 \/ c = 1).
  { unfold c, bit. destruct (flag _ Status.C); [right | left]; reflexivity. }
  destruct (binary_sum_flags c _ value Hc Ha Hm) as (HC & HV & HA).
  cbn zeta in HC, HV, HA.
  unfold setCFlagAddition, setVFlagAddition, bind, regs, update, ret. cbn.
  rewrite !setZNFlags_frame. cbn.
  rewrite HC, HV, HA.
  destruct (status_after_sum (Registers.P (Registers cpu))
              (256 <=? Registers.A (Registers cpu) + value + c)
              (negb ((-128 <=? signed8 (Registers.A (Registers cpu)) + signed8 value + c)
                     && (signed8 (Registers.A (Registers cpu)) + signed8 value + c <=? 127)))
              ((Registers.A (Registers cpu) + value + c) mod 256))
    as (H1 & H2 & H3 & H4 & H5);
    [apply Z.mod_pos_bound; lia|].
  cbn zeta in H1, H2, H3, H4, H5.
  split; [reflexivity|].
  split; [exact H1|]. split; [exact H2|]. split; [exact H3|].
  split; [exact H4|]. split; [exact H5|].
  split; [destruct (Registers cpu); reflexivity | reflexivity].
Qed.

(** The accumulator after [addition] in decimal mode. *)
Lemma addition_decimal (value : Z) (cpu : Core M C) :
  let r := Registers cpu in
  let a := Registers.A r in
  let c := bit (flag (Registers.P r) Status.C) in
  0 <= a <= 0x99 -> a mod 16 <= 9 ->
  0 <= value <= 0x99 -> value mod 16 <= 9 ->
  flag (Registers.P r) Status.D = true ->
  Registers.A (Registers (snd (addition value cpu)))
  = toBCD ((fromBCD a + fromBCD value + c) mod 100).
Proof.
  cbn zeta. intros Ha Ha' Hm Hm' HD.
  unfold addition, bind, regs. cbn.
  rewrite (D_set _ HD). rewrite land_C.
  set (c := bit (flag (Registers.P (Registers cpu)) Status.C)).
  assert (Hc : c = 0 \/ c = 1).
  { unfold c, bit. destruct (flag _ Status.C); [right | left]; reflexivity. }
  pose proof (decimal_sum c _ value Hc Ha Ha' Hm Hm') as HA. cbn zeta in HA.
  destruct (10 <=? _); cbn;
    unfold setCFlagAddition, setVFlagAddition, bind, regs, update, ret; cbn;
    rewrite !setZNFlags_frame; cbn; exact HA.
Qed.

(** X13.  [Adc] with the D flag clear and a byte in the accumulator: with
    [m] the operand and [c] the carry flag as a number, the accumulator
    becomes [(a + m + c) mod 256], C is set exactly when [a + m + c] exceeds
    255, Z and N describe the new accumulator, V is set exactly when the sum
    of the operands read as signed bytes, plus [c], leaves the range
    [-128..127]; I, D, B and the other registers are unchanged. *)
Theorem Adc_binary (address : Z) (cpu : Core M C) :
  let r := Registers cpu in
  let a := Registers.A r in
  let m := fst (Memory.Fetch (Memory cpu) address) in
  let c := bit (flag (Registers.P r) Status.C) in
  0 <= a < 256 ->
  flag (Registers.P r) Status.D = false ->
  let r' := Registers (snd (Adc address cpu)) in
  let p' := Registers.P r' in
  let signed := signed8 a + signed8 m + c in
  Registers.A r' = (a + m + c) mod 256 /\
  flag p' Status.C = (256 <=? a + m + c) /\
  flag p' Status.Z = ((a + m + c) mod 256 =? 0) /\
  flag p' Status.N = (128 <=? (a + m + c) mod 256) /\
  flag p' Status.V = negb ((-128 <=? signed) && (signed <=? 127)) /\
  Forall (fun f => flag p' f = flag (Registers.P r) f)
         [Status.I; Status.D; Status.B] /\
  Registers.set_P (Registers.P r) (Registers.set_A a r') = r.
Proof.
  cbn zeta. intros Ha HD.
  unfold Adc, bind, fetch.
  pose proof (Memory.Fetch_uint8 (Memory cpu) address) as Hm.
  destruct (Memory.Fetch (Memory cpu) address) as [m mem]. cbn [fst] in Hm |- *.
  destruct (addition_binary m
              (mkCore (decode cpu) (clock cpu) (Registers cpu) mem) Ha Hm HD)
    as (H1 & H2 & H3 & H4 & H5 & H6 & H7 & _).
  cbn [Registers] in *.
  repeat split; assumption.
Qed.

(** X14.  [Sbc] with the D flag clear and a byte in the accumulator: with
    the borrow [1 - c], the accumulator becomes [(a - m - borrow) mod 256],
    C is set exactly when no borrow is needed ([a - m - borrow >= 0]), Z and
    N describe the new accumulator, V is set exactly when the signed
    difference leaves the range [-128..127]; I, D, B and the other
    registers are unchanged. *)
Theorem Sbc_binary (address : Z) (cpu : Core M C) :
  let r := Registers cpu in
  let a := Registers.A r in
  let m := fst (Memory.Fetch (Memory cpu) address) in
  let borrow := 1 - bit (flag (Registers.P r) Status.C) in
  0 <= a < 256 ->
  flag (Registers.P r) Status.D = false ->
  let r' := Registers (snd (Sbc address cpu)) in
  let p' := Registers.P r' in
  let signed := signed8 a - signed8 m - borrow in
  Registers.A r' = (a - m - borrow) mod 256 /\
  flag p' Status.C = (0 <=? a - m - borrow) /\
  flag p' Status.Z = ((a - m - borrow) mod 256 =? 0) /\
  flag p' Status.N = (128 <=? (a - m - borrow) mod 256) /\
  flag p' Status.V = negb ((-128 <=? signed) && (signed <=? 127)) /\
  Forall (fun f => flag p' f = flag (Registers.P r) f)
         [Status.I; Status.D; Status.B] /\
  Registers.set_P (Registers.P r) (Registers.set_A a r') = r.
Proof.
  cbn zeta. intros Ha HD.
  unfold Sbc, bind, fetch, regs.
  pose proof (Memory.Fetch_uint8 (Memory cpu) address) as Hm.
  destruct (Memory.Fetch (Memory cpu) address) as [m mem]. cbn [fst] in Hm |- *.
  cbn [Registers]. rewrite (D_clear _ HD). rewrite (lxor_ff m Hm).
  assert (Hv : 0 <= 255 - m < 256) by lia.
  destruct (addition_binary (255 - m)
              (mkCore (decode cpu) (clock cpu) (Registers cpu) mem) Ha Hv HD)
    as (H1 & H2 & H3 & H4 & H5 & H6 & H7 & _).
  cbn [Registers] in *.
  set (c := bit (flag (Registers.P (Registers cpu)) Status.C)) in *.
  assert (Hc : c = 0 \/ c = 1).
  { unfold c, bit. destruct (flag _ Status.C); [right | left]; reflexivity. }
  assert (Hmod : (Registers.A (Registers cpu) + (255 - m) + c) mod 256
                 = (Registers.A (Registers cpu) - m - (1 - c)) mod 256).
  { replace (Registers.A (Registers cpu) + (255 - m) + c)
      with (Registers.A (Registers cpu) - m - (1 - c) + 1 * 256) by lia.
    apply Z_mod_plus_full. }
  assert (Hs : signed8 (255 - m) = - signed8 m - 1).
  { unfold signed8. destruct (Z.ltb_spec (255 - m) 128), (Z.ltb_spec m 128); lia. }
  rewrite Hmod in H1, H3, H4. rewrite Hs in H5.
  split; [exact H1|].
  split; [rewrite H2; destruct (Z.leb_spec 256 (Registers.A (Registers cpu) + (255 - m) + c)),
                         (Z.leb_spec 0 (Registers.A (Registers cpu) - m - (1 - c))); lia || reflexivity|].
  split; [exact H3|]. split; [exact H4|].
  split; [rewrite H5; do 2 f_equal; f_equal; lia|].
  split; assumption.
Qed.

(** X15.  [compare] of a byte register with the operand [m] sets C exactly
    when [m <= register], Z exactly when they are equal and N to bit 7 of
    [(register - m) mod 256]; it leaves I, D, B, V and every register but
    [P] unchanged.  [Cmp], [Cpx] and [Cpy] are [compare] on A, X and Y. *)
Theorem compare_sets_flags (address register : Z) (cpu : Core M C) :
  let r := Registers cpu in
  let m := fst (Memory.Fetch (Memory cpu) address) in
  0 <= register < 256 ->
  let r' := Registers (snd (compare address register cpu)) in
  let p' := Registers.P r' in
  flag p' Status.C = (m <=? register) /\
  flag p' Status.Z = (register =? m) /\
  flag p' Status.N = (128 <=? (register - m) mod 256) /\
  Forall (fun f => flag p' f = flag (Registers.P r) f)
         [Status.I; Status.D; Status.B; Status.V] /\
  Registers.set_P (Registers.P r) r' = r /\
  Cmp address cpu = compare address (Registers.A r) cpu /\
  Cpx address cpu = compare address (Registers.X r) cpu /\
  Cpy address cpu = compare address (Registers.Y r) cpu.
Proof.
  cbn zeta. intros Hr.
  repeat match goal with |- _ /\ _ => split end; try reflexivity.
  all: unfold compare, bind, fetch.
  all: pose proof (Memory.Fetch_uint8 (Memory cpu) address) as Hm.
  all: destruct (Memory.Fetch (Memory cpu) address) as [m mem]; cbn [fst] in Hm |- *.
  all: destruct (compare_flags register m Hr Hm) as [HC HS]; cbn zeta in HC, HS.
  all: unfold setCFlagAddition, bind, regs, update, ret; cbn.
  all: rewrite !setZNFlags_frame; cbn; rewrite HC, HS.
  all: destruct (status_after_compare (Registers.P (Registers cpu)) (m <=? register)
              ((register - m) mod 256))
    as (H1 & H2 & H3 & H4); [apply Z.mod_pos_bound; lia|].
  all: cbn zeta in H1, H2, H3, H4.
  - exact H1.
  - rewrite H2; destruct (Z.eqb_spec ((register - m) mod 256) 0),
                         (Z.eqb_spec register m); try reflexivity; exfalso; mod_arith.
  - exact H3.
  - exact H4.
  - destruct (Registers cpu); reflexivity.
Qed.

(** X16.  [Adc] with the D flag set, on packed BCD operands: the
    accumulator becomes the packed BCD of the decimal sum of the operands
    and the carry flag, modulo 100. *)
Theorem Adc_decimal (address : Z) (cpu : Core M C) :
  let r := Registers cpu in
  let a := Registers.A r in
  let m := fst (Memory.Fetch (Memory cpu) address) in
  let c := bit (flag (Registers.P r) Status.C) in
  0 <= a <= 0x99 -> a mod 16 <= 9 -> m <= 0x99 -> m mod 16 <= 9 ->
  flag (Registers.P r) Status.D = true ->
  Registers.A (Registers (snd (Adc address cpu)))
  = toBCD ((fromBCD a + fromBCD m + c) mod 100).
Proof.
  cbn zeta. intros Ha Ha' Hm Hm' HD.
  unfold Adc, bind, fetch.
  pose proof (Memory.Fetch_uint8 (Memory cpu) address) as Hb.
  destruct (Memory.Fetch (Memory cpu) address) as [m mem]. cbn [fst] in *.
  apply (addition_decimal m (mkCore (decode cpu) (clock cpu) (Registers cpu) mem));
    cbn [Registers]; try assumption; lia.
Qed.

(** X17.  [Sbc] with the D flag set, on packed BCD operands: the
    accumulator becomes the packed BCD of the decimal difference
    [a - m - borrow], with the borrow [1 - c], modulo 100. *)
Theorem Sbc_decimal (address : Z) (cpu : Core M C) :
  let r := Registers cpu in
  let a := Registers.A r in
  let m := fst (Memory.Fetch (Memory cpu) address) in
  let borrow := 1 - bit (flag (Registers.P r) Status.C) in
  0 <= a <= 0x99 -> a mod 16 <= 9 -> m <= 0x99 -> m mod 16 <= 9 ->
  flag (Registers.P r) Status.D = true ->
  Registers.A (Registers (snd (Sbc address cpu)))
  = toBCD ((fromBCD a - fromBCD m - borrow) mod 100).
Proof.
  cbn zeta. intros Ha Ha' Hm Hm' HD.
  unfold Sbc, bind, fetch, regs.
  pose proof (Memory.Fetch_uint8 (Memory cpu) address) as Hb.
  destruct (Memory.Fetch (Memory cpu) address) as [m mem]. cbn [fst] in *.
  cbn [Registers]. rewrite (D_set _ HD).
  assert (Hm0 : 0 <= m <= 0x99) by lia.
  destruct (nines_complement m Hm0 Hm') as (Hn1 & Hn2 & Hn3).
  rewrite (addition_decimal (u16 (0x99 - m))
             (mkCore (decode cpu) (clock cpu) (Registers cpu) mem));
    cbn [Registers]; try assumption.
  rewrite Hn3. f_equal.
  set (c := bit (flag (Registers.P (Registers cpu)) Status.C)).
  replace (fromBCD (Registers.A (Registers cpu)) + (99 - fromBCD m) + c)
    with (fromBCD (Registers.A (Registers cpu)) - fromBCD m - (1 - c) + 1 * 100) by lia.
  apply Z_mod_plus_full.
Qed.
End Arithmetic.

(** Closed comparisons of numerals. *)
Ltac evaluate :=
  vm_compute; repeat split; try reflexivity;
  let H := fresh in try (intro H; discriminate H).

(** X13 on [0x50 + 0x50]: the sum is negative as a signed byte. *)
Lemma Adc_binary_witness :
  let cpu := plain [(0x0010, 0x50)] (Registers.mk 0x50 0 0 0 0xfd 0x8000) in
  let r' := Registers (snd (Adc 0x0010 cpu)) in
  0 <= Registers.A (Registers cpu) < 256 /\
  flag (Registers.P (Registers cpu)) Status.D = false /\
  Registers.A r' = 0xa0 /\
  flag (Registers.P r') Status.C = false /\
  flag (Registers.P r') Status.V = true.
Proof.
  cbn zeta. split; [cbn; lia|]. split; [reflexivity|].
  destruct (Adc_binary 0x0010
              (plain [(0x0010, 0x50)] (Registers.mk 0x50 0 0 0 0xfd 0x8000)))
    as (H1 & H2 & _ & _ & H5 & _); [cbn; lia | reflexivity |].
  rewrite H1, H2, H5. repeat split.
Defined.

(** X14 on [0x50 - 0xF0] with the carry set: a borrow and a signed overflow. *)
Lemma Sbc_binary_witness :
  let cpu := plain [(0x0010, 0xf0)] (Registers.mk 0x50 0 0 Status.C 0xfd 0x8000) in
  let r' := Registers (snd (Sbc 0x0010 cpu)) in
  0 <= Registers.A (Registers cpu) < 256 /\
  flag (Registers.P (Registers cpu)) Status.D = false /\
  Registers.A r' = 0x60 /\
  flag (Registers.P r') Status.C = false /\
  flag (Registers.P r') Status.V = false.
Proof.
  cbn zeta. split; [cbn; lia|]. split; [reflexivity|].
  destruct (Sbc_binary 0x0010
              (plain [(0x0010, 0xf0)] (Registers.mk 0x50 0 0 Status.C 0xfd 0x8000)))
    as (H1 & H2 & _ & _ & H5 & _); [cbn; lia | reflexivity |].
  rewrite H1, H2, H5. repeat split.
Defined.

(** X15 on [X = 0x10] against [0x20]. *)
Lemma compare_sets_flags_witness :
  let cpu := plain [(0x0010, 0x20)] (Registers.mk 0 0x10 0 Status.C 0xfd 0x8000) in
  let p' := Registers.P (Registers (snd (Cpx 0x0010 cpu))) in
  0 <= Registers.X (Registers cpu) < 256 /\
  flag p' Status.C = false /\ flag p' Status.Z = false /\ flag p' Status.N = true.
Proof.
  cbn zeta. split; [cbn; lia|].
  destruct (compare_sets_flags 0x0010 0x10
              (plain [(0x0010, 0x20)] (Registers.mk 0 0x10 0 Status.C 0xfd 0x8000)))
    as (H1 & H2 & H3 & _ & _ & _ & H7 & _); [lia|].
  rewrite H7. cbn [Registers Registers.X plain].
  rewrite H1, H2, H3. repeat split.
Defined.

(** X16 on [0x58 + 0x46] with the carry set: 58 + 46 + 1 = 105. *)
Lemma Adc_decimal_witness :
  let cpu := plain [(0x0010, 0x46)]
                   (Registers.mk 0x58 0 0 (Z.lor Status.D Status.C) 0xfd 0x8000) in
  0 <= Registers.A (Registers cpu) <= 0x99 /\
  flag (Registers.P (Registers cpu)) Status.D = true /\
  Registers.A (Registers (snd (Adc 0x0010 cpu))) = 0x05.
Proof.
  cbn zeta. split; [cbn; lia|]. split; [reflexivity|].
  rewrite (Adc_decimal 0x0010
             (plain [(0x0010, 0x46)]
                    (Registers.mk 0x58 0 0 (Z.lor Status.D Status.C) 0xfd 0x8000)));
    [reflexivity | evaluate | evaluate | evaluate | evaluate | reflexivity].
Defined.

(** X17 on [0x12 - 0x34] with the carry set: 12 - 34 = -22, that is 78. *)
Lemma Sbc_decimal_witness :
  let cpu := plain [(0x0010, 0x34)]
                   (Registers.mk 0x12 0 0 (Z.lor Status.D Status.C) 0xfd 0x8000) in
  0 <= Registers.A (Registers cpu) <= 0x99 /\
  flag (Registers.P (Registers cpu)) Status.D = true /\
  Registers.A (Registers (snd (Sbc 0x0010 cpu))) = 0x78.
Proof.
  cbn zeta. split; [cbn; lia|]. split; [reflexivity|].
  rewrite (Sbc_decimal 0x0010
             (plain [(0x0010, 0x34)]
                    (Registers.mk 0x12 0 0 (Z.lor Status.D Status.C) 0xfd 0x8000)));
    [reflexivity | evaluate | evaluate | evaluate | evaluate | reflexivity].
Defined.

(** ** Increments, decrements, shifts and rotates *)

(** The status after Z and N of a byte have been written to it. *)
Lemma status_after_ZN (p s : Z) :
  0 <= s < 256 ->
  let p' := Z.lor (Z.land (if s =? 0 then Z.lor p Status.Z
                           else Z.land p (not8 Status.Z))
                          (not8 Status.N))
                  (Z.land s Status.N) in
  flag p' Status.Z = (s =? 0) /\ flag p' Status.N = (128 <=? s) /\
  Forall (fun f => flag p' f = flag p f) flagsButZN.
Proof.
  intros Hs. cbn zeta. rewrite <- (byte_bit7 s Hs). unfold flagsButZN.
  destruct (s =? 0); repeat split; repeat constructor; flag_bits; reflexivity.
Qed.

Lemma u8_pred_succ (z : Z) : u8 (u8 (z + 1) - 1) = u8 z.
Proof. rewrite u8_sub_l. f_equal. lia. Qed.

(** X18.  On a flat memory, [Inc] leaves [(m + 1) mod 256] in the cell,
    so [0xFF] becomes [0x00], with Z and N describing the new byte; [Dec]
    after it puts the byte [m] back, with Z and N describing [m], and no
    register but [P] has changed. *)
Theorem Dec_Inc {C : Type} `{!Clocker.t C} (address : Z) (cpu : Core RAM C) :
  let m := fst (fetch address cpu) in
  let inc := snd (Inc address cpu) in
  let dec := snd (Dec address inc) in
  fst (fetch address inc) = (m + 1) mod 256 /\
  flag (Registers.P (Registers inc)) Status.Z = ((m + 1) mod 256 =? 0) /\
  flag (Registers.P (Registers inc)) Status.N = (128 <=? (m + 1) mod 256) /\
  fst (fetch address dec) = m /\
  flag (Registers.P (Registers dec)) Status.Z = (m =? 0) /\
  flag (Registers.P (Registers dec)) Status.N = (128 <=? m) /\
  Registers.set_P (Registers.P (Registers cpu)) (Registers dec) = Registers cpu.
Proof.
  destruct cpu as [d clk [a x y p sp pc] mem].
  unfold Inc, Dec, bind, fetch, store. cbn.
  rewrite setZNFlags_frame. cbn. rewrite Z.eqb_refl.
  rewrite setZNFlags_frame. cbn. rewrite !Z.eqb_refl.
  rewrite !u8_u8. rewrite u8_pred_succ, u8_u8.
  change ((u8 (mem address) + 1) mod 256) with (u8 (u8 (mem address) + 1)).
  rewrite u8_add_l.
  destruct (status_after_ZN p (u8 (mem address + 1)) (u8_range _)) as (H1 & H2 & _).
  cbn zeta in H1, H2.
  set (p1 := Z.lor (Z.land (if u8 (mem address + 1) =? 0 then Z.lor p Status.Z
                            else Z.land p (not8 Status.Z)) (not8 Status.N))
                   (Z.land (u8 (mem address + 1)) Status.N)) in *.
  destruct (status_after_ZN p1 (u8 (mem address)) (u8_range _)) as (H3 & H4 & _).
  cbn zeta in H3, H4.
  repeat split; try assumption.
Qed.

Section IncDec.
Context {M C : Type} `{!Memory.t M} `{!Clocker.t C}.

Lemma increment_frame (get : Registers.t -> Z)
    (set : Z -> Registers.t -> Registers.t) (cpu : Core M C) :
  increment get set cpu
  = (tt, mkCore (decode cpu) (clock cpu)
           (set (u8 (get (Registers cpu) + 1))
                (Registers (snd (setZNFlags (u8 (get (Registers cpu) + 1)) cpu))))
           (Memory cpu)).
Proof.
  unfold increment, bind, regs, update. cbn.
  rewrite setZNFlags_frame. reflexivity.
Qed.

Lemma decrement_frame (get : Registers.t -> Z)
    (set : Z -> Registers.t -> Registers.t) (cpu : Core M C) :
  decrement get set cpu
  = (tt, mkCore (decode cpu) (clock cpu)
           (set (u8 (get (Registers cpu) - 1))
                (Registers (snd (setZNFlags (u8 (get (Registers cpu) - 1)) cpu))))
           (Memory cpu)).
Proof.
  unfold decrement, bind, regs, update. cbn.
  rewrite setZNFlags_frame. reflexivity.
Qed.

(** X19.  [Inx] leaves [(X + 1) mod 256] in X and sets Z exactly when X
    was [0xFF]; [Dex] after it restores X, leaves Z and N describing X, and
    changes no other flag and no other register. *)
Theorem Dex_Inx (cpu : Core M C) :
  let x := Registers.X (Registers cpu) in
  0 <= x < 256 ->
  let inx := Registers (snd (Inx cpu)) in
  let dex := Registers (snd (Dex (snd (Inx cpu)))) in
  Registers.X inx = (x + 1) mod 256 /\
  flag (Registers.P inx) Status.Z = (x =? 255) /\
  Registers.X dex = x /\
  flag (Registers.P dex) Status.Z = (x =? 0) /\
  flag (Registers.P dex) Status.N = (128 <=? x) /\
  Forall (fun f => flag (Registers.P dex) f = flag (Registers.P (Registers cpu)) f)
         flagsButZN /\
  Registers.set_P (Registers.P (Registers cpu)) dex = Registers cpu.
Proof.
  cbn zeta. intros Hx. unfold Inx, Dex.
  rewrite increment_frame. cbn [snd].
  rewrite decrement_frame. rewrite !setZNFlags_frame.
  destruct cpu as [d clk [a x y p sp pc] mem]. cbn in Hx |- *.
  rewrite u8_pred_succ, (u8_byte x Hx).
  destruct (status_after_ZN p (u8 (x + 1)) (u8_range _)) as (H1 & H2 & Hk).
  cbn zeta in H1, H2, Hk.
  set (p1 := Z.lor (Z.land (if u8 (x + 1) =? 0 then Z.lor p Status.Z
                            else Z.land p (not8 Status.Z)) (not8 Status.N))
                   (Z.land (u8 (x + 1)) Status.N)) in *.
  destruct (status_after_ZN p1 x Hx) as (H3 & H4 & H5).
  cbn zeta in H3, H4, H5.
  split; [reflexivity|].
  split; [rewrite H1; destruct (Z.eqb_spec (u8 (x + 1)) 0), (Z.eqb_spec x 255);
          try reflexivity; exfalso; mod_arith|].
  split; [reflexivity|]. split; [exact H3|]. split; [exact H4|].
  split; [|reflexivity].
  rewrite Forall_forall in *. intros f Hf. rewrite (H5 f Hf). apply (Hk f Hf).
Qed.
End IncDec.

(** What [shift] and [rotate] compute on a byte. *)
Lemma shift_byte (a : Z) :
  0 <= a < 256 ->
  Z.shiftr (Z.land a Status.N) 7 = bit (128 <=? a) /\
  u8 (Z.shiftl a 1) = (2 * a) mod 256 /\
  Z.land a Status.C = bit (Z.odd a) /\
  Z.shiftr a 1 = a / 2.
Proof.
  intros Ha.
  pose (f := fun a =>
    (Z.shiftr (Z.land a Status.N) 7 =? bit (128 <=? a))
    && (u8 (Z.shiftl a 1) =? (2 * a) mod 256)
    && (Z.land a Status.C =? bit (Z.odd a))
    && (Z.shiftr a 1 =? a / 2)).
  assert (Hf : f a = true)
    by (apply (all_bytes f); [vm_compute; reflexivity | assumption]).
  unfold f in Hf.
  apply andb_prop in Hf as [Hf H4]. apply andb_prop in Hf as [Hf H3].
  apply andb_prop in Hf as [H1 H2].
  repeat split; apply Z.eqb_eq; assumption.
Qed.

Lemma rotate_byte (c a : Z) :
  c = 0 \/ c = 1 -> 0 <= a < 256 ->
  Z.lor (Z.land (u8 (Z.shiftl a 1)) (not8 Status.C)) c = (2 * a) mod 256 + c /\
  Z.lor (Z.land (Z.shiftr a 1) (not8 Status.N)) (u8 (Z.shiftl c 7)) = a / 2 + 128 * c.
Proof.
  intros Hc Ha.
  pose (f := fun c a =>
    (Z.lor (Z.land (u8 (Z.shiftl a 1)) (not8 Status.C)) c =? (2 * a) mod 256 + c)
    && (Z.lor (Z.land (Z.shiftr a 1) (not8 Status.N)) (u8 (Z.shiftl c 7))
        =? a / 2 + 128 * c)).
  assert (Hf : f c a = true).
  { destruct Hc as [-> | ->];
      [apply (all_bytes (f 0)) | apply (all_bytes (f 1))];
      try assumption; vm_compute; reflexivity. }
  unfold f in Hf. apply andb_prop in Hf as [H1 H2].
  split; apply Z.eqb_eq; assumption.
Qed.

Section Shifts.
Context {M C : Type} `{!Memory.t M} `{!Clocker.t C}.

(** [shift] and [rotate] without the monad: the new [P], then [store]. *)
Lemma shift_frame (d : direction.t) (value : Z) (store : Z -> Op unit)
    (cpu : Core M C) :
  let c := match d with
           | direction.left => Z.shiftr (Z.land value Status.N) 7
           | direction.right => Z.land value Status.C
           end in
  let v := match d with
           | direction.left => u8 (Z.shiftl value 1)
           | direction.right => Z.shiftr value 1
           end in
  let p1 := Z.lor (Z.land (Registers.P (Registers cpu)) (not8 Status.C)) c in
  shift d value store cpu
  = store v (snd (setZNFlags v
                    (mkCore (decode cpu) (clock cpu)
                            (Registers.set_P p1 (Registers cpu)) (Memory cpu)))).
Proof.
  cbn zeta. unfold shift, bind, regs, update. cbn.
  rewrite !setZNFlags_frame. reflexivity.
Qed.

Lemma rotate_frame (d : direction.t) (value : Z) (store : Z -> Op unit)
    (cpu : Core M C) :
  let p := Registers.P (Registers cpu) in
  let c := match d with
           | direction.left => Z.shiftr (Z.land value Status.N) 7
           | direction.right => Z.land value Status.C
           end in
  let v := match d with
           | direction.left =>
               Z.lor (Z.land (u8 (Z.shiftl value 1)) (not8 Status.C))
                     (Z.land p Status.C)
           | direction.right =>
               Z.lor (Z.land (Z.shiftr value 1) (not8 Status.N))
                     (u8 (Z.shiftl (Z.land p Status.C) 7))
           end in
  let p1 := Z.lor (Z.land p (not8 Status.C)) c in
  rotate d value store cpu
  = store v (snd (setZNFlags v
                    (mkCore (decode cpu) (clock cpu)
                            (Registers.set_P p1 (Registers cpu)) (Memory cpu)))).
Proof.
  cbn zeta. unfold rotate, bind, regs, update. cbn.
  rewrite !setZNFlags_frame. reflexivity.
Qed.

(** The accumulator, the carry, Z and N after a shift or a rotate of the
    accumulator. *)
Lemma accumulator_shifts (cpu : Core M C) :
  let a := Registers.A (Registers cpu) in
  let c := bit (flag (Registers.P (Registers cpu)) Status.C) in
  0 <= a < 256 ->
  let result (op : Op unit) :=
    let r' := Registers (snd (op cpu)) in
    (Registers.A r', bit (flag (Registers.P r') Status.C),
     flag (Registers.P r') Status.Z, flag (Registers.P r') Status.N) in
  let expected (v : Z) (cb : bool) := (v, bit cb, v =? 0, 128 <=? v) in
  result AslA = expected ((2 * a) mod 256) (128 <=? a) /\
  result LsrA = expected (a / 2) (Z.odd a) /\
  result RolA = expected ((2 * a) mod 256 + c) (128 <=? a) /\
  result RorA = expected (a / 2 + 128 * c) (Z.odd a).
Proof.
  cbn zeta. intros Ha.
  unfold AslA, LsrA, RolA, RorA, bind, regs.
  rewrite !shift_frame, !rotate_frame. cbn zeta.
  rewrite !setZNFlags_frame. unfold update. cbn.
  rewrite !(land_C (Registers.P (Registers cpu))).
  set (c := bit (flag (Registers.P (Registers cpu)) Status.C)).
  assert (Hc : c = 0 \/ c = 1).
  { unfold c, bit. destruct (flag _ Status.C); [right | left]; reflexivity. }
  destruct (shift_byte _ Ha) as (S1 & S2 & S3 & S4).
  destruct (rotate_byte c _ Hc Ha) as (R1 & R2).
  rewrite R1, R2, S1, S2, S3, S4.
  assert (B1 : 0 <= (2 * Registers.A (Registers cpu)) mod 256 < 256)
    by (apply Z.mod_pos_bound; lia).
  assert (B2 : 0 <= Registers.A (Registers cpu) / 2 < 256)
    by (Z.to_euclidean_division_equations; lia).
  assert (B3 : 0 <= (2 * Registers.A (Registers cpu)) mod 256 + c < 256)
    by (Z.to_euclidean_division_equations; lia).
  assert (B4 : 0 <= Registers.A (Registers cpu) / 2 + 128 * c < 256)
    by (Z.to_euclidean_division_equations; lia).
  pose proof (fun cb s Hs =>
                status_after_compare (Registers.P (Registers cpu)) cb s Hs) as HS.
  cbn zeta in HS.
  destruct (HS (128 <=? Registers.A (Registers cpu)) _ B1) as (-> & -> & -> & _).
  destruct (HS (Z.odd (Registers.A (Registers cpu))) _ B2) as (-> & -> & -> & _).
  destruct (HS (128 <=? Registers.A (Registers cpu)) _ B3) as (-> & -> & -> & _).
  destruct (HS (Z.odd (Registers.A (Registers cpu))) _ B4) as (-> & -> & -> & _).
  repeat split.
Qed.

End Shifts.

(** What the memory forms store. *)
Lemma memory_shifts {M C : Type} `{!Memory.t M} `{!Clocker.t C}
    (address : Z) (cpu : Core (Probe M) C) :
  let m := fst (Memory.Fetch (Memory cpu) address) in
  let c := bit (flag (Registers.P (Registers cpu)) Status.C) in
  let stored (op : Op unit) (v : Z) :=
    bus (Memory (snd (op cpu)))
    = bus (Memory cpu) ++ [BusFetch address; BusStore address v] in
  stored (Asl address) ((2 * m) mod 256) /\
  stored (Lsr address) (m / 2) /\
  stored (Rol address) ((2 * m) mod 256 + c) /\
  stored (Ror address) (m / 2 + 128 * c).
Proof.
  cbn zeta.
  pose proof (Memory.Fetch_uint8 (Memory cpu) address) as Hm.
  unfold Asl, Lsr, Rol, Ror, bind, fetch.
  set (c := bit (flag (Registers.P (Registers cpu)) Status.C)).
  assert (Hc : c = 0 \/ c = 1).
  { unfold c, bit. destruct (flag _ Status.C); [right | left]; reflexivity. }
  destruct (shift_byte _ Hm) as (S1 & S2 & S3 & S4).
  destruct (rotate_byte c _ Hc Hm) as (R1 & R2).
  cbn -[shift rotate] in *.
  rewrite !shift_frame, !rotate_frame. cbn zeta.
  rewrite !setZNFlags_frame. unfold store. cbn.
  rewrite !(land_C (Registers.P (Registers cpu))). fold c.
  rewrite R1, R2, S2, S4.
  rewrite <- !app_assoc. repeat split.
Qed.


Lemma shift_arith (a : Z) :
  0 <= a < 256 ->
  (2 * a) mod 256 + 256 * bit (128 <=? a) = 2 * a /\
  2 * (a / 2) + bit (Z.odd a) = a.
Proof.
  intros Ha.
  pose (f := fun a => ((2 * a) mod 256 + 256 * bit (128 <=? a) =? 2 * a)
                      && (2 * (a / 2) + bit (Z.odd a) =? a)).
  assert (Hf : f a = true)
    by (apply (all_bytes f); [vm_compute; reflexivity | assumption]).
  unfold f in Hf. apply andb_prop in Hf as [H1 H2].
  split; apply Z.eqb_eq; assumption.
Qed.

Lemma rotate_arith (c a : Z) :
  c = 0 \/ c = 1 -> 0 <= a < 256 ->
  ((2 * a) mod 256 + c) / 2 + 128 * bit (128 <=? a) = a /\
  bit (Z.odd ((2 * a) mod 256 + c)) = c /\
  (2 * (a / 2 + 128 * c)) mod 256 + bit (Z.odd a) = a /\
  bit (128 <=? a / 2 + 128 * c) = c.
Proof.
  intros Hc Ha.
  pose (f := fun c a =>
    (((2 * a) mod 256 + c) / 2 + 128 * bit (128 <=? a) =? a)
    && (bit (Z.odd ((2 * a) mod 256 + c)) =? c)
    && ((2 * (a / 2 + 128 * c)) mod 256 + bit (Z.odd a) =? a)
    && (bit (128 <=? a / 2 + 128 * c) =? c)).
  assert (Hf : f c a = true).
  { destruct Hc as [-> | ->];
      [apply (all_bytes (f 0)) | apply (all_bytes (f 1))];
      try assumption; vm_compute; reflexivity. }
  unfold f in Hf.
  apply andb_prop in Hf as [Hf H4]. apply andb_prop in Hf as [Hf H3].
  apply andb_prop in Hf as [H1 H2].
  repeat split; apply Z.eqb_eq; assumption.
Qed.

(** X20.  ASL and LSR: with a byte [a] in the accumulator, after [AslA]
    the carry and the accumulator together are [2 * a] (the accumulator
    plus 256 times C), and after [LsrA] twice the accumulator plus C is
    [a]; Z and N describe the new accumulator, and [LsrA] always clears N.
    The memory forms fetch the byte [m] and store [(2 * m) mod 256] and
    [m / 2] at the same address. *)
Theorem shifts_double_and_halve {M C : Type} `{!Memory.t M} `{!Clocker.t C}
    (address : Z) (cpu : Core (Probe M) C) :
  let a := Registers.A (Registers cpu) in
  let m := fst (Memory.Fetch (Memory cpu) address) in
  0 <= a < 256 ->
  let l := Registers (snd (AslA cpu)) in
  let r := Registers (snd (LsrA cpu)) in
  Registers.A l + 256 * bit (flag (Registers.P l) Status.C) = 2 * a /\
  flag (Registers.P l) Status.Z = (Registers.A l =? 0) /\
  flag (Registers.P l) Status.N = (128 <=? Registers.A l) /\
  2 * Registers.A r + bit (flag (Registers.P r) Status.C) = a /\
  flag (Registers.P r) Status.Z = (Registers.A r =? 0) /\
  flag (Registers.P r) Status.N = false /\
  bus (Memory (snd (Asl address cpu)))
    = bus (Memory cpu) ++ [BusFetch address; BusStore address ((2 * m) mod 256)] /\
  bus (Memory (snd (Lsr address cpu)))
    = bus (Memory cpu) ++ [BusFetch address; BusStore address (m / 2)].
Proof.
  cbn zeta. intros Ha.
  destruct (accumulator_shifts cpu Ha) as (HL & HR & _ & _). cbn zeta in HL, HR.
  injection HL as L1 L2 L3 L4. injection HR as R1 R2 R3 R4.
  destruct (memory_shifts address cpu) as (M1 & M2 & _ & _). cbn zeta in M1, M2.
  destruct (shift_arith _ Ha) as (A1 & A2).
  rewrite L1, L2, L3, L4, R1, R2, R3, R4.
  repeat split; try assumption.
  apply Z.leb_gt. Z.to_euclidean_division_equations; lia.
Qed.

(** X21.  ROL and ROR rotate nine bits: with a byte [a] in the accumulator
    and [c] the carry, after [RolA] the accumulator plus 256 times C is
    [2 * a + c], and after [RorA] twice the accumulator plus C is
    [a + 256 * c].  Each undoes the other: [RorA] after [RolA], and [RolA]
    after [RorA], restore both the accumulator and the carry.  The memory
    forms fetch [m] and store [(2 * m) mod 256 + c] and [m / 2 + 128 * c]. *)
Theorem rotates_through_carry {M C : Type} `{!Memory.t M} `{!Clocker.t C}
    (address : Z) (cpu : Core (Probe M) C) :
  let a := Registers.A (Registers cpu) in
  let c := bit (flag (Registers.P (Registers cpu)) Status.C) in
  let m := fst (Memory.Fetch (Memory cpu) address) in
  0 <= a < 256 ->
  let l := Registers (snd (RolA cpu)) in
  let r := Registers (snd (RorA cpu)) in
  let lr := Registers (snd (RorA (snd (RolA cpu)))) in
  let rl := Registers (snd (RolA (snd (RorA cpu)))) in
  Registers.A l + 256 * bit (flag (Registers.P l) Status.C) = 2 * a + c /\
  2 * Registers.A r + bit (flag (Registers.P r) Status.C) = a + 256 * c /\
  Registers.A lr = a /\ bit (flag (Registers.P lr) Status.C) = c /\
  Registers.A rl = a /\ bit (flag (Registers.P rl) Status.C) = c /\
  bus (Memory (snd (Rol address cpu)))
    = bus (Memory cpu)
      ++ [BusFetch address; BusStore address ((2 * m) mod 256 + c)] /\
  bus (Memory (snd (Ror address cpu)))
    = bus (Memory cpu) ++ [BusFetch address; BusStore address (m / 2 + 128 * c)].
Proof.
  cbn zeta. intros Ha.
  set (c := bit (flag (Registers.P (Registers cpu)) Status.C)).
  assert (Hc : c = 0 \/ c = 1).
  { unfold c, bit. destruct (flag _ Status.C); [right | left]; reflexivity. }
  destruct (accumulator_shifts cpu Ha) as (_ & _ & HL & HR). cbn zeta in HL, HR.
  fold c in HL, HR.
  injection HL as L1 L2 _ _. injection HR as R1 R2 _ _.
  destruct (memory_shifts address cpu) as (_ & _ & M3 & M4). cbn zeta in M3, M4.
  destruct (shift_arith _ Ha) as (A1 & A2).
  destruct (rotate_arith c _ Hc Ha) as (T1 & T2 & T3 & T4).
  assert (BL : 0 <= Registers.A (Registers (snd (RolA cpu))) < 256)
    by (rewrite L1; Z.to_euclidean_division_equations; lia).
  assert (BR : 0 <= Registers.A (Registers (snd (RorA cpu))) < 256)
    by (rewrite R1; Z.to_euclidean_division_equations; lia).
  destruct (accumulator_shifts (snd (RolA cpu)) BL) as (_ & _ & _ & HLR).
  destruct (accumulator_shifts (snd (RorA cpu)) BR) as (_ & _ & HRL & _).
  cbn zeta in HLR, HRL.
  injection HLR as LR1 LR2 _ _. injection HRL as RL1 RL2 _ _.
  rewrite LR1, LR2, RL1, RL2, L1, L2, R1, R2.
  fold c in M3, M4.
  repeat split; try assumption; lia.
Qed.

(** X19 at [X = 0xFF], where the increment wraps. *)
Lemma Dex_Inx_witness :
  let cpu := plain [] (Registers.mk 0 0xff 0 0 0xfd 0x8000) in
  0 <= Registers.X (Registers cpu) < 256 /\
  Registers.X (Registers (snd (Inx cpu))) = 0 /\
  flag (Registers.P (Registers (snd (Inx cpu)))) Status.Z = true /\
  Registers.X (Registers (snd (Dex (snd (Inx cpu))))) = 0xff.
Proof.
  cbn zeta. split; [cbn; lia|].
  destruct (Dex_Inx (plain [] (Registers.mk 0 0xff 0 0 0xfd 0x8000)))
    as (H1 & H2 & H3 & _); [cbn; lia|].
  rewrite H1, H2, H3. repeat split.
Defined.

(** X20 on [A = 0x81]. *)
Lemma shifts_double_and_halve_witness :
  let cpu := core (machine [(0x0010, 0x81)] (Registers.mk 0x81 0 0 0 0xfd 0x8000)) in
  0 <= Registers.A (Registers cpu) < 256 /\
  Registers.A (Registers (snd (AslA cpu))) = 0x02 /\
  Registers.A (Registers (snd (LsrA cpu))) = 0x40 /\
  bus (Memory (snd (Asl 0x0010 cpu))) = [BusFetch 0x0010; BusStore 0x0010 0x02].
Proof.
  cbn zeta. split; [cbn; lia|].
  destruct (shifts_double_and_halve 0x0010
              (core (machine [(0x0010, 0x81)] (Registers.mk 0x81 0 0 0 0xfd 0x8000))))
    as (_ & _ & _ & _ & _ & _ & H7 & _); [cbn; lia|].
  rewrite H7. repeat split.
Defined.

(** X21 on [A = 0x81] with the carry clear. *)
Lemma rotates_through_carry_witness :
  let cpu := core (machine [(0x0010, 0x81)] (Registers.mk 0x81 0 0 0 0xfd 0x8000)) in
  0 <= Registers.A (Registers cpu) < 256 /\
  Registers.A (Registers (snd (RolA cpu))) = 0x02 /\
  Registers.A (Registers (snd (RorA (snd (RolA cpu))))) = 0x81 /\
  Registers.A (Registers (snd (RolA (snd (RorA cpu))))) = 0x81.
Proof.
  cbn zeta. split; [cbn; lia|].
  destruct (rotates_through_carry 0x0010
              (core (machine [(0x0010, 0x81)] (Registers.mk 0x81 0 0 0 0xfd 0x8000))))
    as (_ & _ & H3 & _ & H5 & _); [cbn; lia|].
  rewrite H3, H5. repeat split.
Defined.

(** ** The fetch-execute cycle *)

Section Cycle.
Context {M C : Type} `{!Memory.t M} `{!Clocker.t C}.

(** The only error [Execute] returns, and the state it returns it in. *)
Lemma Execute_outcome (cpu : M6502 M C) (e : error) :
  snd (fst (Execute cpu)) = Some e ->
  let pc := Registers.PC (Registers (core cpu)) in
  let opcode := fst (Memory.Fetch (Memory (core cpu)) pc) in
  e = BadOpCodeError opcode /\ Instructions cpu !! opcode = None /\
  fst (fst (Execute cpu)) = 0 /\
  Registers (core (snd (Execute cpu))) = Registers (core cpu).
Proof.
  unfold Execute.
  destruct (Instructions cpu !! fst (Memory.Fetch (Memory (core cpu))
                                       (Registers.PC (Registers (core cpu)))))
    as [inst|] eqn:Hlookup.
  - rewrite (execute_mapped _ inst _ Hlookup). cbn. intros He. discriminate He.
  - rewrite (execute_unmapped _ _ Hlookup). cbn.
    intros He. injection He as <-. repeat split.
Qed.
End Cycle.

(** X24.  When the byte fetched at [PC] has a table entry, [Execute]
    returns no error and the cycle count of the entry's executor; the
    executor runs after the one opcode fetch, on a CPU whose [PC] is already
    past the opcode byte; afterwards the clock is awaited once, at the tick
    count sampled at the start plus the cycle count (as uint64). *)
Theorem Execute_mapped {M C : Type} `{!Memory.t M} `{!Clocker.t C}
    (inst : Instruction (Probe M) (Watch C)) (cpu : M6502 (Probe M) (Watch C)) :
  let c := core cpu in
  let pc := Registers.PC (Registers c) in
  let opcode := fst (Memory.Fetch (Memory c) pc) in
  Instructions cpu !! opcode = Some inst ->
  let start := Clocker.Ticks (clock c) in
  let fetched := mkCore (decode c) (snd start)
                        (Registers.set_PC (u16 (pc + 1)) (Registers c))
                        (snd (Memory.Fetch (Memory c) pc)) in
  let ran := Exec inst fetched in
  let cpu' := snd (Execute cpu) in
  fst (Execute cpu) = (fst ran, None) /\
  Registers (core cpu') = Registers (snd ran) /\
  Memory (core cpu') = Memory (snd ran) /\
  bus (Memory fetched) = bus (Memory c) ++ [BusFetch pc] /\
  calls (clock (core cpu'))
    = calls (clock (snd ran)) ++ [ClockAwait (u64 (fst start + fst ran))].
Proof.
  cbn zeta. intros Hsome. unfold Execute.
  rewrite (execute_mapped _ inst _ Hsome). cbn. repeat split.
Qed.

(** X25.  [Run] returns only through an unmapped opcode: whenever it
    returns, it has executed some instructions without an error and the
    [Execute] after them has failed; the error [Run] returns is the
    [BadOpCodeError] of the byte at [PC] then, which has no entry in the
    table then; that [Execute] counts no cycles, and [Run] leaves the
    registers as they were before it, [PC] at the opcode. *)
Theorem Run_returns_BadOpCode {M C : Type} `{!Memory.t M} `{!Clocker.t C}
    (fuel : nat) (cpu cpu' : M6502 M C) (e : error) :
  Run fuel cpu = Returned e cpu' ->
  exists (n : nat) (last : M6502 M C),
    (n < fuel)%nat /\ executes n cpu last /\
    let pc := Registers.PC (Registers (core last)) in
    let opcode := fst (Memory.Fetch (Memory (core last)) pc) in
    Execute last = ((0, Some e), cpu') /\
    e = BadOpCodeError opcode /\
    Instructions last !! opcode = None /\
    Registers (core cpu') = Registers (core last).
Proof.
  revert cpu. induction fuel as [|fuel IH]; intros cpu Hrun; cbn [Run] in Hrun.
  - discriminate Hrun.
  - destruct (Execute cpu) as [[cycles [err|]] next] eqn:HE.
    + injection Hrun as <- <-. exists 0%nat, cpu.
      split; [lia|]. split; [constructor|]. cbn zeta.
      destruct (Execute_outcome cpu err) as (He & Hnone & Hzero & Hregs).
      { now rewrite HE. }
      rewrite HE in Hzero, Hregs. cbn in Hzero, Hregs. subst cycles.
      repeat split; assumption.
    + destruct (IH next Hrun) as (n & last & Hn & Hexec & Hlast).
      exists (S n), last. split; [lia|]. split; [|exact Hlast].
      exact (executes_S n cpu next last cycles HE Hexec).
Qed.

(** ** Building the instruction table *)

Section TableOps.
Context {M C : Type} `{!Memory.t M} `{!Clocker.t C}.

(** Adding a list of instructions lays the table they make on their own
    over the table that was there. *)
Lemma fold_AddInstruction_union (l : list (Instruction M C))
    (table : gmap Z (Instruction M C)) :
  fold_left (fun t inst => AddInstruction inst t) l table
  = (fold_left (fun t inst => AddInstruction inst t) l ∅
     : gmap Z (Instruction M C)) ∪ table.
Proof.
  revert table. induction l as [|inst l IH]; intros table; cbn [fold_left].
  - now rewrite (left_id_L ∅ (∪)).
  - rewrite IH. rewrite (IH (AddInstruction inst ∅)).
    unfold AddInstruction, InstructionTable, OpCode in *.
    rewrite <- (assoc_L (∪)). f_equal.
    rewrite insert_union_singleton_l, insert_union_singleton_l.
    now rewrite (right_id_L ∅ (∪)).
Qed.

End TableOps.

(** X26.  [InitInstructions] is idempotent on every table; it gives an
    entry to each of the 57 opcodes instructions.go lists and leaves every
    other entry of the table as it was; the table of [NewInstructionTable]
    has those 57 entries, each stored under the opcode it carries. *)
Theorem InitInstructions_idempotent {M C : Type} `{!Memory.t M} `{!Clocker.t C}
    (table : InstructionTable M C) :
  InitInstructions (InitInstructions table) = InitInstructions table /\
  (forall op, In op mapped -> is_Some (InitInstructions table !! op)) /\
  (forall op, ~ In op mapped -> InitInstructions table !! op = table !! op) /\
  size (NewInstructionTable : InstructionTable M C) = 57%nat /\
  forall op inst,
    (NewInstructionTable : InstructionTable M C) !! op = Some inst ->
    opcode inst = op.
Proof.
  assert (Hidem : forall t : InstructionTable M C,
             InitInstructions (InitInstructions t) = InitInstructions t).
  { intros t. unfold InitInstructions.
    rewrite (fold_AddInstruction_union _ (fold_left _ _ t)).
    rewrite (fold_AddInstruction_union _ t).
    unfold InstructionTable, OpCode in *.
    rewrite (assoc_L (∪)). now rewrite (idemp_L (∪)). }
  assert (Hnew : forall op,
             is_Some ((NewInstructionTable : InstructionTable M C) !! op)
             <-> In op mapped).
  { intros op. unfold NewInstructionTable. rewrite InitInstructions_mapped.
    unfold InstructionTable, OpCode in *. rewrite lookup_empty.
    split; [intros [?|[? ?]]; done | auto]. }
  split; [apply Hidem|]. split; [|split; [|split]].
  - intros op Hop. apply InitInstructions_mapped. now left.
  - intros op Hop. unfold InitInstructions.
    rewrite fold_AddInstruction_union.
    unfold InstructionTable, OpCode in *. apply lookup_union_r.
    apply eq_None_not_Some. intros Hsome. apply Hop.
    now apply (Hnew op).
  - now rewrite (size_of_opcodes _ mapped mapped_NoDup Hnew).
  - unfold NewInstructionTable, InitInstructions.
    apply fold_AddInstruction_keyed.
    unfold InstructionTable, OpCode. intros op inst Hin.
    rewrite lookup_empty in Hin. discriminate Hin.
Qed.

(** X27.  On a table without the opcode of [inst]: [AddInstruction] maps
    that opcode to [inst] and changes no other entry, [RemoveInstruction]
    afterwards gives the table back, and [RemoveInstruction] of the missing
    opcode changes nothing. *)
Theorem table_add_remove {M C : Type} `{!Memory.t M} `{!Clocker.t C}
    (inst : Instruction M C) (table : InstructionTable M C) :
  table !! opcode inst = None ->
  AddInstruction inst table !! opcode inst = Some inst /\
  RemoveInstruction (opcode inst) (AddInstruction inst table) = table /\
  RemoveInstruction (opcode inst) table = table /\
  forall op, op <> opcode inst ->
    AddInstruction inst table !! op = table !! op.
Proof.
  unfold AddInstruction, RemoveInstruction, InstructionTable, OpCode in *.
  intros Hnone. split; [apply lookup_insert_eq|].
  split; [now apply delete_insert_id|].
  split; [now apply delete_id|].
  intros op Hne. now apply lookup_insert_ne.
Qed.

(** ** Flag instructions and logic *)

(** X22.  CLC, CLD, CLI, CLV clear and SEC, SED, SEI set their own flag;
    each leaves the six other flags, every other register and the memory
    as they were. *)
Theorem flag_instructions {M C : Type} `{!Memory.t M} `{!Clocker.t C}
    (cpu : Core M C) :
  let p := Registers.P (Registers cpu) in
  let changes (op : Op unit) (f : Z) (b : bool) :=
    let r' := Registers (snd (op cpu)) in
    flag (Registers.P r') f = b /\
    Forall (fun g => g = f \/ flag (Registers.P r') g = flag p g) statusFlags /\
    Registers.set_P p r' = Registers cpu /\
    Memory (snd (op cpu)) = Memory cpu in
  changes Clc Status.C false /\ changes Cld Status.D false /\
  changes Cli Status.I false /\ changes Clv Status.V false /\
  changes Sec Status.C true /\ changes Sed Status.D true /\
  changes Sei Status.I true.
Proof.
  cbn zeta. unfold statusFlags.
  destruct cpu as [d clk [a x y p sp pc] mem]. cbn.
  repeat match goal with |- _ /\ _ => split end; try reflexivity.
  all: repeat match goal with
              | |- Forall _ (_ :: _) => constructor
              | |- Forall _ [] => constructor
              end.
  all: first [ left; reflexivity
             | right; flag_bits; cbn [negb]; rewrite ?andb_true_r, ?orb_false_r; reflexivity
             | flag_bits; cbn [negb]; rewrite ?andb_false_r, ?orb_true_r; reflexivity ].
Qed.

(** X23.  On a flat memory, [Eor] applied twice with the same operand
    restores the accumulator, and [And] and [Ora] applied twice leave the
    accumulator that one application leaves. *)
Theorem logic_twice {C : Type} `{!Clocker.t C} (address : Z) (cpu : Core RAM C) :
  let a := Registers.A (Registers cpu) in
  let twice (op : Z -> Op unit) :=
    Registers.A (Registers (snd (op address (snd (op address cpu))))) in
  let once (op : Z -> Op unit) :=
    Registers.A (Registers (snd (op address cpu))) in
  twice Eor = a /\ twice And = once And /\ twice Ora = once Ora.
Proof.
  destruct cpu as [d clk [a x y p sp pc] mem]. cbn zeta.
  unfold Eor, And, Ora, bind, regs, fetch, update. cbn.
  repeat (rewrite setZNFlags_frame; cbn).
  repeat split.
  - rewrite Z.lxor_assoc, Z.lxor_nilpotent. apply Z.lxor_0_r.
  - rewrite <- Z.land_assoc, Z.land_diag. reflexivity.
  - rewrite <- Z.lor_assoc, Z.lor_diag. reflexivity.
Qed.

(** ** The divider at its edges *)

(** X28.  For a divisor [d > 0], [Start] of the divider is the master's
    [Start] divided by [d], [Stop] stops the master, and the divided tick
    count is never above the master's.  With the divisor zero, [Ticks],
    [Start] and [Await] fail on the division while [Stop] still stops the
    master. *)
Theorem Divider_delegates {C : Type} `{!Clocker.t C} (m : C) (d t : Z) :
  0 < d ->
  let s := Clocker.Start m in
  let n := Clocker.Ticks m in
  Divider.Start (NewDivider m d) = Some (fst s / d, NewDivider (snd s) d) /\
  Divider.Stop (NewDivider m d) = NewDivider (Clocker.Stop m) d /\
  (0 <= fst n -> 0 <= fst n / d <= fst n) /\
  Divider.Ticks (NewDivider m 0) = None /\
  Divider.Start (NewDivider m 0) = None /\
  Divider.Await (NewDivider m 0) t = None /\
  Divider.Stop (NewDivider m 0) = NewDivider (Clocker.Stop m) 0.
Proof.
  intros Hd. cbn zeta.
  unfold Divider.Ticks, Divider.Start, Divider.Await, Divider.Stop, NewDivider,
    Divider.div64. cbn.
  destruct (Clocker.Start m) as [s m1].
  destruct (Clocker.Ticks m) as [n m2].
  destruct (Clocker.Await m (u64 (t * 0))) as [a m3]. cbn.
  destruct (Z.eqb_spec d 0) as [->|_]; [lia|]. cbn.
  repeat split.
  - apply Z.div_pos; lia.
  - apply Z.div_le_upper_bound; nia.
Qed.

(** ** BRK and the cycle counts of the table *)

(** X29.  [Brk] on a recording bus, with a byte in [SP]: it stores the high
    and the low byte of [PC + 1] and then [P | B] at [0x0100 + SP] and the
    two stack cells below (modulo 256), then fetches [0xFFFE] and [0xFFFF];
    it leaves [P | I] in [P], so that I is set and B is as before, and [SP]
    three lower modulo 256. *)
Theorem Brk_interrupt {M C : Type} `{!Memory.t M} `{!Clocker.t C}
    (cpu : Core (Probe M) C) :
  let r := Registers cpu in
  let sp := Registers.SP r in
  let pc := u16 (Registers.PC r + 1) in
  0 <= sp < 256 ->
  let after := snd (Brk cpu) in
  bus (Memory after)
    = bus (Memory cpu)
      ++ [BusStore (0x0100 + sp) (u8 (Z.shiftr pc 8));
          BusStore (0x0100 + (sp - 1) mod 256) (u8 pc);
          BusStore (0x0100 + (sp - 2) mod 256) (Z.lor (Registers.P r) Status.B);
          BusFetch 0xfffe; BusFetch 0xffff] /\
  Registers.P (Registers after) = Z.lor (Registers.P r) Status.I /\
  flag (Registers.P (Registers after)) Status.I = true /\
  flag (Registers.P (Registers after)) Status.B = flag (Registers.P r) Status.B /\
  Registers.SP (Registers after) = (sp - 3) mod 256.
Proof.
  cbn zeta. intros Hsp.
  destruct cpu as [d clk [a x y p sp pc] [mem log]]. cbn in Hsp.
  cbv beta iota zeta delta
    [Brk push16 push bind regs store fetch update ret
     Memory.Store Memory.Fetch Probe_Memory fst snd probed bus
     Registers Memory clock decode
     Registers.A Registers.X Registers.Y Registers.P Registers.SP Registers.PC
     Registers.set_SP Registers.set_PC Registers.set_P].
  rewrite !lor_stack by (first [assumption | apply u8_range]).
  sp_norm. unfold u8 at 1 2 3.
  rewrite <- !app_assoc. cbn [app].
  split; [reflexivity|]. split; [reflexivity|].
  split; [flag_bits; reflexivity|]. split; [flag_bits; reflexivity|].
  reflexivity.
Qed.

(** X30.  Every executor that [InitInstructions] registers returns between
    two and six cycles, on every CPU state and every memory. *)
Theorem executor_cycles {M C : Type} `{!Memory.t M} `{!Clocker.t C} :
  Forall (fun inst : Instruction M C =>
            forall cpu, 2 <= fst (Exec inst cpu) <= 6)
         instructionList.
Proof.
  unfold instructionList.
  repeat match goal with
    | |- Forall _ (_ :: _) => constructor
    | |- Forall _ [] => constructor
    end.
  all: intros cpu; cbn [Exec].
  all: unfold Lda, Ldx, Ldy, Sta, Stx, Sty, Tax, Tay, Txa, Tya, Tsx, Txs,
         Pha, Php, Pla, Plp, And, Eor, load, transfer, push, pull,
         immediateAddress, zeroPageAddress, zeroPageIndexedAddress,
         absoluteAddress, absoluteIndexedAddress, indexedIndirectAddress,
         indirectIndexedAddress, IndexToRegister, pageCrossed,
         bind, regs, fetch, store, update, ret.
  all: repeat rewrite setZNFlags_frame.
  all: cbn -[Z.add Z.lor Z.land Z.shiftl u8 u16 SamePage].
  all: repeat match goal with
         | |- context [Memory.Fetch ?m ?a] =>
             destruct (Memory.Fetch m a); cbn -[Z.add Z.lor Z.land Z.shiftl u8 u16 SamePage]
         end.
  all: repeat rewrite setZNFlags_frame.
  all: cbn -[Z.add Z.lor Z.land Z.shiftl u8 u16 SamePage].
  all: try lia.
  all: destruct (SamePage _ _); evaluate.
Qed.

(** X24 on [LDA #$00] at [0x8000]. *)
Lemma Execute_mapped_witness :
  let cpu := machine [(0x8000, 0xa9); (0x8001, 0x00)]
                     (Registers.mk 0x55 0 0 0 0xfd 0x8000) in
  let lda := executor (0xa9, Mnemonic.LDA, Mode.Immediate, 2) in
  Instructions cpu !! 0xa9 = Some lda /\
  fst (Execute cpu) = (2, None) /\
  calls (clock (core (snd (Execute cpu)))) = [ClockTicks; ClockAwait 2].
Proof.
  cbn zeta. split; [reflexivity|].
  destruct (Execute_mapped
              (executor (0xa9, Mnemonic.LDA, Mode.Immediate, 2))
              (machine [(0x8000, 0xa9); (0x8001, 0x00)]
                       (Registers.mk 0x55 0 0 0 0xfd 0x8000)))
    as (H1 & _ & _ & _ & H5); [reflexivity|].
  rewrite H1, H5. split; reflexivity.
Defined.

(** One iteration of [Run], by what [Execute] returns. *)
Lemma Run_step {M C : Type} `{!Memory.t M} `{!Clocker.t C}
    (fuel : nat) (cpu : M6502 M C) :
  snd (fst (Execute cpu)) = None ->
  Run (S fuel) cpu = Run fuel (snd (Execute cpu)).
Proof.
  intros Hnone. cbn [Run].
  destruct (Execute cpu) as [[cycles err] next]. cbn in Hnone. now subst err.
Qed.

Lemma Run_stop {M C : Type} `{!Memory.t M} `{!Clocker.t C}
    (fuel : nat) (cpu : M6502 M C) (e : error) :
  snd (fst (Execute cpu)) = Some e ->
  Run (S fuel) cpu = Returned e (snd (Execute cpu)).
Proof.
  intros Hsome. cbn [Run].
  destruct (Execute cpu) as [[cycles err] next]. cbn in Hsome. now subst err.
Qed.

(** X25 on [LDA #$00] followed by the byte [0x02]. *)
Lemma Run_returns_BadOpCode_witness :
  let cpu := machine [(0x8000, 0xa9); (0x8001, 0x00); (0x8002, 0x02)]
                     (Registers.mk 0x55 0 0 0 0xfd 0x8000) in
  let cpu' := snd (Execute (snd (Execute cpu))) in
  Run 5 cpu = Returned (BadOpCodeError 0x02) cpu' /\
  exists (n : nat) (last : M6502 (Probe RAM) (Watch StepClock)),
    (n < 5)%nat /\ executes n cpu last /\
    Execute last = ((0, Some (BadOpCodeError 0x02)), cpu').
Proof.
  cbn zeta.
  assert (Hrun : Run 5 (machine [(0x8000, 0xa9); (0x8001, 0x00); (0x8002, 0x02)]
                                (Registers.mk 0x55 0 0 0 0xfd 0x8000))
                 = Returned (BadOpCodeError 0x02)
                     (snd (Execute (snd (Execute
                        (machine [(0x8000, 0xa9); (0x8001, 0x00); (0x8002, 0x02)]
                                 (Registers.mk 0x55 0 0 0 0xfd 0x8000))))))).
  { rewrite Run_step by (vm_compute; reflexivity).
    apply Run_stop. vm_compute. reflexivity. }
  split; [exact Hrun|].
  destruct (Run_returns_BadOpCode 5 _ _ _ Hrun)
    as (n & last & Hn & Hexec & Hlast & _).
  exists n, last. split; [exact Hn|]. split; [exact Hexec | exact Hlast].
Defined.

(** X27 on the empty table and a two-cycle instruction at [0xEA]. *)
Lemma table_add_remove_witness :
  let nop : Instruction RAM StepClock := mkInstruction 0xea (ret 2) in
  (∅ : InstructionTable RAM StepClock) !! opcode nop = None /\
  AddInstruction nop ∅ !! 0xea = Some nop /\
  RemoveInstruction 0xea (AddInstruction nop ∅) = ∅.
Proof.
  cbn zeta. split; [reflexivity|].
  destruct (table_add_remove (mkInstruction 0xea (ret 2) : Instruction RAM StepClock) ∅)
    as (H1 & H2 & _); [reflexivity|].
  split; [exact H1 | exact H2].
Defined.

(** X28 on the default divisor 12 with the master at tick 100. *)
Lemma Divider_delegates_witness :
  0 < 12 /\
  Divider.Start (NewDivider (100 : StepClock) 12) = Some (8, NewDivider 100 12) /\
  Divider.Ticks (NewDivider (100 : StepClock) 0) = None.
Proof.
  split; [lia|].
  destruct (Divider_delegates (100 : StepClock) 12 0) as (H1 & _ & _ & H4 & _);
    [lia|].
  split; [rewrite H1; reflexivity | exact H4].
Defined.

(** X29 at [SP = 1], where the third push wraps to [0x01FF]. *)
Lemma Brk_interrupt_witness :
  let cpu := core (machine [(0xfffe, 0x00); (0xffff, 0x90)]
                           (Registers.mk 0 0 0 0x41 0x01 0x8001)) in
  0 <= Registers.SP (Registers cpu) < 256 /\
  bus (Memory (snd (Brk cpu)))
    = [BusStore 0x0101 0x80; BusStore 0x0100 0x02; BusStore 0x01ff 0x51;
       BusFetch 0xfffe; BusFetch 0xffff] /\
  Registers.SP (Registers (snd (Brk cpu))) = 0xfe.
Proof.
  cbn zeta. split; [cbn; lia|].
  destruct (Brk_interrupt
              (core (machine [(0xfffe, 0x00); (0xffff, 0x90)]
                             (Registers.mk 0 0 0 0x41 0x01 0x8001))))
    as (H1 & _ & _ & _ & H5); [cbn; lia|].
  rewrite H1, H5. split; reflexivity.
Defined.
